(** * mcp2515.c: asynchronous MCP2515 SPI CAN controller driver

    A shallow embedding of the command sequencer and of the frame codec of
    [src/mcp2515.c].  The driver's private data, the device statistics, the
    SPI master's queue and the calls made into the kernel are carried in one
    explicit state; every C function of the sequencer becomes a function on
    that state.  Every handler reads and writes the three flag bits inside
    at most one critical section of the spin lock, and what follows that
    section (building the command and handing it to [spi_async]) is done
    only by the context that owns the chain; a handler is therefore one
    atomic step of the model, and the interleavings are the orders of the
    handler invocations (interrupt, submission, completion). *)

From Stdlib Require Import ZArith List Bool Lia.
From stdpp Require Import base list.
Import ListNotations.

Local Open Scope Z_scope.

(** ** C integer types

    A store into a [u8] or [u32] object keeps the low bits; the
    [unsigned long] statistics counters wrap at [2 ^ BITS_PER_LONG]. *)

Definition u8 (x : Z) : Z := Z.land x 0xff.
Definition u32 (x : Z) : Z := Z.land x 0xffffffff.

Definition BITS_PER_LONG : Z := 64.
Definition ulong (x : Z) : Z := x mod 2 ^ BITS_PER_LONG.

(** C truth value of an integer expression. *)
Definition truthy (x : Z) : bool := negb (x =? 0).

(** ** Constants of the source *)

(* RXBnSIDL bits *)
Definition RXBSIDL_SRR : Z := 0x10.
Definition RXBSIDL_IDE : Z := 0x08.

(* RXBnDLC bits *)
Definition RXBDLC_RTR : Z := 0x40.

(* CANINTF bits *)
Definition CANINTF_ERRIF : Z := 0x20.
Definition CANINTF_TX0IF : Z := 0x04.
Definition CANINTF_RX1IF : Z := 0x02.
Definition CANINTF_RX0IF : Z := 0x01.

(* EFLG bits *)
Definition EFLG_RX1OVR : Z := 0x80.
Definition EFLG_RX0OVR : Z := 0x40.

(** Modelled from the spec: the CAN Frame's tags of section 3 (an identifier
    "11-bit standard or 29-bit extended, tagged by a flag", a
    "remote-request flag").  <linux/can.h> is not under src/; the values are
    the ones of the kernel's user interface. *)
Definition CAN_EFF_FLAG : Z := 0x80000000.
Definition CAN_RTR_FLAG : Z := 0x40000000.
Definition CAN_ERR_FLAG : Z := 0x20000000.
Definition CAN_SFF_MASK : Z := 0x000007ff.
Definition CAN_EFF_MASK : Z := 0x1fffffff.

(** Modelled from the spec: [get_can_dlc] is a macro of <linux/can/dev.h>,
    not under src/; section 4.1 says the data-length code is "clamped/mapped
    to 0-8". *)
Definition get_can_dlc (i : Z) : Z := Z.min i 8.

(** ** Data model *)

(** [struct can_frame]: [can_id] is a 32-bit word (identifier and the
    EFF/RTR/ERR flags), [can_dlc] a byte, [data] an array of 8 bytes. *)
Record can_frame := mk_can_frame {
  can_id : Z;
  can_dlc : Z;
  data : list Z
}.

(** [struct sk_buff], as far as the driver looks into it: its length and the
    frame its data points to. *)
Record sk_buff := mk_sk_buff {
  skb_len : Z;
  skb_data : can_frame
}.

Definition sizeof_can_frame : Z := 16.

(** The seven completion callbacks a message can carry. *)
Inductive completion :=
| read_flags_complete
| read_rxb0_complete
| read_rxb1_complete
| clear_canintf_complete
| clear_eflg_complete
| load_txb0_complete
| rts_txb0_complete.

(** What [spi_async] is handed: the [transfer.len] bytes of the transmit
    buffer and the completion callback of the message. *)
Record spi_message := mk_spi_message {
  msg_bytes : list Z;
  msg_complete : option completion
}.

(** [struct mcp2515_priv].  [transfer_tx_buf] and [transfer_rx_buf] are the
    two 14-byte areas [transfer.tx_buf] and [transfer.rx_buf] point to. *)
Record mcp2515_priv := mk_priv {
  canintf : Z;
  eflg : Z;
  skb : option sk_buff;
  busy : bool;
  interrupt : bool;
  transmit : bool;
  message_complete : option completion;
  transfer_len : Z;
  transfer_rx_buf : list Z;
  transfer_tx_buf : list Z
}.

(** The counters of [dev->stats] the driver touches. *)
Record net_device_stats := mk_stats {
  rx_packets : Z;
  rx_bytes : Z;
  rx_dropped : Z;
  rx_over_errors : Z;
  tx_packets : Z;
  tx_bytes : Z;
  tx_dropped : Z
}.

(** Calls into the kernel, in the order they are made. *)
Inductive kcall :=
| spi_async (m : spi_message) (err : Z)
| netdev_err (err : Z)
| netif_rx (s : sk_buff)
| can_put_echo_skb (s : sk_buff)
| can_get_echo_skb
| netif_stop_queue
| netif_wake_queue.

(** [struct net_device] with what hangs off it: the private data, the
    statistics, the messages the SPI master has accepted and not yet
    completed, and the calls made so far. *)
Record net_device := mk_dev {
  priv : mcp2515_priv;
  stats : net_device_stats;
  spi_queue : list spi_message;
  trace : list kcall
}.

(** *** Field updates *)

Definition set_priv (f : mcp2515_priv -> mcp2515_priv) (dev : net_device) : net_device :=
  mk_dev (f (priv dev)) (stats dev) (spi_queue dev) (trace dev).

Definition set_stats (f : net_device_stats -> net_device_stats) (dev : net_device)
  : net_device :=
  mk_dev (priv dev) (f (stats dev)) (spi_queue dev) (trace dev).

Definition call (k : kcall) (dev : net_device) : net_device :=
  mk_dev (priv dev) (stats dev) (spi_queue dev) (trace dev ++ [k]).

Definition enqueue (m : spi_message) (dev : net_device) : net_device :=
  mk_dev (priv dev) (stats dev) (spi_queue dev ++ [m]) (trace dev).

Definition with_canintf (v : Z) (p : mcp2515_priv) : mcp2515_priv :=
  mk_priv v (eflg p) (skb p) (busy p) (interrupt p) (transmit p)
    (message_complete p) (transfer_len p) (transfer_rx_buf p) (transfer_tx_buf p).

Definition with_eflg (v : Z) (p : mcp2515_priv) : mcp2515_priv :=
  mk_priv (canintf p) v (skb p) (busy p) (interrupt p) (transmit p)
    (message_complete p) (transfer_len p) (transfer_rx_buf p) (transfer_tx_buf p).

Definition with_skb (v : option sk_buff) (p : mcp2515_priv) : mcp2515_priv :=
  mk_priv (canintf p) (eflg p) v (busy p) (interrupt p) (transmit p)
    (message_complete p) (transfer_len p) (transfer_rx_buf p) (transfer_tx_buf p).

Definition with_busy (v : bool) (p : mcp2515_priv) : mcp2515_priv :=
  mk_priv (canintf p) (eflg p) (skb p) v (interrupt p) (transmit p)
    (message_complete p) (transfer_len p) (transfer_rx_buf p) (transfer_tx_buf p).

Definition with_interrupt (v : bool) (p : mcp2515_priv) : mcp2515_priv :=
  mk_priv (canintf p) (eflg p) (skb p) (busy p) v (transmit p)
    (message_complete p) (transfer_len p) (transfer_rx_buf p) (transfer_tx_buf p).

Definition with_transmit (v : bool) (p : mcp2515_priv) : mcp2515_priv :=
  mk_priv (canintf p) (eflg p) (skb p) (busy p) (interrupt p) v
    (message_complete p) (transfer_len p) (transfer_rx_buf p) (transfer_tx_buf p).

Definition with_message_complete (v : completion) (p : mcp2515_priv) : mcp2515_priv :=
  mk_priv (canintf p) (eflg p) (skb p) (busy p) (interrupt p) (transmit p)
    (Some v) (transfer_len p) (transfer_rx_buf p) (transfer_tx_buf p).

Definition with_transfer_len (v : Z) (p : mcp2515_priv) : mcp2515_priv :=
  mk_priv (canintf p) (eflg p) (skb p) (busy p) (interrupt p) (transmit p)
    (message_complete p) v (transfer_rx_buf p) (transfer_tx_buf p).

Definition with_rx_buf (v : list Z) (p : mcp2515_priv) : mcp2515_priv :=
  mk_priv (canintf p) (eflg p) (skb p) (busy p) (interrupt p) (transmit p)
    (message_complete p) (transfer_len p) v (transfer_tx_buf p).

Definition with_tx_buf (v : list Z) (p : mcp2515_priv) : mcp2515_priv :=
  mk_priv (canintf p) (eflg p) (skb p) (busy p) (interrupt p) (transmit p)
    (message_complete p) (transfer_len p) (transfer_rx_buf p) v.

(** ** Byte buffers

    [buf[i] = v] on a [u8] array; an index past the end is undefined in C
    and leaves the list as it is here (no function of the driver writes past
    index 13 of its 14-byte buffers). *)
Definition store (i : nat) (v : Z) (buf : list Z) : list Z := <[i := u8 v]> buf.

(** [memset(buf, c, n)]. *)
Definition memset (c : Z) (n : nat) (buf : list Z) : list Z :=
  list_inserts 0 (replicate n (u8 c)) buf.

(** [memcpy(dst + off, src, n)]. *)
Definition memcpy (off : nat) (src : list Z) (n : Z) (dst : list Z) : list Z :=
  list_inserts off (take (Z.to_nat n) src) dst.

(** ** Frame codec *)

(** [mcp2515_set_txbuf(buf + base, skb)]: the buffer after the writes and
    the returned length. *)
Definition mcp2515_set_txbuf (base : nat) (buf : list Z) (s : sk_buff) : list Z * Z :=
  let frame := skb_data s in
  let buf :=
    if truthy (Z.land (can_id frame) CAN_EFF_FLAG) then
      let buf := store (base + 0) (Z.shiftr (can_id frame) 21) buf in
      let buf := store (base + 1)
                   (Z.lor (Z.lor (Z.land (Z.shiftr (can_id frame) 13) 0xe0) 8)
                          (Z.land (Z.shiftr (can_id frame) 16) 3)) buf in
      let buf := store (base + 2) (Z.shiftr (can_id frame) 8) buf in
      store (base + 3) (can_id frame) buf
    else
      let buf := store (base + 0) (Z.shiftr (can_id frame) 3) buf in
      let buf := store (base + 1) (u32 (Z.shiftl (can_id frame) 5)) buf in
      let buf := store (base + 2) 0 buf in
      store (base + 3) 0 buf in
  let buf :=
    if truthy (Z.land (can_id frame) CAN_RTR_FLAG) then
      store (base + 4) (Z.lor (can_dlc frame) 0x40) buf
    else
      store (base + 4) (can_dlc frame) buf in
  let buf := memcpy (base + 5) (data frame) (can_dlc frame) buf in
  (buf, 5 + can_dlc frame).

(** Modelled from the spec: [alloc_can_skb] is a function of the kernel, not
    under src/; section 7 (d) says the allocation "when preparing a receive
    delivery" can fail.  When it succeeds the frame of the new buffer is
    zeroed. *)
Definition alloc_can_skb (ok : bool) : option sk_buff :=
  if ok then Some (mk_sk_buff sizeof_can_frame (mk_can_frame 0 0 (replicate 8 0)))
  else None.

(** The decoding part of [mcp2515_read_rxb_complete]: the frame that is
    written into the freshly allocated buffer from the receive bytes. *)
Definition decode_rxb (buf : list Z) (frame : can_frame) : can_frame :=
  let id :=
    if truthy (Z.land (buf !!! 2%nat) RXBSIDL_IDE) then
      let id := u32 (Z.lor (Z.lor (Z.lor (Z.lor (Z.lor
                  (Z.shiftl (buf !!! 1%nat) 21)
                  (Z.shiftl (Z.land (buf !!! 2%nat) 0xe0) 13))
                  (Z.shiftl (Z.land (buf !!! 2%nat) 3) 16))
                  (Z.shiftl (buf !!! 3%nat) 8))
                  (buf !!! 4%nat))
                  CAN_EFF_FLAG) in
      if truthy (Z.land (buf !!! 5%nat) RXBDLC_RTR)
      then u32 (Z.lor id CAN_RTR_FLAG) else id
    else
      let id := u32 (Z.lor (Z.shiftl (buf !!! 1%nat) 3)
                           (Z.shiftr (buf !!! 2%nat) 5)) in
      if truthy (Z.land (buf !!! 2%nat) RXBSIDL_SRR)
      then u32 (Z.lor id CAN_RTR_FLAG) else id in
  let dlc := u8 (get_can_dlc (Z.land (buf !!! 5%nat) 0xf)) in
  mk_can_frame id dlc (memcpy 0 (drop 6 buf) dlc (data frame)).

(** ** Statistics counters *)

Definition inc_rx_packets (s : net_device_stats) : net_device_stats :=
  mk_stats (ulong (rx_packets s + 1)) (rx_bytes s) (rx_dropped s) (rx_over_errors s)
    (tx_packets s) (tx_bytes s) (tx_dropped s).

Definition add_rx_bytes (n : Z) (s : net_device_stats) : net_device_stats :=
  mk_stats (rx_packets s) (ulong (rx_bytes s + n)) (rx_dropped s) (rx_over_errors s)
    (tx_packets s) (tx_bytes s) (tx_dropped s).

Definition inc_rx_dropped (s : net_device_stats) : net_device_stats :=
  mk_stats (rx_packets s) (rx_bytes s) (ulong (rx_dropped s + 1)) (rx_over_errors s)
    (tx_packets s) (tx_bytes s) (tx_dropped s).

Definition inc_rx_over_errors (s : net_device_stats) : net_device_stats :=
  mk_stats (rx_packets s) (rx_bytes s) (rx_dropped s) (ulong (rx_over_errors s + 1))
    (tx_packets s) (tx_bytes s) (tx_dropped s).

Definition inc_tx_packets (s : net_device_stats) : net_device_stats :=
  mk_stats (rx_packets s) (rx_bytes s) (rx_dropped s) (rx_over_errors s)
    (ulong (tx_packets s + 1)) (tx_bytes s) (tx_dropped s).

Definition add_tx_bytes (n : Z) (s : net_device_stats) : net_device_stats :=
  mk_stats (rx_packets s) (rx_bytes s) (rx_dropped s) (rx_over_errors s)
    (tx_packets s) (ulong (tx_bytes s + n)) (tx_dropped s).

Definition inc_tx_dropped (s : net_device_stats) : net_device_stats :=
  mk_stats (rx_packets s) (rx_bytes s) (rx_dropped s) (rx_over_errors s)
    (tx_packets s) (tx_bytes s) (ulong (tx_dropped s + 1)).

(** ** Command builder *)

(** [buf[i] = v] on [priv->transfer.tx_buf]. *)
Definition tx_store (i : nat) (v : Z) (dev : net_device) : net_device :=
  set_priv (fun p => with_tx_buf (store i v (transfer_tx_buf p)) p) dev.

(** The message as the SPI master will see it. *)
Definition message (dev : net_device) : spi_message :=
  mk_spi_message
    (take (Z.to_nat (transfer_len (priv dev))) (transfer_tx_buf (priv dev)))
    (message_complete (priv dev)).

(** [mcp2515_spi_async]: [err] is what the kernel's [spi_async] returns; the
    message is queued when it is zero. *)
Definition mcp2515_spi_async (err : Z) (dev : net_device) : net_device :=
  let m := message dev in
  let dev := call (spi_async m err) dev in
  if truthy err then call (netdev_err err) dev else enqueue m dev.

Definition mcp2515_read_flags (err : Z) (dev : net_device) : net_device :=
  let dev := tx_store 0 3 dev in
  let dev := tx_store 1 0x2c dev in
  let dev := tx_store 2 0 dev in
  let dev := tx_store 3 0 dev in
  let dev := set_priv (with_transfer_len 4) dev in
  let dev := set_priv (with_message_complete read_flags_complete) dev in
  mcp2515_spi_async err dev.

Definition mcp2515_read_rxb (err : Z) (instruction : Z) (complete : completion)
    (dev : net_device) : net_device :=
  let dev := set_priv (fun p => with_tx_buf (memset 0 14 (transfer_tx_buf p)) p) dev in
  let dev := tx_store 0 instruction dev in
  let dev := set_priv (with_transfer_len 14) dev in
  let dev := set_priv (with_message_complete complete) dev in
  mcp2515_spi_async err dev.

Definition mcp2515_read_rxb0 (err : Z) (dev : net_device) : net_device :=
  mcp2515_read_rxb err 0x90 read_rxb0_complete dev.

Definition mcp2515_read_rxb1 (err : Z) (dev : net_device) : net_device :=
  mcp2515_read_rxb err 0x94 read_rxb1_complete dev.

Definition mcp2515_clear_canintf (err : Z) (dev : net_device) : net_device :=
  let dev := tx_store 0 5 dev in
  let dev := tx_store 1 0x2c dev in
  let dev := tx_store 2 (Z.land (canintf (priv dev))
                                (Z.lnot (Z.lor CANINTF_RX0IF CANINTF_RX1IF))) dev in
  let dev := tx_store 3 0 dev in
  let dev := set_priv (with_transfer_len 4) dev in
  let dev := set_priv (with_message_complete clear_canintf_complete) dev in
  mcp2515_spi_async err dev.

Definition mcp2515_clear_eflg (err : Z) (dev : net_device) : net_device :=
  let dev := tx_store 0 5 dev in
  let dev := tx_store 1 0x2d dev in
  let dev := tx_store 2 (eflg (priv dev)) dev in
  let dev := tx_store 3 0 dev in
  let dev := set_priv (with_transfer_len 4) dev in
  let dev := set_priv (with_message_complete clear_eflg_complete) dev in
  mcp2515_spi_async err dev.

Definition mcp2515_load_txb0 (err : Z) (s : sk_buff) (dev : net_device) : net_device :=
  let dev := tx_store 0 0x40 dev in
  let '(buf, n) := mcp2515_set_txbuf 1 (transfer_tx_buf (priv dev)) s in
  let dev := set_priv (with_tx_buf buf) dev in
  let dev := set_priv (with_transfer_len (n + 1)) dev in
  let dev := set_priv (with_message_complete load_txb0_complete) dev in
  mcp2515_spi_async err dev.

Definition mcp2515_rts_txb0 (err : Z) (dev : net_device) : net_device :=
  let dev := tx_store 0 0x81 dev in
  let dev := set_priv (with_transfer_len 1) dev in
  let dev := set_priv (with_message_complete rts_txb0_complete) dev in
  mcp2515_spi_async err dev.

(** ** Completion callbacks

    [mcp2515_load_txb0 (priv->skb, dev)] reads through [priv->skb]; where
    that pointer is NULL the C program has no defined behaviour and the
    function below has no result. *)

Definition load_priv_skb (err : Z) (dev : net_device) : option net_device :=
  match skb (priv dev) with
  | Some s => Some (mcp2515_load_txb0 err s dev)
  | None => None
  end.

Definition mcp2515_read_flags_complete (err : Z) (dev : net_device)
  : option net_device :=
  let buf := transfer_rx_buf (priv dev) in
  let canintf := buf !!! 2%nat in
  let dev := set_priv (with_canintf (u8 canintf)) dev in
  let dev := set_priv (with_eflg (u8 (buf !!! 3%nat))) dev in
  if truthy (Z.land canintf CANINTF_RX0IF) then
    Some (mcp2515_read_rxb0 err dev)
  else if truthy (Z.land canintf CANINTF_RX1IF) then
    Some (mcp2515_read_rxb1 err dev)
  else if truthy canintf then
    Some (mcp2515_clear_canintf err dev)
  else if transmit (priv dev) then
    let dev := set_priv (with_transmit false) dev in
    load_priv_skb err dev
  else if interrupt (priv dev) then
    let dev := set_priv (with_interrupt false) dev in
    Some (mcp2515_read_flags err dev)
  else
    Some (set_priv (with_busy false) dev).

Definition mcp2515_read_rxb_complete (alloc_ok : bool) (dev : net_device)
  : net_device :=
  match alloc_can_skb alloc_ok with
  | None => set_stats inc_rx_dropped dev
  | Some s =>
      let frame := decode_rxb (transfer_rx_buf (priv dev)) (skb_data s) in
      let dev := set_stats inc_rx_packets dev in
      let dev := set_stats (add_rx_bytes (can_dlc frame)) dev in
      call (netif_rx (mk_sk_buff (skb_len s) frame)) dev
  end.

Definition mcp2515_transmit_or_read_flags (err : Z) (dev : net_device)
  : option net_device :=
  if transmit (priv dev) then
    let dev := set_priv (with_transmit false) dev in
    load_priv_skb err dev
  else
    Some (mcp2515_read_flags err dev).

Definition mcp2515_read_rxb0_complete (alloc_ok : bool) (err : Z) (dev : net_device)
  : option net_device :=
  let dev := mcp2515_read_rxb_complete alloc_ok dev in
  if truthy (Z.land (canintf (priv dev)) CANINTF_RX1IF) then
    Some (mcp2515_read_rxb1 err dev)
  else
    mcp2515_transmit_or_read_flags err dev.

Definition mcp2515_read_rxb1_complete (alloc_ok : bool) (err : Z) (dev : net_device)
  : option net_device :=
  let dev := mcp2515_read_rxb_complete alloc_ok dev in
  mcp2515_transmit_or_read_flags err dev.

Definition mcp2515_clear_canintf_complete (err : Z) (dev : net_device) : net_device :=
  let dev :=
    if truthy (Z.land (canintf (priv dev)) CANINTF_TX0IF) then
      let dev :=
        match skb (priv dev) with
        | Some s =>
            let dev := set_stats (add_tx_bytes (can_dlc (skb_data s))) dev in
            let dev := set_stats inc_tx_packets dev in
            let dev := call (can_put_echo_skb s) dev in
            call can_get_echo_skb dev
        | None => dev
        end in
      let dev := set_priv (with_skb None) dev in
      call netif_wake_queue dev
    else dev in
  if truthy (eflg (priv dev)) then mcp2515_clear_eflg err dev
  else mcp2515_read_flags err dev.

Definition mcp2515_clear_eflg_complete (err : Z) (dev : net_device) : net_device :=
  let dev :=
    if truthy (Z.land (eflg (priv dev)) (Z.lor EFLG_RX0OVR EFLG_RX1OVR))
    then set_stats inc_rx_over_errors dev else dev in
  mcp2515_read_flags err dev.

Definition mcp2515_load_txb0_complete (err : Z) (dev : net_device) : net_device :=
  mcp2515_rts_txb0 err dev.

Definition mcp2515_rts_txb0_complete (err : Z) (dev : net_device) : net_device :=
  mcp2515_read_flags err dev.

(** ** Producers *)

Inductive irqreturn_t := IRQ_NONE | IRQ_HANDLED.

Definition mcp2515_interrupt (err : Z) (dev : net_device) : irqreturn_t * net_device :=
  if busy (priv dev) then
    (IRQ_HANDLED, set_priv (with_interrupt true) dev)
  else
    let dev := set_priv (with_busy true) dev in
    (IRQ_HANDLED, mcp2515_read_flags err dev).

(** The two answers [ndo_start_xmit] can give the network stack: the frame
    was taken, or the driver is busy and the stack must hand it in again. *)
Inductive netdev_tx_t := NETDEV_TX_OK | NETDEV_TX_BUSY.

(** Modelled from the spec: [can_dropped_invalid_skb] is a function of
    <linux/can/dev.h>, not under src/; section 7 (c) says a
    "malformed/oversized submitted frame" is "rejected synchronously at
    submit, never reaches the command layer".  A buffer that does not hold
    exactly one [struct can_frame], or whose length code exceeds 8, is
    counted as dropped. *)
Definition can_dropped_invalid_skb (dev : net_device) (s : sk_buff)
  : bool * net_device :=
  if negb (skb_len s =? sizeof_can_frame) || (8 <? can_dlc (skb_data s))
  then (true, set_stats inc_tx_dropped dev)
  else (false, dev).

Definition mcp2515_start_xmit (err : Z) (s : sk_buff) (dev : net_device)
  : netdev_tx_t * net_device :=
  let '(dropped, dev) := can_dropped_invalid_skb dev s in
  if dropped then (NETDEV_TX_OK, dev)
  else
    let dev := call netif_stop_queue dev in
    let dev := set_priv (with_skb (Some s)) dev in
    if busy (priv dev) then
      (NETDEV_TX_OK, set_priv (with_transmit true) dev)
    else
      let dev := set_priv (with_busy true) dev in
      (NETDEV_TX_OK, mcp2515_load_txb0 err s dev).

(** ** The driver against its environment

    An event is one invocation of a handler by the kernel: the interrupt
    line, a submission by the network stack, or the SPI master completing
    the message at the head of its queue.  [err] is what [spi_async] will
    answer if the handler calls it, [alloc_ok] whether [alloc_can_skb] will
    succeed, [reply] the bytes the chip clocks out. *)
Inductive event :=
| ev_interrupt (err : Z)
| ev_start_xmit (s : sk_buff) (err : Z)
| ev_spi_complete (reply : list Z) (alloc_ok : bool) (err : Z).

Definition run_complete (cb : completion) (alloc_ok : bool) (err : Z)
    (dev : net_device) : option net_device :=
  match cb with
  | read_flags_complete => mcp2515_read_flags_complete err dev
  | read_rxb0_complete => mcp2515_read_rxb0_complete alloc_ok err dev
  | read_rxb1_complete => mcp2515_read_rxb1_complete alloc_ok err dev
  | clear_canintf_complete => Some (mcp2515_clear_canintf_complete err dev)
  | clear_eflg_complete => Some (mcp2515_clear_eflg_complete err dev)
  | load_txb0_complete => Some (mcp2515_load_txb0_complete err dev)
  | rts_txb0_complete => Some (mcp2515_rts_txb0_complete err dev)
  end.

(** The SPI master finishes the head of its queue: it has written
    [transfer.len] reply bytes into the receive buffer and calls
    [message.complete].  There is one [struct spi_message] per device, so
    the callback and the length are the ones the structure holds now. *)
Definition spi_complete (reply : list Z) (alloc_ok : bool) (err : Z)
    (dev : net_device) : option net_device :=
  match spi_queue dev with
  | [] => None
  | _ :: q =>
      let n := Z.to_nat (transfer_len (priv dev)) in
      let rx := list_inserts 0 (u8 <$> take n reply) (transfer_rx_buf (priv dev)) in
      let dev := mk_dev (with_rx_buf rx (priv dev)) (stats dev) q (trace dev) in
      match message_complete (priv dev) with
      | Some cb => run_complete cb alloc_ok err dev
      | None => Some dev
      end
  end.

Definition step (e : event) (dev : net_device) : option net_device :=
  match e with
  | ev_interrupt err => Some (snd (mcp2515_interrupt err dev))
  | ev_start_xmit s err => Some (snd (mcp2515_start_xmit err s dev))
  | ev_spi_complete reply alloc_ok err => spi_complete reply alloc_ok err dev
  end.

Fixpoint run (es : list event) (dev : net_device) : option net_device :=
  match es with
  | [] => Some dev
  | e :: es =>
      match step e dev with
      | Some dev => run es dev
      | None => None
      end
  end.

(** The device as [alloc_candev] hands it over: zeroed private data and
    counters, nothing queued, nothing called. *)
Definition fresh_dev : net_device :=
  mk_dev
    (mk_priv 0 0 None false false false None 0 (replicate 14 0) (replicate 14 0))
    (mk_stats 0 0 0 0 0 0 0) [] [].

(** ** Views used by the statements *)

(** The three parts of [can_id]. *)
Definition frame_is_eff (f : can_frame) : bool :=
  truthy (Z.land (can_id f) CAN_EFF_FLAG).

Definition frame_is_rtr (f : can_frame) : bool :=
  truthy (Z.land (can_id f) CAN_RTR_FLAG).

Definition frame_ident (f : can_frame) : Z :=
  Z.land (can_id f) (if frame_is_eff f then CAN_EFF_MASK else CAN_SFF_MASK).

Definition is_byte (b : Z) : bool := (0 <=? b) && (b <? 256).

(** A valid CAN frame (section 3): a 32-bit [can_id] whose identifier fits
    11 bits unless the frame is extended, a length of 0 to 8, and 8 payload
    bytes. *)
Definition valid_frame (f : can_frame) : bool :=
  (0 <=? can_id f) && (can_id f <? 2 ^ 32)
  && (frame_is_eff f || (Z.land (can_id f) CAN_EFF_MASK <=? CAN_SFF_MASK))
  && (0 <=? can_dlc f) && (can_dlc f <=? 8)
  && (length (data f) =? 8)%nat && forallb is_byte (data f).

(** A socket buffer the network stack can hand to [ndo_start_xmit] and that
    passes [can_dropped_invalid_skb]. *)
Definition wellformed_skb (s : sk_buff) : bool :=
  (skb_len s =? sizeof_can_frame)
  && (0 <=? can_dlc (skb_data s)) && (can_dlc (skb_data s) <=? 8)
  && (length (data (skb_data s)) =? 8)%nat.

(** The frame [alloc_can_skb] hands to the decoder. *)
Definition zeroed_frame : can_frame := mk_can_frame 0 0 (replicate 8 0).

(** The transmit area holds its 14 bytes. *)
Definition buffers_ok (dev : net_device) : Prop :=
  (14 <= length (transfer_tx_buf (priv dev)))%nat.

(** The messages handed to [spi_async] in a sequence of calls. *)
Fixpoint spi_calls (t : list kcall) : list spi_message :=
  match t with
  | [] => []
  | spi_async m _ :: t => m :: spi_calls t
  | _ :: t => spi_calls t
  end.

(** The commands issued between [dev] and a later state [dev']. *)
Definition issued_by (dev dev' : net_device) : list spi_message :=
  spi_calls (drop (length (trace dev)) (trace dev')).

Definition err_report (err : Z) : list kcall :=
  if truthy err then [netdev_err err] else [].

Definition accepted (err : Z) (m : spi_message) : list spi_message :=
  if truthy err then [] else [m].

(** Everything of the private data but the transmit area, its length and
    the callback of the message. *)
Definition same_snapshot (p p' : mcp2515_priv) : Prop :=
  canintf p' = canintf p /\ eflg p' = eflg p /\ skb p' = skb p /\
  busy p' = busy p /\ interrupt p' = interrupt p /\ transmit p' = transmit p /\
  transfer_rx_buf p' = transfer_rx_buf p /\
  length (transfer_tx_buf p') = length (transfer_tx_buf p).

(** [dev'] is [dev] after command [m] was built and handed to [spi_async],
    which answered [err]: one call (and its error report), the message
    queued when accepted, nothing else touched. *)
Definition sends (err : Z) (m : spi_message) (dev dev' : net_device) : Prop :=
  message dev' = m /\
  trace dev' = trace dev ++ spi_async m err :: err_report err /\
  spi_queue dev' = spi_queue dev ++ accepted err m /\
  stats dev' = stats dev /\
  same_snapshot (priv dev) (priv dev').

(** The commands of section 4.2 as the bytes on the wire. *)
Definition cmd_read_flags : spi_message :=
  mk_spi_message [3; 0x2c; 0; 0] (Some read_flags_complete).

Definition cmd_read_rxb0 : spi_message :=
  mk_spi_message (0x90 :: replicate 13 0) (Some read_rxb0_complete).

Definition cmd_read_rxb1 : spi_message :=
  mk_spi_message (0x94 :: replicate 13 0) (Some read_rxb1_complete).

Definition cmd_clear_canintf (mask : Z) : spi_message :=
  mk_spi_message [5; 0x2c; mask; 0] (Some clear_canintf_complete).

Definition cmd_clear_eflg (mask : Z) : spi_message :=
  mk_spi_message [5; 0x2d; mask; 0] (Some clear_eflg_complete).

Definition cmd_load_txb0 (s : sk_buff) : spi_message :=
  mk_spi_message
    (take (Z.to_nat (6 + can_dlc (skb_data s)))
       (fst (mcp2515_set_txbuf 1 (0x40 :: replicate 13 0) s)))
    (Some load_txb0_complete).

Definition cmd_rts_txb0 : spi_message :=
  mk_spi_message [0x81] (Some rts_txb0_complete).

(** The sequencer's invariant: at most one message is with the SPI master,
    and none when [busy] is clear. *)
Definition one_outstanding (dev : net_device) : Prop :=
  (length (spi_queue dev) <= 1)%nat /\
  (busy (priv dev) = false -> spi_queue dev = []).

Definition is_producer (e : event) : bool :=
  match e with
  | ev_interrupt _ | ev_start_xmit _ _ => true
  | ev_spi_complete _ _ _ => false
  end.

(** ** Outcome of a handler *)

(** The calls that reach the network stack. *)
Fixpoint stack_calls (t : list kcall) : list kcall :=
  match t with
  | [] => []
  | spi_async _ _ :: t | netdev_err _ :: t => stack_calls t
  | k :: t => k :: stack_calls t
  end.

(** The state after the flags reply was stored in the snapshots. *)
Definition flags_stored (dev : net_device) : net_device :=
  set_priv (with_eflg (u8 (transfer_rx_buf (priv dev) !!! 3%nat)))
    (set_priv (with_canintf (u8 (transfer_rx_buf (priv dev) !!! 2%nat))) dev).

(** The callback went on with the chain: after some bookkeeping that
    neither touches the queue nor [busy] nor calls [spi_async], it sent
    one command. *)
Definition chain_step (err : Z) (dev dev' : net_device) : Prop :=
  exists m d1,
    sends err m d1 dev' /\
    spi_queue d1 = spi_queue dev /\
    busy (priv d1) = busy (priv dev) /\
    exists l, trace d1 = trace dev ++ l /\ spi_calls l = [].

(** What one step does to the queue, to [busy] and to the calls: either it
    sends one command or none.  [q0] is the queue the handler starts from,
    which for a completion is the queue without the finished message. *)
Definition step_sends_one (e : event) (q0 : list spi_message)
    (dev dev' : net_device) : Prop :=
  exists err m l,
    trace dev' = trace dev ++ l /\ spi_calls l = [m] /\
    spi_queue dev' = q0 ++ accepted err m /\
    (if is_producer e
     then busy (priv dev) = false /\ busy (priv dev') = true
     else busy (priv dev') = busy (priv dev)).

Definition step_sends_none (e : event) (q0 : list spi_message)
    (dev dev' : net_device) : Prop :=
  exists l,
    trace dev' = trace dev ++ l /\ spi_calls l = [] /\
    spi_queue dev' = q0 /\
    (busy (priv dev') = busy (priv dev) \/
     (is_producer e = false /\ busy (priv dev') = false)).

(** ** Concrete inputs *)

(** Standard frame 0x123 with three payload bytes. *)
Definition skb_std : sk_buff :=
  mk_sk_buff 16 (mk_can_frame 0x123 3 [1; 2; 3; 0; 0; 0; 0; 0]).

(** Standard remote-request frame 0x123. *)
Definition skb_std_rtr : sk_buff :=
  mk_sk_buff 16 (mk_can_frame 0x40000123 0 [0; 0; 0; 0; 0; 0; 0; 0]).

(** Extended remote-request frame 0x1ABCDEF1 with length code 8. *)
Definition skb_ext_rtr : sk_buff :=
  mk_sk_buff 16 (mk_can_frame 0xDABCDEF1 8 [1; 2; 3; 4; 5; 6; 7; 8]).

(** A device in the middle of a chain: [busy] set, the flags read with the
    SPI master. *)
Definition busy_dev : net_device :=
  snd (mcp2515_interrupt 0 fresh_dev).

(** A device whose flags read has just come back with reply [reply], the
    frame [s] in the transmit slot. *)
Definition flags_read_dev (s : option sk_buff) (reply : list Z) : net_device :=
  mk_dev
    (mk_priv 0 0 s true false false (Some read_flags_complete) 4
       (list_inserts 0 reply (replicate 14 0)) (3 :: 0x2c :: replicate 12 0))
    (mk_stats 0 0 0 0 0 0 0) [] [].

(** A device whose clear-status command has just completed: the status
    snapshot is [st], the error snapshot [ef], [s] is in the transmit
    slot. *)
Definition status_cleared_dev (s : option sk_buff) (st ef : Z) : net_device :=
  mk_dev
    (mk_priv st ef s true false false (Some clear_canintf_complete) 4
       (replicate 14 0) (5 :: 0x2c :: st :: replicate 11 0))
    (mk_stats 0 0 0 0 0 0 0) [] [].

(** A device with a transmission pending: the frame was submitted while
    the flags read of an interrupt was outstanding. *)
Definition pending_dev : net_device :=
  snd (mcp2515_start_xmit 0 skb_std busy_dev).

(** A device whose clear-error command has just completed: both overflow
    bits are in the error snapshot. *)
Definition overflow_dev : net_device :=
  mk_dev
    (mk_priv 0x20 0xc0 None true false false (Some clear_eflg_complete) 4
       (replicate 14 0) (5 :: 0x2d :: 0xc0 :: replicate 11 0))
    (mk_stats 0 0 0 0 0 0 0) [] [].

(** An interrupt, a submission while the flags read is outstanding, and
    the completion of that read with no status bit set. *)
Definition example_events : list event :=
  [ev_interrupt 0; ev_start_xmit skb_std 0; ev_spi_complete [0; 0; 0; 0] true 0].

(** ** Synchronous configuration and lifecycle *)

(* Registers *)
Definition CANCTRL : Z := 0x0f.
Definition RXB0CTRL : Z := 0x60.
Definition RXB1CTRL : Z := 0x70.

(* RXBnCTRL bits *)
Definition RXBCTRL_RXM1 : Z := 0x40.
Definition RXBCTRL_RXM0 : Z := 0x20.
Definition RXBCTRL_BUKT : Z := 0x04.

(** Modelled from the spec: [CAN_CTRLMODE_3_SAMPLES] is a constant of
    <linux/can/netlink.h>, not under src/; section 6 has the attach supply
    the "resolved bit-timing fields", of which triple sampling is one.  The
    value is the one of the kernel's user interface. *)
Definition CAN_CTRLMODE_3_SAMPLES : Z := 0x04.

(** [struct can_bittiming], the fields [mcp2515_config] reads; each is a
    32-bit word. *)
Record can_bittiming := mk_can_bittiming {
  sjw : Z;
  brp : Z;
  prop_seg : Z;
  phase_seg1 : Z;
  phase_seg2 : Z
}.

(** [struct can_priv], the fields [mcp2515_config] reads. *)
Record can_priv := mk_can_priv {
  bittiming : can_bittiming;
  ctrlmode : Z
}.

(** [struct can_bittiming_const] without its name. *)
Record can_bittiming_const := mk_can_bittiming_const {
  tseg1_min : Z;
  tseg1_max : Z;
  tseg2_min : Z;
  tseg2_max : Z;
  sjw_max : Z;
  brp_min : Z;
  brp_max : Z;
  brp_inc : Z
}.

Definition mcp2515_bittiming_const : can_bittiming_const :=
  mk_can_bittiming_const 2 16 2 8 4 1 64 1.

(** Calls of the synchronous paths into the kernel, with the value each
    fallible one answered. *)
Inductive lifecycle_call :=
| spi_write (bytes : list Z) (err : Z)
| open_candev (err : Z)
| close_candev
| request_irq (err : Z)
| free_irq
| netdev_info (b4 b3 b2 : Z)
| to_stack (k : kcall).

(** The kernel as the synchronous paths see it: the answers it will give to
    the fallible calls, in the order they are made (success once the list
    is used up), and the calls made so far. *)
Record kernel := mk_kernel {
  answers : list Z;
  calls : list lifecycle_call
}.

(** A synchronous path: it threads the kernel and gives a result. *)
Definition sync (A : Type) : Type := kernel -> A * kernel.

Definition sync_ret {A : Type} (a : A) : sync A := fun k => (a, k).

Definition sync_bind {A B : Type} (m : sync A) (f : A -> sync B) : sync B :=
  fun k => let '(a, k) := m k in f a k.

Notation "'let*' x := m 'in' f" := (sync_bind m (fun x => f))
  (at level 10, x name, m at level 200, f at level 200).

(** A fallible call: the kernel's next answer is its result. *)
Definition asks (c : Z -> lifecycle_call) : sync Z :=
  fun k =>
    let err := hd 0 (answers k) in
    (err, mk_kernel (tl (answers k)) (calls k ++ [c err])).

(** A call without a result. *)
Definition tells (c : lifecycle_call) : sync unit :=
  fun k => (tt, mk_kernel (answers k) (calls k ++ [c])).

Definition mcp2515_write (addr value : Z) : sync Z :=
  asks (spi_write [u8 2; u8 addr; u8 value]).

Definition mcp2515_reset : sync Z :=
  asks (spi_write [u8 0xc0]).

(** The six bytes [mcp2515_config] builds: the write instruction, the
    address of CNF3, then CNF3, CNF2, CNF1 and CANINTE. *)
Definition config_buf (can : can_priv) : list Z :=
  let bt := bittiming can in
  [ u8 2;
    u8 0x28;
    u8 (u32 (phase_seg2 bt - 1));
    u8 (Z.lor
          (Z.lor (if truthy (Z.land (ctrlmode can) CAN_CTRLMODE_3_SAMPLES)
                  then 0xc0 else 0x80)
                 (u32 (Z.shiftl (u32 (phase_seg1 bt - 1)) 3)))
          (u32 (prop_seg bt - 1)));
    u8 (Z.lor (u32 (Z.shiftl (u32 (sjw bt - 1)) 6)) (u32 (brp bt - 1)));
    u8 (Z.lnot 0) ].

Definition mcp2515_config (can : can_priv) : sync Z :=
  let buf := config_buf can in
  let* err := asks (spi_write buf) in
  if truthy err then sync_ret err else
  let* err := mcp2515_write RXB0CTRL
           (Z.lor (Z.lor RXBCTRL_RXM1 RXBCTRL_RXM0) RXBCTRL_BUKT) in
  if truthy err then sync_ret err else
  let* err := mcp2515_write RXB1CTRL (Z.lor RXBCTRL_RXM1 RXBCTRL_RXM0) in
  if truthy err then sync_ret err else
  let* err := mcp2515_write CANCTRL 0 in
  if truthy err then sync_ret err else
  let* _ := tells (netdev_info (buf !!! 4%nat) (buf !!! 3%nat) (buf !!! 2%nat)) in
  sync_ret 0.

Definition mcp2515_open (can : can_priv) : sync Z :=
  let* err := mcp2515_reset in
  if truthy err then sync_ret err else
  let* err := asks open_candev in
  if truthy err then sync_ret err else
  let* err := asks request_irq in
  if truthy err then
    let* _ := tells close_candev in
    sync_ret err
  else
  let* err := mcp2515_config can in
  if truthy err then
    let* _ := mcp2515_reset in
    let* _ := tells free_irq in
    let* _ := tells close_candev in
    sync_ret err
  else
  let* _ := tells (to_stack netif_wake_queue) in
  sync_ret 0.

Definition mcp2515_stop : sync Z :=
  let* _ := mcp2515_reset in
  let* _ := tells close_candev in
  let* _ := tells free_irq in
  sync_ret 0.

Definition mcp2515_set_mode (mode : Z) : Z := 0.

(** *** Views of the synchronous paths *)

(** The calls made between [k] and a later kernel [k']. *)
Definition new_calls (k k' : kernel) : list lifecycle_call :=
  drop (length (calls k)) (calls k').

(** Index and value of the first failure among the first [n] answers. *)
Fixpoint first_failure (n : nat) (rs : list Z) : option (nat * Z) :=
  match n, rs with
  | O, _ | _, [] => None
  | S n, r :: rs =>
      if truthy r then Some (O, r)
      else match first_failure n rs with
           | Some (i, e) => Some (S i, e)
           | None => None
           end
  end.

(** The four register writes of [mcp2515_config], in order. *)
Definition config_writes (can : can_priv) : list (list Z) :=
  [ config_buf can; [2; 0x60; 0x64]; [2; 0x70; 0x60]; [2; 0x0f; 0] ].

(** How many interrupt lines, and how many opened CAN devices, a sequence
    of calls leaves held. *)
Fixpoint irq_held (l : list lifecycle_call) : Z :=
  match l with
  | [] => 0
  | request_irq err :: l => (if truthy err then 0 else 1) + irq_held l
  | free_irq :: l => irq_held l - 1
  | _ :: l => irq_held l
  end.

Fixpoint candev_held (l : list lifecycle_call) : Z :=
  match l with
  | [] => 0
  | open_candev err :: l => (if truthy err then 0 else 1) + candev_held l
  | close_candev :: l => candev_held l - 1
  | _ :: l => candev_held l
  end.

(** The bit-timing fields each fit the register field that takes them. *)
Definition bittiming_fits (bt : can_bittiming) : bool :=
  (1 <=? sjw bt) && (sjw bt <=? sjw_max mcp2515_bittiming_const)
  && (brp_min mcp2515_bittiming_const <=? brp bt)
  && (brp bt <=? brp_max mcp2515_bittiming_const)
  && (1 <=? prop_seg bt) && (prop_seg bt <=? 8)
  && (1 <=? phase_seg1 bt) && (phase_seg1 bt <=? 8)
  && (1 <=? phase_seg2 bt) && (phase_seg2 bt <=? tseg2_max mcp2515_bittiming_const).

(** ** Views of whole runs *)

(** Nothing is left pending on an idle device. *)
Definition no_pending_when_idle (dev : net_device) : Prop :=
  busy (priv dev) = false ->
  interrupt (priv dev) = false /\ transmit (priv dev) = false.

(** The device as the completion callback finds it: the head of the queue
    is gone and the reply is in the receive area. *)
Definition rx_filled (reply : list Z) (dev : net_device) : net_device :=
  mk_dev
    (with_rx_buf
       (list_inserts 0
          (u8 <$> take (Z.to_nat (transfer_len (priv dev))) reply)
          (transfer_rx_buf (priv dev)))
       (priv dev))
    (stats dev) (tl (spi_queue dev)) (trace dev).

(** The transfer is at most 14 bytes long, the size of the two DMA areas,
    and the frame in the transmit slot, if any, has a length code of at
    most 8. *)
Definition transfer_fits (dev : net_device) : bool :=
  (transfer_len (priv dev) <=? 14) &&
  match skb (priv dev) with
  | Some s => can_dlc (skb_data s) <=? 8
  | None => true
  end.

(** A link of a chain started on [dev0]: the command [m] of [n] bytes is
    the one message with the SPI master, the calls [l] were made since
    [dev0], and the counters, the slot and the snapshots are as given. *)
Definition at_stage (dev0 dev : net_device) (m : spi_message) (n : Z)
    (l : list kcall) (st : net_device_stats) (slot : option sk_buff)
    (ci ef : Z) : Prop :=
  spi_queue dev = [m] /\
  message_complete (priv dev) = msg_complete m /\
  transfer_len (priv dev) = n /\
  trace dev = trace dev0 ++ l /\
  stats dev = st /\
  skb (priv dev) = slot /\
  canintf (priv dev) = ci /\ eflg (priv dev) = ef /\
  busy (priv dev) = true /\
  interrupt (priv dev) = interrupt (priv dev0) /\
  transmit (priv dev) = transmit (priv dev0) /\
  buffers_ok dev /\
  (14 <= length (transfer_rx_buf (priv dev)))%nat.

(** ** Further concrete inputs *)

(** A bit timing of 16 quanta with triple sampling. *)
Definition example_can : can_priv :=
  mk_can_priv (mk_can_bittiming 1 4 2 7 6) CAN_CTRLMODE_3_SAMPLES.

(** A kernel that grants everything. *)
Definition willing_kernel : kernel := mk_kernel [] [].

(** A kernel whose SPI master refuses the write of RXB0CTRL: the reset,
    [open_candev], [request_irq] and the first write of the configuration
    succeed. *)
Definition failing_kernel : kernel := mk_kernel [0; 0; 0; 0; -19] [].

(** An idle device whose interrupt handler found [spi_async] refusing the
    flags read. *)
Definition stalled_dev : net_device :=
  snd (mcp2515_interrupt (-22) fresh_dev).

(** What the chip clocks out for a read of a receive buffer that holds the
    standard frame 0x123 with three payload bytes. *)
Definition rxb_reply_std : list Z :=
  [0; 0x24; 0x60; 0; 0; 3; 1; 2; 3; 0; 0; 0; 0; 0].

(** The same for the extended frame 0x1ABCDEF1 with one payload byte. *)
Definition rxb_reply_ext : list Z :=
  [0; 0xd5; 0xe8; 0xde; 0xf1; 1; 0xaa; 0; 0; 0; 0; 0; 0; 0].

(** * Bit-level reasoning *)

Lemma below_cases (k : nat) (n : Z) :
  0 <= n < Z.of_nat k -> In n (map Z.of_nat (seq 0 k)).
Proof.
  intros H. replace n with (Z.of_nat (Z.to_nat n)) by lia.
  apply in_map, in_seq. lia.
Qed.

Lemma small_cases (k : nat) (d : Z) (P : Z -> Prop) :
  List.Forall P (map Z.of_nat (seq 0 k)) -> 0 <= d < Z.of_nat k -> P d.
Proof.
  intros HP Hd. rewrite List.Forall_forall in HP. apply HP, below_cases, Hd.
Qed.

Lemma testbit_shiftl (a n m : Z) :
  Z.testbit (Z.shiftl a n) m =
  if (m <? 0) || (m - n <? 0) then false else Z.testbit a (m - n).
Proof.
  destruct (Z.ltb_spec m 0); cbn.
  - apply Z.testbit_neg_r. assumption.
  - rewrite Z.shiftl_spec by assumption.
    destruct (Z.ltb_spec (m - n) 0); [apply Z.testbit_neg_r; assumption|reflexivity].
Qed.

Lemma testbit_shiftr (a n m : Z) :
  Z.testbit (Z.shiftr a n) m = if m <? 0 then false else Z.testbit a (m + n).
Proof.
  destruct (Z.ltb_spec m 0).
  - apply Z.testbit_neg_r. assumption.
  - apply Z.shiftr_spec. assumption.
Qed.

Lemma testbit_if (b : bool) (x y n : Z) :
  Z.testbit (if b then x else y) n = if b then Z.testbit x n else Z.testbit y n.
Proof. destruct b; reflexivity. Qed.

Ltac push_testbit :=
  repeat first
    [ rewrite Z.land_spec | rewrite Z.lor_spec
    | rewrite testbit_shiftl | rewrite testbit_shiftr | rewrite testbit_if ].

(** Decides an equation between bits at a known position: the bits of the
    variables are the only unknowns left after pushing [Z.testbit] inwards. *)
Ltac bitblast :=
  unfold u8, u32;
  push_testbit;
  repeat match goal with
  | |- context [Z.testbit ?x] =>
      is_var x; let f := fresh "bit" in set (f := Z.testbit x); clearbody f
  end;
  vm_compute;
  repeat match goal with
  | |- context [?f ?k] => is_var f; destruct (f k)
  end; reflexivity.

Ltac decide_bit :=
  match goal with
  | |- context [if Z.testbit ?e ?k then _ else _] =>
      let H := fresh in
      first [ assert (Z.testbit e k = true) as H by bitblast
            | assert (Z.testbit e k = false) as H by bitblast ];
      rewrite !H; clear H
  end.

Ltac each_bit_below k :=
  let n := fresh "n" in let Hn := fresh "Hn" in
  intros n Hn; pattern n; apply (small_cases k); [|exact Hn];
  clear n Hn; repeat (apply List.Forall_cons || apply List.Forall_nil).

(** Evaluates the closed lengths handed to [take]. *)
Ltac eval_to_nat :=
  repeat match goal with
  | |- context [Z.to_nat ?z] =>
      let v := eval vm_compute in (Z.to_nat z) in
      progress change (Z.to_nat z) with v
  end.

Lemma testbit_flag (x k : Z) :
  0 <= k -> truthy (Z.land x (2 ^ k)) = Z.testbit x k.
Proof.
  intros Hk. unfold truthy.
  destruct (Z.testbit x k) eqn:E.
  - assert (Z.testbit (Z.land x (2 ^ k)) k = true) as H.
    { rewrite Z.land_spec, E, Z.pow2_bits_true by lia. reflexivity. }
    destruct (Z.eqb_spec (Z.land x (2 ^ k)) 0) as [H0|]; [|reflexivity].
    rewrite H0, Z.bits_0 in H. discriminate.
  - replace (Z.land x (2 ^ k)) with 0; [reflexivity|].
    symmetry. apply Z.bits_inj'. intros n Hn.
    rewrite Z.land_spec, Z.bits_0, Z.pow2_bits_eqb by lia.
    destruct (Z.eqb_spec k n); [subst; rewrite E|]; auto using andb_false_r.
Qed.

Lemma land_ones_eq (k : nat) (a b : Z) :
  (forall n, 0 <= n < Z.of_nat k -> Z.testbit a n = Z.testbit b n) ->
  Z.land a (Z.ones (Z.of_nat k)) = Z.land b (Z.ones (Z.of_nat k)).
Proof.
  intros H. apply Z.bits_inj'. intros n Hn.
  rewrite !Z.land_spec.
  destruct (Z.lt_ge_cases n (Z.of_nat k)).
  - rewrite H by lia. reflexivity.
  - rewrite Z.ones_spec_high by lia. rewrite !andb_false_r. reflexivity.
Qed.

Lemma truthy_IDE (x : Z) : truthy (Z.land x RXBSIDL_IDE) = Z.testbit x 3.
Proof. apply (testbit_flag x 3). lia. Qed.

Lemma truthy_SRR (x : Z) : truthy (Z.land x RXBSIDL_SRR) = Z.testbit x 4.
Proof. apply (testbit_flag x 4). lia. Qed.

Lemma truthy_RTR (x : Z) : truthy (Z.land x RXBDLC_RTR) = Z.testbit x 6.
Proof. apply (testbit_flag x 6). lia. Qed.

Lemma truthy_EFF_FLAG (x : Z) : truthy (Z.land x CAN_EFF_FLAG) = Z.testbit x 31.
Proof. apply (testbit_flag x 31). lia. Qed.

Lemma truthy_RTR_FLAG (x : Z) : truthy (Z.land x CAN_RTR_FLAG) = Z.testbit x 30.
Proof. apply (testbit_flag x 30). lia. Qed.

(** * Frame codec *)

Section Codec.

Local Arguments Z.land : simpl never.
Local Arguments Z.lor : simpl never.
Local Arguments Z.shiftl : simpl never.
Local Arguments Z.shiftr : simpl never.
Local Arguments u8 : simpl never.
Local Arguments u32 : simpl never.

(** The bytes [mcp2515_set_txbuf] leaves behind [buf + 1]. *)
Lemma set_txbuf_layout (buf : list Z) (l c d : Z) (dat : list Z) :
  (14 <= length buf)%nat -> 0 <= d <= 8 -> length dat = 8%nat ->
  let b := fst (mcp2515_set_txbuf 1 buf (mk_sk_buff l (mk_can_frame c d dat))) in
  b !!! 1%nat = u8 (if Z.testbit c 31 then Z.shiftr c 21 else Z.shiftr c 3) /\
  b !!! 2%nat =
    u8 (if Z.testbit c 31
        then Z.lor (Z.lor (Z.land (Z.shiftr c 13) 0xe0) 8) (Z.land (Z.shiftr c 16) 3)
        else u32 (Z.shiftl c 5)) /\
  b !!! 3%nat = u8 (if Z.testbit c 31 then Z.shiftr c 8 else 0) /\
  b !!! 4%nat = u8 (if Z.testbit c 31 then c else 0) /\
  b !!! 5%nat = u8 (if Z.testbit c 30 then Z.lor d 0x40 else d) /\
  take (Z.to_nat d) (drop 6 b) = take (Z.to_nat d) dat.
Proof.
  intros Hlen Hd Hdat.
  do 14 (destruct buf as [|? buf]; [cbn in Hlen; lia|]).
  do 8 (destruct dat as [|? dat]; [discriminate|]). destruct dat; [|discriminate].
  unfold mcp2515_set_txbuf, memcpy, store. cbn [skb_data can_id can_dlc data].
  rewrite truthy_EFF_FLAG, truthy_RTR_FLAG.
  pattern d. apply (small_cases 9); [|lia].
  destruct (Z.testbit c 31), (Z.testbit c 30);
    repeat (apply List.Forall_cons || apply List.Forall_nil);
    eval_to_nat; cbn; repeat split; reflexivity.
Qed.

Lemma dlc_byte (r : bool) (d : Z) :
  0 <= d <= 8 ->
  let b := u8 (if r then Z.lor d 0x40 else d) in
  u8 (get_can_dlc (Z.land b 0xf)) = d /\ Z.testbit b 6 = r.
Proof.
  intros Hd. cbv zeta. pattern d. apply (small_cases 9); [|lia].
  destruct r; vm_compute; repeat constructor.
Qed.

Lemma payload_copied (d : Z) (src dat : list Z) :
  0 <= d <= 8 -> length dat = 8%nat ->
  take (Z.to_nat d) src = take (Z.to_nat d) dat ->
  take (Z.to_nat d) (memcpy 0 src d (replicate 8 0)) = take (Z.to_nat d) dat.
Proof.
  intros Hd Hdat Hsrc. unfold memcpy. rewrite Hsrc. clear Hsrc.
  do 8 (destruct dat as [|? dat]; [discriminate|]). destruct dat; [|discriminate].
  pattern d. apply (small_cases 9); [|lia].
  vm_compute. repeat constructor.
Qed.

Lemma valid_frame_inv (f : can_frame) :
  valid_frame f = true ->
  0 <= can_id f < 2 ^ 32 /\ 0 <= can_dlc f <= 8 /\ length (data f) = 8%nat.
Proof.
  unfold valid_frame. intros Hv.
  repeat (apply andb_prop in Hv; destruct Hv as [Hv ?]).
  repeat split; try lia.
  apply Nat.eqb_eq. assumption.
Qed.

(** C3 (as amended).  Whatever the transmit area held before, decoding the
    bytes [mcp2515_set_txbuf] writes behind the instruction byte for a
    valid frame gives back the identifier value, the extended/standard
    tag, the length and the first [can_dlc] payload bytes.  The
    remote-request flag comes back when the frame is extended or is not a
    remote request; a standard remote-request frame comes back without
    it, because the transmit registers carry that flag in the length byte
    while the receive registers report it in the second identifier
    byte. *)
Theorem codec_roundtrip (buf : list Z) (s : sk_buff) :
  (14 <= length buf)%nat ->
  valid_frame (skb_data s) = true ->
  let f := skb_data s in
  let f' := decode_rxb (fst (mcp2515_set_txbuf 1 buf s)) zeroed_frame in
  frame_ident f' = frame_ident f /\
  frame_is_eff f' = frame_is_eff f /\
  can_dlc f' = can_dlc f /\
  take (Z.to_nat (can_dlc f)) (data f') = take (Z.to_nat (can_dlc f)) (data f) /\
  (frame_is_eff f = true \/ frame_is_rtr f = false ->
   frame_is_rtr f' = frame_is_rtr f) /\
  (frame_is_eff f = false -> frame_is_rtr f' = false).
Proof.
  intros Hlen Hv. apply valid_frame_inv in Hv.
  destruct s as [l [c d dat]]. cbn [skb_data can_id can_dlc data] in *.
  destruct Hv as (Hc & Hd & Hdat).
  destruct (set_txbuf_layout buf l c d dat Hlen Hd Hdat)
    as (B1 & B2 & B3 & B4 & B5 & Bdat).
  destruct (dlc_byte (Z.testbit c 30) d Hd) as [Dl Dr].
  cbv zeta.
  unfold decode_rxb, frame_ident, frame_is_eff, frame_is_rtr in *.
  cbn [can_id can_dlc data zeroed_frame] in *.
  rewrite B1, B2, B3, B4, B5, Dl.
  rewrite !truthy_IDE, !truthy_SRR, !truthy_RTR, Dr.
  rewrite !truthy_EFF_FLAG, !truthy_RTR_FLAG in *.
  destruct (Z.testbit c 31) eqn:E31; destruct (Z.testbit c 30) eqn:E30;
    repeat decide_bit;
    (split; [|split; [|split; [|split; [|split]]]]);
    try reflexivity;
    try (apply payload_copied; assumption);
    try (intros [?|?]; discriminate);
    try (intros ?; discriminate);
    try (intros _; bitblast).
  - change CAN_EFF_MASK with (Z.ones (Z.of_nat 29)).
    apply land_ones_eq. each_bit_below 29%nat; bitblast.
  - change CAN_EFF_MASK with (Z.ones (Z.of_nat 29)).
    apply land_ones_eq. each_bit_below 29%nat; bitblast.
  - change CAN_SFF_MASK with (Z.ones (Z.of_nat 11)).
    apply land_ones_eq. each_bit_below 11%nat; bitblast.
  - change CAN_SFF_MASK with (Z.ones (Z.of_nat 11)).
    apply land_ones_eq. each_bit_below 11%nat; bitblast.
Qed.


Lemma byte_u8 (x : Z) : is_byte x = true -> x = u8 x.
Proof.
  unfold is_byte, u8. intros H. apply andb_prop in H. destruct H as [H0 H1].
  change 255 with (Z.ones 8). rewrite Z.land_ones by lia.
  symmetry. apply Z.mod_small. lia.
Qed.

Lemma lookup_total_byte (l : list Z) (i : nat) :
  forallb is_byte l = true -> is_byte (l !!! i) = true.
Proof.
  revert i. induction l as [|x l IH]; intros i H.
  - destruct i; reflexivity.
  - cbn in H. apply andb_prop in H. destruct H as [Hx Hl].
    destruct i as [|i]; [exact Hx | apply IH, Hl].
Qed.

(** C7 (as amended).  For every valid frame encoded for transmit the
    remote-request flag is bit 0x40 of the length byte, for extended and
    standard frames alike, and the second identifier byte of a standard
    frame never carries the substitute-remote-request bit 0x10.  The
    decoder reads the flag of an extended frame from bit 0x40 of the
    length-code byte and the flag of a standard frame from bit 0x10 of the
    second identifier byte. *)
Theorem remote_request_encoding (buf rx : list Z) (s : sk_buff) :
  (14 <= length buf)%nat ->
  valid_frame (skb_data s) = true ->
  forallb is_byte rx = true ->
  let f := skb_data s in
  let b := fst (mcp2515_set_txbuf 1 buf s) in
  truthy (Z.land (b !!! 5%nat) RXBDLC_RTR) = frame_is_rtr f /\
  (frame_is_eff f = false -> truthy (Z.land (b !!! 2%nat) RXBSIDL_SRR) = false) /\
  frame_is_rtr (decode_rxb rx zeroed_frame) =
    (if truthy (Z.land (rx !!! 2%nat) RXBSIDL_IDE)
     then truthy (Z.land (rx !!! 5%nat) RXBDLC_RTR)
     else truthy (Z.land (rx !!! 2%nat) RXBSIDL_SRR)).
Proof.
  intros Hlen Hv Hrx.
  assert (0 <= can_dlc (skb_data s) <= 8 /\ length (data (skb_data s)) = 8%nat)
    as [Hd Hdat].
  { unfold valid_frame in Hv.
    repeat (apply andb_prop in Hv; destruct Hv as [Hv ?]).
    split; [lia | apply Nat.eqb_eq; assumption]. }
  destruct s as [l [c d dat]]. cbn [skb_data can_id can_dlc data] in *.
  destruct (set_txbuf_layout buf l c d dat Hlen Hd Hdat)
    as (_ & B2 & _ & _ & B5 & _).
  destruct (dlc_byte (Z.testbit c 30) d Hd) as [_ Dr].
  cbv zeta. unfold frame_is_rtr, frame_is_eff. cbn [can_id].
  rewrite B2, B5, truthy_RTR, truthy_SRR, truthy_EFF_FLAG, truthy_RTR_FLAG, Dr.
  split; [reflexivity|]. split.
  - intros ->. bitblast.
  - unfold decode_rxb. cbn [can_id].
    pose proof (byte_u8 _ (lookup_total_byte rx 1 Hrx)) as H1.
    pose proof (byte_u8 _ (lookup_total_byte rx 2 Hrx)) as H2.
    pose proof (byte_u8 _ (lookup_total_byte rx 3 Hrx)) as H3.
    pose proof (byte_u8 _ (lookup_total_byte rx 4 Hrx)) as H4.
    generalize dependent (rx !!! 1%nat). generalize dependent (rx !!! 2%nat).
    generalize dependent (rx !!! 3%nat). generalize dependent (rx !!! 4%nat).
    generalize (rx !!! 5%nat).
    intros x5 x4 -> x3 -> x2 -> x1 ->.
    rewrite !truthy_IDE, !truthy_RTR, !truthy_SRR.
    destruct (Z.testbit (u8 x2) 3); [destruct (Z.testbit x5 6)|destruct (Z.testbit (u8 x2) 4)];
      rewrite truthy_RTR_FLAG; bitblast.
Qed.

End Codec.

Section Sequencer.

Local Arguments Z.land : simpl never.
Local Arguments Z.lor : simpl never.
Local Arguments Z.lnot : simpl never.
Local Arguments Z.shiftl : simpl never.
Local Arguments Z.shiftr : simpl never.
Local Arguments Z.add : simpl never.
Local Arguments u8 : simpl never.
Local Arguments u32 : simpl never.
Local Arguments ulong : simpl never.
Local Arguments truthy : simpl never.

(** *** The command builders *)

Lemma same_snapshot_refl (p : mcp2515_priv) : same_snapshot p p.
Proof. unfold same_snapshot. tauto. Qed.

Lemma spi_async_sends (err : Z) (dev : net_device) :
  sends err (message dev) dev (mcp2515_spi_async err dev).
Proof.
  unfold sends, mcp2515_spi_async, err_report, accepted.
  destruct (truthy err); cbn; rewrite <- ?app_assoc;
    auto using same_snapshot_refl, app_nil_r.
Qed.

Lemma sends_after (err : Z) (dev dev1 : net_device) :
  trace dev1 = trace dev -> spi_queue dev1 = spi_queue dev ->
  stats dev1 = stats dev -> same_snapshot (priv dev) (priv dev1) ->
  sends err (message dev1) dev (mcp2515_spi_async err dev1).
Proof.
  intros Ht Hq Hs Hp.
  destruct (spi_async_sends err dev1) as (Hm & Ht' & Hq' & Hs' & Hp').
  unfold sends. rewrite Hm, Ht', Hq', Hs', Ht, Hq, Hs.
  repeat split; try reflexivity.
  all: unfold same_snapshot in *; intuition congruence.
Qed.

Lemma message_spi_async (err : Z) (dev : net_device) :
  message (mcp2515_spi_async err dev) = message dev.
Proof. unfold mcp2515_spi_async. destruct (truthy err); reflexivity. Qed.

Lemma length_set_txbuf (base : nat) (buf : list Z) (s : sk_buff) :
  length (fst (mcp2515_set_txbuf base buf s)) = length buf.
Proof.
  unfold mcp2515_set_txbuf, memcpy, store.
  destruct (truthy _), (truthy _); cbn [fst];
    rewrite length_inserts, !length_insert; reflexivity.
Qed.

Ltac snapshot :=
  unfold same_snapshot, tx_store, store, memset; cbn;
  rewrite ?length_insert, ?length_inserts, ?length_set_txbuf, ?length_insert;
  tauto.

Ltac builder_sends :=
  match goal with
  | |- sends ?err ?m ?dev (mcp2515_spi_async ?err ?d1) =>
      replace m with (message d1) by (symmetry; apply message_spi_async);
      apply sends_after; [reflexivity .. | snapshot]
  end.

Lemma read_flags_sends (err : Z) (dev : net_device) :
  sends err (message (mcp2515_read_flags err dev)) dev (mcp2515_read_flags err dev).
Proof. unfold mcp2515_read_flags. builder_sends. Qed.

Lemma read_rxb_sends (err instruction : Z) (cb : completion) (dev : net_device) :
  sends err (message (mcp2515_read_rxb err instruction cb dev)) dev
    (mcp2515_read_rxb err instruction cb dev).
Proof. unfold mcp2515_read_rxb. builder_sends. Qed.

Lemma clear_canintf_sends (err : Z) (dev : net_device) :
  sends err (message (mcp2515_clear_canintf err dev)) dev
    (mcp2515_clear_canintf err dev).
Proof. unfold mcp2515_clear_canintf. builder_sends. Qed.

Lemma clear_eflg_sends (err : Z) (dev : net_device) :
  sends err (message (mcp2515_clear_eflg err dev)) dev (mcp2515_clear_eflg err dev).
Proof. unfold mcp2515_clear_eflg. builder_sends. Qed.

Lemma rts_txb0_sends (err : Z) (dev : net_device) :
  sends err (message (mcp2515_rts_txb0 err dev)) dev (mcp2515_rts_txb0 err dev).
Proof. unfold mcp2515_rts_txb0. builder_sends. Qed.

Lemma load_txb0_sends (err : Z) (s : sk_buff) (dev : net_device) :
  sends err (message (mcp2515_load_txb0 err s dev)) dev (mcp2515_load_txb0 err s dev).
Proof.
  unfold mcp2515_load_txb0.
  destruct (mcp2515_set_txbuf 1 _ s) as [buf n] eqn:E.
  assert (length buf = length (transfer_tx_buf (priv dev))) as Hlen.
  { change buf with (fst (buf, n)). rewrite <- E, length_set_txbuf.
    unfold tx_store, store. cbn. apply length_insert. }
  builder_sends.
Qed.

(** The bytes of each command, for a transmit area of 14 bytes. *)

Ltac open_buffer dev H :=
  destruct dev as [[? ? ? ? ? ? ? ? ? tx] ? ? ?];
  unfold buffers_ok in H; cbn in H;
  do 14 (destruct tx as [|? tx]; [cbn in H; lia|]); clear H.

Lemma read_flags_message (err : Z) (dev : net_device) :
  buffers_ok dev -> message (mcp2515_read_flags err dev) = cmd_read_flags.
Proof.
  intros H. unfold mcp2515_read_flags. rewrite message_spi_async.
  open_buffer dev H. reflexivity.
Qed.

Lemma read_rxb0_message (err : Z) (dev : net_device) :
  buffers_ok dev -> message (mcp2515_read_rxb0 err dev) = cmd_read_rxb0.
Proof.
  intros H. unfold mcp2515_read_rxb0, mcp2515_read_rxb. rewrite message_spi_async.
  open_buffer dev H. reflexivity.
Qed.

Lemma read_rxb1_message (err : Z) (dev : net_device) :
  buffers_ok dev -> message (mcp2515_read_rxb1 err dev) = cmd_read_rxb1.
Proof.
  intros H. unfold mcp2515_read_rxb1, mcp2515_read_rxb. rewrite message_spi_async.
  open_buffer dev H. reflexivity.
Qed.

Lemma clear_canintf_message (err : Z) (dev : net_device) :
  buffers_ok dev ->
  message (mcp2515_clear_canintf err dev) =
  cmd_clear_canintf
    (u8 (Z.land (canintf (priv dev)) (Z.lnot (Z.lor CANINTF_RX0IF CANINTF_RX1IF)))).
Proof.
  intros H. unfold mcp2515_clear_canintf. rewrite message_spi_async.
  open_buffer dev H. reflexivity.
Qed.

Lemma clear_eflg_message (err : Z) (dev : net_device) :
  buffers_ok dev ->
  message (mcp2515_clear_eflg err dev) = cmd_clear_eflg (u8 (eflg (priv dev))).
Proof.
  intros H. unfold mcp2515_clear_eflg. rewrite message_spi_async.
  open_buffer dev H. reflexivity.
Qed.

Lemma rts_txb0_message (err : Z) (dev : net_device) :
  buffers_ok dev -> message (mcp2515_rts_txb0 err dev) = cmd_rts_txb0.
Proof.
  intros H. unfold mcp2515_rts_txb0. rewrite message_spi_async.
  open_buffer dev H. reflexivity.
Qed.

Lemma wellformed_skb_inv (s : sk_buff) :
  wellformed_skb s = true ->
  skb_len s = sizeof_can_frame /\ 0 <= can_dlc (skb_data s) <= 8 /\
  length (data (skb_data s)) = 8%nat.
Proof.
  unfold wellformed_skb. intros Hv.
  repeat (apply andb_prop in Hv; destruct Hv as [Hv ?]).
  repeat split; try lia. apply Nat.eqb_eq. assumption.
Qed.

Lemma load_txb0_message (err : Z) (s : sk_buff) (dev : net_device) :
  buffers_ok dev -> wellformed_skb s = true ->
  message (mcp2515_load_txb0 err s dev) = cmd_load_txb0 s.
Proof.
  intros H Hs. apply wellformed_skb_inv in Hs. destruct Hs as (_ & Hd & Hdat).
  unfold mcp2515_load_txb0.
  destruct (mcp2515_set_txbuf 1 _ s) as [buf n] eqn:E.
  rewrite message_spi_async. unfold message, cmd_load_txb0. cbn.
  f_equal.
  assert (buf = fst (mcp2515_set_txbuf 1
            (transfer_tx_buf (priv (tx_store 0 64 dev))) s)) as -> by (rewrite E; reflexivity).
  assert (n = 5 + can_dlc (skb_data s)) as ->.
  { unfold mcp2515_set_txbuf in E. inversion E. reflexivity. }
  replace (5 + can_dlc (skb_data s) + 1) with (6 + can_dlc (skb_data s)) by lia.
  clear E. destruct s as [l [c d dat]]. cbn [skb_data can_id can_dlc data] in *.
  open_buffer dev H.
  do 8 (destruct dat as [|? dat]; [discriminate|]). destruct dat; [|discriminate].
  unfold mcp2515_set_txbuf, memcpy, store. cbn [skb_data can_id can_dlc data].
  pattern d. apply (small_cases 9); [|lia].
  destruct (truthy (Z.land c CAN_EFF_FLAG)), (truthy (Z.land c CAN_RTR_FLAG));
    repeat (apply List.Forall_cons || apply List.Forall_nil);
    eval_to_nat; reflexivity.
Qed.



(** *** Moving the base state of [sends] *)

Lemma sends_rebase (err : Z) (m : spi_message) (d0 d1 dev' : net_device) :
  sends err m d1 dev' ->
  trace d1 = trace d0 -> spi_queue d1 = spi_queue d0 -> stats d1 = stats d0 ->
  same_snapshot (priv d0) (priv d1) ->
  sends err m d0 dev'.
Proof.
  intros (Hm & Ht & Hq & Hs & Hp) Ht0 Hq0 Hs0 Hp0.
  unfold sends. rewrite Hm, Ht, Hq, Hs, Ht0, Hq0, Hs0.
  repeat split; try reflexivity.
  all: unfold same_snapshot in *; intuition congruence.
Qed.

Lemma sends_with_stats (err : Z) (m : spi_message) (dev d1 dev' : net_device) :
  sends err m d1 dev' ->
  trace d1 = trace dev -> spi_queue d1 = spi_queue dev -> priv d1 = priv dev ->
  sends err m (set_stats (fun _ => stats dev') dev) dev'.
Proof.
  intros H Ht Hq Hp. pose proof H as (_ & _ & _ & Hs & _).
  apply (sends_rebase _ _ _ _ _ H); cbn; try congruence.
  rewrite Hp. apply same_snapshot_refl.
Qed.

Lemma sends_as (err : Z) (m m' : spi_message) (dev dev' : net_device) :
  sends err m dev dev' -> m = m' -> sends err m' dev dev'.
Proof. intros H <-. exact H. Qed.

Lemma truthy_lor (x a b : Z) :
  truthy (Z.land x (Z.lor a b)) = truthy (Z.land x a) || truthy (Z.land x b).
Proof.
  unfold truthy. rewrite Z.land_lor_distr_r.
  destruct (Z.eqb_spec (Z.lor (Z.land x a) (Z.land x b)) 0) as [H|H];
  destruct (Z.eqb_spec (Z.land x a) 0) as [Ha|Ha];
  destruct (Z.eqb_spec (Z.land x b) 0) as [Hb|Hb]; try reflexivity;
  rewrite Z.lor_eq_0_iff in H; tauto.
Qed.

(** C8.  When the clear-error command completes and the error snapshot has
    the overflow bit of receive buffer 0 or of receive buffer 1 set, the
    overflow counter goes up by one (as an [unsigned long]; by exactly one
    below its maximum), also when both bits are set, and no other counter
    moves; whatever the snapshot holds, the flags read is the command sent
    next. *)
Theorem clear_eflg_complete_counts_once (err : Z) (dev : net_device) :
  buffers_ok dev ->
  let over := truthy (Z.land (eflg (priv dev)) EFLG_RX0OVR)
              || truthy (Z.land (eflg (priv dev)) EFLG_RX1OVR) in
  let dev' := mcp2515_clear_eflg_complete err dev in
  rx_over_errors (stats dev') =
    (if over then ulong (rx_over_errors (stats dev) + 1)
     else rx_over_errors (stats dev)) /\
  (over = true ->
   0 <= rx_over_errors (stats dev) < 2 ^ BITS_PER_LONG - 1 ->
   rx_over_errors (stats dev') = rx_over_errors (stats dev) + 1) /\
  stats dev' = (if over then inc_rx_over_errors (stats dev) else stats dev) /\
  sends err cmd_read_flags (set_stats (fun _ => stats dev') dev) dev'.
Proof.
  intros Hb over dev'.
  assert (exists d1, dev' = mcp2515_read_flags err d1 /\
            d1 = set_stats (fun s => if over then inc_rx_over_errors s else s) dev)
    as (d1 & Hdev' & Hd1).
  { eexists. split; [|reflexivity]. subst dev' over.
    unfold mcp2515_clear_eflg_complete. rewrite truthy_lor.
    destruct (_ || _); [reflexivity|]. destruct dev; reflexivity. }
  pose proof (read_flags_sends err d1) as H.
  rewrite read_flags_message in H by (subst d1; exact Hb).
  rewrite <- Hdev' in H.
  assert (stats dev' = (if over then inc_rx_over_errors (stats dev) else stats dev))
    as Hs.
  { destruct H as (_ & _ & _ & -> & _). subst d1. cbn. destruct over; reflexivity. }
  split; [|split; [|split]].
  - rewrite Hs. destruct over; reflexivity.
  - intros Ho Hc. rewrite Hs, Ho. cbn [rx_over_errors inc_rx_over_errors].
    unfold ulong. apply Z.mod_small. lia.
  - exact Hs.
  - apply (sends_with_stats _ _ _ _ _ H); subst d1; reflexivity.
Qed.

(** *** What a completion callback leaves behind *)

Lemma spi_calls_app (l1 l2 : list kcall) :
  spi_calls (l1 ++ l2) = spi_calls l1 ++ spi_calls l2.
Proof.
  induction l1 as [|k l1 IH]; [reflexivity|].
  destruct k; cbn; rewrite IH; reflexivity.
Qed.

Lemma quiet_nil (t : list kcall) : exists l, t = t ++ l /\ spi_calls l = [].
Proof. exists []. rewrite app_nil_r. auto. Qed.

Lemma quiet_snoc (t y : list kcall) (k : kcall) :
  (exists l, y = t ++ l /\ spi_calls l = []) -> spi_calls [k] = [] ->
  exists l, y ++ [k] = t ++ l /\ spi_calls l = [].
Proof.
  intros (l & -> & Hl) Hk. exists (l ++ [k]).
  rewrite app_assoc, spi_calls_app, Hl, Hk. auto.
Qed.

Ltac quiet_prefix :=
  cbn [trace call set_priv set_stats];
  repeat (apply quiet_snoc; [|reflexivity]); apply quiet_nil.

Ltac chain_with lem :=
  eexists _, _; split; [apply lem |];
  split; [reflexivity | split; [reflexivity | quiet_prefix]].

Lemma transmit_or_read_flags_outcome (err : Z) (d0 dev dev' : net_device) :
  mcp2515_transmit_or_read_flags err dev = Some dev' ->
  spi_queue dev = spi_queue d0 -> busy (priv dev) = busy (priv d0) ->
  (exists l, trace dev = trace d0 ++ l /\ spi_calls l = []) ->
  chain_step err d0 dev'.
Proof.
  unfold mcp2515_transmit_or_read_flags, load_priv_skb. intros H Hq Hb Hl.
  destruct (transmit (priv dev)).
  - change (skb (priv (set_priv (with_transmit false) dev)))
      with (skb (priv dev)) in H.
    destruct (skb (priv dev)) eqn:Hs; [|discriminate].
    injection H as <-. eexists _, _. split; [apply load_txb0_sends|].
    cbn. repeat split; assumption.
  - injection H as <-. eexists _, _. split; [apply read_flags_sends|].
    repeat split; assumption.
Qed.

Lemma read_rxb_complete_quiet (ok : bool) (dev : net_device) :
  let d1 := mcp2515_read_rxb_complete ok dev in
  spi_queue d1 = spi_queue dev /\ priv d1 = priv dev /\
  exists l, trace d1 = trace dev ++ l /\ spi_calls l = [].
Proof.
  unfold mcp2515_read_rxb_complete, alloc_can_skb. destruct ok; cbn.
  - do 2 (split; [reflexivity|]). quiet_prefix.
  - do 2 (split; [reflexivity|]). quiet_prefix.
Qed.

Lemma read_flags_complete_cases (err : Z) (dev dev' : net_device) :
  mcp2515_read_flags_complete err dev = Some dev' ->
  (exists m d1, sends err m d1 dev' /\
     trace d1 = trace dev /\ spi_queue d1 = spi_queue dev /\
     stats d1 = stats dev /\ busy (priv d1) = busy (priv dev) /\
     skb (priv d1) = skb (priv dev) /\
     canintf (priv d1) = u8 (transfer_rx_buf (priv dev) !!! 2%nat)) \/
  (dev' = set_priv (with_busy false) (flags_stored dev) /\
   transfer_rx_buf (priv dev) !!! 2%nat = 0 /\
   transmit (priv dev) = false /\ interrupt (priv dev) = false).
Proof.
  unfold mcp2515_read_flags_complete, load_priv_skb.
  set (c := transfer_rx_buf (priv dev) !!! 2%nat).
  destruct (truthy (Z.land c CANINTF_RX0IF));
    [|destruct (truthy (Z.land c CANINTF_RX1IF));
      [|destruct (truthy c) eqn:Hc]].
  - intros [= <-]. left. eexists _, _. split; [apply read_rxb_sends|].
    cbn. repeat split; reflexivity.
  - intros [= <-]. left. eexists _, _. split; [apply read_rxb_sends|].
    cbn. repeat split; reflexivity.
  - intros [= <-]. left. eexists _, _. split; [apply clear_canintf_sends|].
    cbn. repeat split; reflexivity.
  -
  cbn [priv set_priv transmit interrupt with_eflg with_canintf].
  destruct (transmit (priv dev)) eqn:Ht; [|destruct (interrupt (priv dev)) eqn:Hi].
  + cbn [priv set_priv skb with_transmit with_eflg with_canintf].
    destruct (skb (priv dev)) eqn:Hs; [|discriminate].
    intros [= <-]. left. eexists _, _. split; [apply load_txb0_sends|].
    cbn. repeat split; congruence.
  + intros [= <-]. left. eexists _, _. split; [apply read_flags_sends|].
    cbn. repeat split; reflexivity.
  + intros [= <-]. right. repeat split.
    unfold truthy in Hc. destruct (Z.eqb_spec c 0); [assumption|discriminate].
Qed.

Lemma callback_outcome (cb : completion) (ok : bool) (err : Z)
    (dev dev' : net_device) :
  run_complete cb ok err dev = Some dev' ->
  chain_step err dev dev' \/
  (cb = read_flags_complete /\
   dev' = set_priv (with_busy false) (flags_stored dev) /\
   transfer_rx_buf (priv dev) !!! 2%nat = 0 /\
   transmit (priv dev) = false /\ interrupt (priv dev) = false).
Proof.
  destruct cb; cbn [run_complete]; intros H.
  - apply read_flags_complete_cases in H.
    destruct H as [(m & d1 & H & Ht & Hq & _ & Hb & _) | H]; [left | right; tauto].
    exists m, d1. do 3 (split; [assumption|]).
    exists []. rewrite app_nil_r. split; [assumption | reflexivity].
  - left. unfold mcp2515_read_rxb0_complete in H.
    destruct (read_rxb_complete_quiet ok dev) as (Hq & Hp & Hl).
    destruct (truthy _).
    + injection H as <-. eexists _, _. split; [apply read_rxb_sends|].
      rewrite Hp. repeat split; assumption.
    + apply (transmit_or_read_flags_outcome _ _ _ _ H); congruence.
  - left. unfold mcp2515_read_rxb1_complete in H.
    destruct (read_rxb_complete_quiet ok dev) as (Hq & Hp & Hl).
    apply (transmit_or_read_flags_outcome _ _ _ _ H); congruence.
  - left. injection H as <-. unfold mcp2515_clear_canintf_complete.
    destruct (truthy (Z.land _ CANINTF_TX0IF)); [destruct (skb (priv dev))|];
      cbn [priv set_priv call eflg with_skb set_stats];
      (destruct (truthy (eflg (priv dev)));
       [chain_with clear_eflg_sends | chain_with read_flags_sends]).
  - left. injection H as <-. unfold mcp2515_clear_eflg_complete.
    destruct (truthy _); chain_with read_flags_sends.
  - left. injection H as <-. chain_with rts_txb0_sends.
  - left. injection H as <-. chain_with read_flags_sends.
Qed.

(** *** Clear-status completion *)

(** C10.  When the clear-status command completes with the
    transmit-complete bit in the status snapshot and no frame in the
    transmit slot, no counter changes and nothing is echoed upward; the
    slot stays empty, the queue of the upper layer is woken, and the chain
    goes on with the clear-error command or the flags read. *)
Theorem clear_canintf_complete_empty_slot (err : Z) (dev : net_device) :
  buffers_ok dev ->
  truthy (Z.land (canintf (priv dev)) CANINTF_TX0IF) = true ->
  skb (priv dev) = None ->
  let dev' := mcp2515_clear_canintf_complete err dev in
  let m := if truthy (eflg (priv dev)) then cmd_clear_eflg (u8 (eflg (priv dev)))
           else cmd_read_flags in
  stats dev' = stats dev /\
  skb (priv dev') = None /\
  trace dev' = trace dev ++ netif_wake_queue :: spi_async m err :: err_report err /\
  sends err m (call netif_wake_queue dev) dev'.
Proof.
  intros Hb Htx Hs dev' m.
  assert (sends err m (call netif_wake_queue (set_priv (with_skb None) dev)) dev')
    as H.
  { subst dev' m. unfold mcp2515_clear_canintf_complete. rewrite Htx, Hs.
    cbn [priv set_priv call eflg with_skb].
    destruct (truthy (eflg (priv dev))).
    - eapply sends_as; [apply clear_eflg_sends|].
      rewrite clear_eflg_message by exact Hb. reflexivity.
    - eapply sends_as; [apply read_flags_sends|].
      rewrite read_flags_message by exact Hb. reflexivity. }
  pose proof H as (_ & Ht & _ & Hst & Hp).
  split; [|split; [|split]].
  - exact Hst.
  - destruct Hp as (_ & _ & -> & _). reflexivity.
  - rewrite Ht. cbn. rewrite <- app_assoc. reflexivity.
  - eapply sends_rebase; [exact H | reflexivity .. |].
    unfold same_snapshot. cbn. repeat split; congruence.
Qed.

(** C6 (as amended).  The completion of a transmission is acted upon when
    the clear-status command completes, from the status snapshot of the
    last flags read: with the transmit-complete bit in the snapshot and a
    frame in the transmit slot, the byte and packet counters account for
    that frame, the frame is echoed upward once, the slot is released and
    the queue of the upper layer is woken, in this order, before the next
    command is sent.  The decoding of the flags reply itself only records
    the snapshot: it changes no counter, leaves the slot as it is and
    makes no call into the network stack. *)
Theorem transmit_completion_reported_after_clear_status
    (err : Z) (dev : net_device) (s : sk_buff) :
  buffers_ok dev ->
  truthy (Z.land (canintf (priv dev)) CANINTF_TX0IF) = true ->
  skb (priv dev) = Some s ->
  let dev' := mcp2515_clear_canintf_complete err dev in
  let m := if truthy (eflg (priv dev)) then cmd_clear_eflg (u8 (eflg (priv dev)))
           else cmd_read_flags in
  stats dev' = inc_tx_packets (add_tx_bytes (can_dlc (skb_data s)) (stats dev)) /\
  tx_bytes (stats dev') = ulong (tx_bytes (stats dev) + can_dlc (skb_data s)) /\
  tx_packets (stats dev') = ulong (tx_packets (stats dev) + 1) /\
  skb (priv dev') = None /\
  trace dev' =
    trace dev ++ can_put_echo_skb s :: can_get_echo_skb :: netif_wake_queue
              :: spi_async m err :: err_report err /\
  (forall err0 dev0 dev1,
     mcp2515_read_flags_complete err0 dev0 = Some dev1 ->
     stats dev1 = stats dev0 /\ skb (priv dev1) = skb (priv dev0) /\
     stack_calls (drop (length (trace dev0)) (trace dev1)) = [] /\
     canintf (priv dev1) = u8 (transfer_rx_buf (priv dev0) !!! 2%nat)).
Proof.
  intros Hb Htx Hs dev' m.
  assert (exists d1, sends err m d1 dev' /\
            d1 = call netif_wake_queue (set_priv (with_skb None)
                   (call can_get_echo_skb (call (can_put_echo_skb s)
                      (set_stats inc_tx_packets
                         (set_stats (add_tx_bytes (can_dlc (skb_data s))) dev))))))
    as (d1 & H & Hd1).
  { eexists. split; [|reflexivity].
    subst dev' m. unfold mcp2515_clear_canintf_complete. rewrite Htx, Hs.
    cbn [priv set_priv call eflg with_skb set_stats].
    destruct (truthy (eflg (priv dev))).
    - eapply sends_as; [apply clear_eflg_sends|].
      rewrite clear_eflg_message by exact Hb. reflexivity.
    - eapply sends_as; [apply read_flags_sends|].
      rewrite read_flags_message by exact Hb. reflexivity. }
  pose proof H as (_ & Ht & _ & Hst & Hp).
  assert (stats dev' =
          inc_tx_packets (add_tx_bytes (can_dlc (skb_data s)) (stats dev))) as Hst'.
  { rewrite Hst, Hd1. reflexivity. }
  split; [exact Hst'|]. rewrite Hst'.
  split; [reflexivity|]. split; [reflexivity|].
  split; [destruct Hp as (_ & _ & -> & _); rewrite Hd1; reflexivity|].
  split.
  - rewrite Ht, Hd1. cbn. rewrite <- !app_assoc. reflexivity.
  - clear. intros err0 dev0 dev1 H.
    apply read_flags_complete_cases in H.
    destruct H as [(m & d1 & H & Ht & Hq & Hs & Hb & Hk & Hc) | (-> & Hc & _)].
    + pose proof H as (_ & Ht' & _ & Hst & Hp).
      destruct Hp as (Hc' & _ & Hk' & _).
      rewrite Hst, Hk', Hc', Ht', Ht, drop_app_length.
      repeat split; try assumption.
      unfold err_report. destruct (truthy err0); reflexivity.
    + cbn. rewrite drop_all. repeat split.
Qed.

(** *** Receive-buffer completions *)

Lemma load_priv_skb_sends (err : Z) (s : sk_buff) (dev : net_device) :
  buffers_ok dev -> skb (priv dev) = Some s -> wellformed_skb s = true ->
  exists dev', load_priv_skb err dev = Some dev' /\
               sends err (cmd_load_txb0 s) dev dev'.
Proof.
  intros Hb Hs Hw. unfold load_priv_skb. rewrite Hs. eexists. split; [reflexivity|].
  eapply sends_as; [apply load_txb0_sends|]. apply load_txb0_message; assumption.
Qed.

Lemma transmit_or_read_flags_sends (err : Z) (dev : net_device) (s : sk_buff) :
  buffers_ok dev ->
  (transmit (priv dev) = true -> skb (priv dev) = Some s /\ wellformed_skb s = true) ->
  exists dev', mcp2515_transmit_or_read_flags err dev = Some dev' /\
    sends err (if transmit (priv dev) then cmd_load_txb0 s else cmd_read_flags)
      (set_priv (with_transmit false) dev) dev'.
Proof.
  intros Hb Hs. unfold mcp2515_transmit_or_read_flags.
  destruct (transmit (priv dev)) eqn:Ht.
  - destruct Hs as [Hs Hw]; [reflexivity|].
    apply load_priv_skb_sends; assumption.
  - eexists. split; [reflexivity|].
    eapply sends_rebase;
      [eapply sends_as; [apply read_flags_sends | apply read_flags_message, Hb]
      | reflexivity .. |].
    unfold same_snapshot. cbn. repeat split; congruence.
Qed.

(** C9.  When the allocation fails after a receive-buffer read (buffer 0
    or buffer 1), the drop counter goes up by one, the packet and byte
    counters stay, nothing is handed to the network stack, and the next
    command of the chain is sent all the same: the read of receive buffer
    1 if buffer 0 was read and the status snapshot has the buffer 1 bit,
    else the load of the pending frame, else the flags read.  (A pending
    transmission finds its frame in the slot: [mcp2515_start_xmit] stores
    it before it sets the flag.) *)
Theorem rx_allocation_failure_continues (err : Z) (dev : net_device) (s : sk_buff) :
  buffers_ok dev ->
  (transmit (priv dev) = true -> skb (priv dev) = Some s /\ wellformed_skb s = true) ->
  let rx1 := truthy (Z.land (canintf (priv dev)) CANINTF_RX1IF) in
  let after := if transmit (priv dev) then cmd_load_txb0 s else cmd_read_flags in
  let dropped := set_stats inc_rx_dropped dev in
  (exists dev',
     mcp2515_read_rxb0_complete false err dev = Some dev' /\
     rx_dropped (stats dev') = ulong (rx_dropped (stats dev) + 1) /\
     rx_packets (stats dev') = rx_packets (stats dev) /\
     rx_bytes (stats dev') = rx_bytes (stats dev) /\
     trace dev' =
       trace dev ++ spi_async (if rx1 then cmd_read_rxb1 else after) err
                 :: err_report err /\
     sends err (if rx1 then cmd_read_rxb1 else after)
       (if rx1 then dropped else set_priv (with_transmit false) dropped) dev') /\
  (exists dev',
     mcp2515_read_rxb1_complete false err dev = Some dev' /\
     rx_dropped (stats dev') = ulong (rx_dropped (stats dev) + 1) /\
     rx_packets (stats dev') = rx_packets (stats dev) /\
     rx_bytes (stats dev') = rx_bytes (stats dev) /\
     trace dev' = trace dev ++ spi_async after err :: err_report err /\
     sends err after (set_priv (with_transmit false) dropped) dev').
Proof.
  intros Hb Hs rx1 after dropped.
  assert (buffers_ok dropped) as Hb' by exact Hb.
  destruct (transmit_or_read_flags_sends err dropped s Hb' Hs) as (d2 & Hd2 & H2).
  fold after in H2.
  assert (forall m d1 dev', sends err m d1 dev' ->
            stats d1 = stats dropped -> trace d1 = trace dev ->
            rx_dropped (stats dev') = ulong (rx_dropped (stats dev) + 1) /\
            rx_packets (stats dev') = rx_packets (stats dev) /\
            rx_bytes (stats dev') = rx_bytes (stats dev) /\
            trace dev' = trace dev ++ spi_async m err :: err_report err /\
            sends err m d1 dev') as Hfacts.
  { intros m d1 dev' H Hst Ht. pose proof H as (_ & Ht' & _ & Hst' & _).
    rewrite Hst', Hst, Ht', Ht.
    split; [|split; [|split; [|split]]]; try reflexivity. exact H. }
  split.
  - unfold mcp2515_read_rxb0_complete.
    change (mcp2515_read_rxb_complete false dev) with dropped.
    change (canintf (priv dropped)) with (canintf (priv dev)). fold rx1.
    destruct rx1.
    + eexists. split; [reflexivity|]. apply Hfacts; try reflexivity.
      eapply sends_as; [apply read_rxb_sends|]. apply read_rxb1_message, Hb'.
    + exists d2. split; [exact Hd2|]. apply Hfacts; [exact H2 | reflexivity ..].
  - unfold mcp2515_read_rxb1_complete.
    change (mcp2515_read_rxb_complete false dev) with dropped.
    exists d2. split; [exact Hd2|]. apply Hfacts; [exact H2 | reflexivity ..].
Qed.

(** *** Flags read completion *)

Lemma clear_status_mask (c : Z) :
  u8 (Z.land (u8 c) (Z.lnot (Z.lor CANINTF_RX0IF CANINTF_RX1IF))) =
  Z.land (u8 c) 0xfc.
Proof.
  unfold CANINTF_RX0IF, CANINTF_RX1IF, u8.
  apply Z.bits_inj'. intros n Hn.
  destruct (Z.lt_ge_cases n 8) as [Hlt|Hge].
  - assert (0 <= n < Z.of_nat 8) as Hn8 by lia. clear Hn Hlt. revert n Hn8.
    each_bit_below 8%nat; bitblast.
  - rewrite !Z.land_spec.
    change 255 with (Z.ones 8). rewrite Z.ones_spec_high by lia.
    rewrite !andb_false_r. reflexivity.
Qed.

Lemma truthy_true (x : Z) : x <> 0 -> truthy x = true.
Proof. unfold truthy. destruct (Z.eqb_spec x 0); [contradiction|reflexivity]. Qed.

Lemma busy_cleared_only_when_idle (e : event) (d d' : net_device) :
  step e d = Some d' -> busy (priv d) = true -> busy (priv d') = false ->
  is_producer e = false /\
  message_complete (priv d) = Some read_flags_complete /\
  canintf (priv d') = 0 /\
  transmit (priv d) = false /\ interrupt (priv d) = false /\
  trace d' = trace d.
Proof.
  destruct e as [err | s err | reply ok err]; cbn [step]; intros H Hb Hb'.
  - exfalso. injection H as <-. unfold mcp2515_interrupt in Hb'. rewrite Hb in Hb'.
    cbn in Hb'. congruence.
  - exfalso. injection H as <-. unfold mcp2515_start_xmit, can_dropped_invalid_skb in Hb'.
    destruct (_ || _); cbn in Hb'; [congruence|].
    rewrite Hb in Hb'. cbn in Hb'. congruence.
  - unfold spi_complete in H. destruct (spi_queue d) as [|m0 q]; [discriminate|].
    cbn [priv message_complete with_rx_buf] in H.
    destruct (message_complete (priv d)) as [cb|] eqn:Hcb.
    + apply callback_outcome in H.
      destruct H as [(m & d1 & H & _ & Hb1 & _) | (-> & -> & Hc & Ht & Hi)].
      * exfalso. destruct H as (_ & _ & _ & _ & Hp).
        destruct Hp as (_ & _ & _ & Hbb & _). cbn in Hb1. congruence.
      * cbn in Hc, Ht, Hi. cbn. rewrite Hc. repeat split; assumption.
    + injection H as <-. cbn in Hb'. congruence.
Qed.

(** C5.  After the flags read the next command follows this order: status
    bit of receive buffer 0 set, read buffer 0; else bit of buffer 1 set,
    read buffer 1; else any status bit set, clear-status with the status
    bits without the two receive bits as mask; else transmission pending,
    clear the flag and load the transmit buffer; else interrupt pending,
    clear the flag and read the flags again; else clear [busy] and send
    nothing.  No other step of the driver takes [busy] from set to
    clear. *)
Theorem read_flags_complete_priority (err : Z) (dev : net_device) (s : sk_buff) :
  buffers_ok dev ->
  let c := transfer_rx_buf (priv dev) !!! 2%nat in
  let d1 := flags_stored dev in
  let rx0 := truthy (Z.land c CANINTF_RX0IF) in
  let rx1 := truthy (Z.land c CANINTF_RX1IF) in
  let next := mcp2515_read_flags_complete err dev in
  (rx0 = true ->
     exists dev', next = Some dev' /\ sends err cmd_read_rxb0 d1 dev') /\
  (rx0 = false -> rx1 = true ->
     exists dev', next = Some dev' /\ sends err cmd_read_rxb1 d1 dev') /\
  (rx0 = false -> rx1 = false -> c <> 0 ->
     exists dev', next = Some dev' /\
       sends err (cmd_clear_canintf (Z.land (u8 c) 0xfc)) d1 dev') /\
  (c = 0 -> transmit (priv dev) = true ->
     skb (priv dev) = Some s -> wellformed_skb s = true ->
     exists dev', next = Some dev' /\
       sends err (cmd_load_txb0 s) (set_priv (with_transmit false) d1) dev') /\
  (c = 0 -> transmit (priv dev) = false -> interrupt (priv dev) = true ->
     exists dev', next = Some dev' /\
       sends err cmd_read_flags (set_priv (with_interrupt false) d1) dev') /\
  (c = 0 -> transmit (priv dev) = false -> interrupt (priv dev) = false ->
     next = Some (set_priv (with_busy false) d1)) /\
  (forall e d d',
     step e d = Some d' -> busy (priv d) = true -> busy (priv d') = false ->
     is_producer e = false /\
     message_complete (priv d) = Some read_flags_complete /\
     canintf (priv d') = 0 /\
     transmit (priv d) = false /\ interrupt (priv d) = false /\
     trace d' = trace d).
Proof.
  intros Hb c d1 rx0 rx1 next.
  assert (buffers_ok d1) as Hb1 by exact Hb.
  assert (c = 0 -> rx0 = false /\ rx1 = false /\ truthy c = false) as Hzero.
  { intros Hc. subst rx0 rx1. rewrite Hc. repeat split. }
  subst next. unfold mcp2515_read_flags_complete. fold c. fold rx0. fold rx1.
  change (set_priv (with_eflg (u8 (transfer_rx_buf (priv dev) !!! 3%nat)))
            (set_priv (with_canintf (u8 c)) dev)) with d1.
  change (transmit (priv d1)) with (transmit (priv dev)).
  change (interrupt (priv d1)) with (interrupt (priv dev)).
  repeat apply conj.
  - intros ->. eexists. split; [reflexivity|].
    eapply sends_as; [apply read_rxb_sends|]. apply read_rxb0_message, Hb1.
  - intros -> ->. eexists. split; [reflexivity|].
    eapply sends_as; [apply read_rxb_sends|]. apply read_rxb1_message, Hb1.
  - intros -> -> Hc. rewrite (truthy_true c Hc). eexists. split; [reflexivity|].
    eapply sends_as; [apply clear_canintf_sends|].
    rewrite clear_canintf_message by exact Hb1.
    change (canintf (priv d1)) with (u8 c). rewrite clear_status_mask. reflexivity.
  - intros Hc Ht Hs Hw. destruct (Hzero Hc) as (-> & -> & ->). rewrite Ht.
    apply load_priv_skb_sends; assumption.
  - intros Hc Ht Hi. destruct (Hzero Hc) as (-> & -> & ->). rewrite Ht, Hi.
    eexists. split; [reflexivity|].
    eapply sends_as; [apply read_flags_sends|]. apply read_flags_message, Hb1.
  - intros Hc Ht Hi. destruct (Hzero Hc) as (-> & -> & ->). rewrite Ht, Hi.
    reflexivity.
  - apply busy_cleared_only_when_idle.
Qed.

(** *** Producers *)

Lemma wellformed_not_dropped (dev : net_device) (s : sk_buff) :
  wellformed_skb s = true -> can_dropped_invalid_skb dev s = (false, dev).
Proof.
  intros H. apply wellformed_skb_inv in H. destruct H as (Hl & Hd & _).
  unfold can_dropped_invalid_skb.
  replace (skb_len s =? sizeof_can_frame) with true by (symmetry; apply Z.eqb_eq, Hl).
  replace (8 <? can_dlc (skb_data s)) with false by (symmetry; apply Z.ltb_ge; lia).
  reflexivity.
Qed.

(** C4 (as amended).  An interrupt that finds [busy] clear sets it and
    sends the flags read as first command; a submission that finds [busy]
    clear stops the queue, stores the frame, sets [busy] and sends the
    load of the transmit buffer as first command.  With [busy] set the
    interrupt only sets [interrupt], and the submission stops the queue,
    stores the frame and sets [transmit]; neither sends a command. *)
Theorem producers_entry (err : Z) (dev : net_device) (s : sk_buff) :
  buffers_ok dev -> wellformed_skb s = true ->
  let stored := set_priv (with_skb (Some s)) (call netif_stop_queue dev) in
  (busy (priv dev) = false ->
     sends err cmd_read_flags (set_priv (with_busy true) dev)
       (snd (mcp2515_interrupt err dev))) /\
  (busy (priv dev) = false ->
     sends err (cmd_load_txb0 s) (set_priv (with_busy true) stored)
       (snd (mcp2515_start_xmit err s dev))) /\
  (busy (priv dev) = true ->
     snd (mcp2515_interrupt err dev) = set_priv (with_interrupt true) dev) /\
  (busy (priv dev) = true ->
     snd (mcp2515_start_xmit err s dev) = set_priv (with_transmit true) stored).
Proof.
  intros Hb Hw stored.
  unfold mcp2515_interrupt, mcp2515_start_xmit.
  rewrite (wellformed_not_dropped dev s Hw).
  change (busy (priv (set_priv (with_skb (Some s)) (call netif_stop_queue dev))))
    with (busy (priv dev)).
  repeat apply conj; intros ->; cbn [snd]; try reflexivity.
  - eapply sends_as; [apply read_flags_sends|]. apply read_flags_message, Hb.
  - eapply sends_as; [apply load_txb0_sends|]. apply load_txb0_message; [exact Hb|exact Hw].
Qed.

(** C2 (as amended).  A submission of a well-formed frame while [busy] is
    set is accepted: it answers [NETDEV_TX_OK], stops the queue of the
    upper layer, overwrites the transmit slot with the new frame and sets
    [transmit], without sending a command.  No submission is ever
    answered with [NETDEV_TX_BUSY]. *)
Theorem start_xmit_while_busy_defers (err : Z) (dev : net_device) (s : sk_buff) :
  busy (priv dev) = true -> wellformed_skb s = true ->
  mcp2515_start_xmit err s dev =
    (NETDEV_TX_OK,
     set_priv (with_transmit true)
       (set_priv (with_skb (Some s)) (call netif_stop_queue dev))) /\
  (forall err0 s0 dev0, fst (mcp2515_start_xmit err0 s0 dev0) = NETDEV_TX_OK).
Proof.
  intros Hb Hw. split.
  - unfold mcp2515_start_xmit. rewrite (wellformed_not_dropped dev s Hw).
    change (busy (priv (set_priv (with_skb (Some s)) (call netif_stop_queue dev))))
      with (busy (priv dev)).
    rewrite Hb. reflexivity.
  - intros err0 s0 dev0. unfold mcp2515_start_xmit.
    destruct (can_dropped_invalid_skb dev0 s0) as [[] d]; [reflexivity|].
    cbn [priv set_priv busy with_skb call].
    destruct (busy (priv d)); reflexivity.
Qed.

(** *** The invariant *)

Lemma spi_calls_sent (m : spi_message) (err : Z) :
  spi_calls (spi_async m err :: err_report err) = [m].
Proof. unfold err_report. destruct (truthy err); reflexivity. Qed.

Lemma issued_by_app (dev dev' : net_device) (l : list kcall) :
  trace dev' = trace dev ++ l -> issued_by dev dev' = spi_calls l.
Proof. intros H. unfold issued_by. rewrite H, drop_app_length. reflexivity. Qed.

Lemma chain_step_facts (err : Z) (dev dev' : net_device) :
  chain_step err dev dev' ->
  exists m l, trace dev' = trace dev ++ l /\ spi_calls l = [m] /\
              spi_queue dev' = spi_queue dev ++ accepted err m /\
              busy (priv dev') = busy (priv dev).
Proof.
  intros (m & d1 & (_ & Ht & Hq & _ & Hp) & Hq1 & Hb1 & l & Hl & Hsl).
  exists m, (l ++ spi_async m err :: err_report err).
  rewrite Ht, Hq, Hl, Hq1, <- app_assoc, spi_calls_app, Hsl, spi_calls_sent.
  destruct Hp as (_ & _ & _ & -> & _). auto.
Qed.

Lemma step_outcome (e : event) (dev dev' : net_device) :
  step e dev = Some dev' ->
  exists q0,
    (if is_producer e then q0 = spi_queue dev
     else exists m0, spi_queue dev = m0 :: q0) /\
    (step_sends_one e q0 dev dev' \/ step_sends_none e q0 dev dev').
Proof.
  destruct e as [err | s err | reply ok err]; cbn [step is_producer]; intros H.
  - injection H as <-. exists (spi_queue dev). split; [reflexivity|].
    unfold mcp2515_interrupt. destruct (busy (priv dev)) eqn:Hb; cbn [snd].
    + right. exists []. rewrite app_nil_r. cbn. auto.
    + left. destruct (read_flags_sends err (set_priv (with_busy true) dev))
        as (_ & Ht & Hq & _ & Hp).
      eexists err, _, _. split; [exact Ht|]. split; [apply spi_calls_sent|].
      split; [exact Hq|]. destruct Hp as (_ & _ & _ & -> & _). split; [exact Hb | reflexivity].
  - injection H as <-. exists (spi_queue dev). split; [reflexivity|].
    unfold mcp2515_start_xmit, can_dropped_invalid_skb.
    destruct (_ || _); cbn [snd].
    + right. exists []. rewrite app_nil_r. cbn. auto.
    + change (busy (priv (set_priv (with_skb (Some s)) (call netif_stop_queue dev))))
        with (busy (priv dev)).
      destruct (busy (priv dev)) eqn:Hb; cbn [snd].
      * right. exists [netif_stop_queue]. cbn. auto.
      * left. destruct (load_txb0_sends err s
                 (set_priv (with_busy true)
                    (set_priv (with_skb (Some s)) (call netif_stop_queue dev))))
          as (_ & Ht & Hq & _ & Hp).
        eexists err, _, (netif_stop_queue :: _).
        split; [rewrite Ht; cbn; rewrite <- app_assoc; reflexivity|].
        split; [cbn; apply spi_calls_sent|].
        split; [exact Hq|]. destruct Hp as (_ & _ & _ & -> & _).
        split; [exact Hb | reflexivity].
  - unfold spi_complete in H. destruct (spi_queue dev) as [|m0 q] eqn:Hq0; [discriminate|].
    exists q. split; [exists m0; reflexivity|].
    cbn [priv message_complete with_rx_buf] in H.
    destruct (message_complete (priv dev)) as [cb|].
    + apply callback_outcome in H. destruct H as [H | (_ & -> & _)].
      * left. apply chain_step_facts in H. destruct H as (m & l & Ht & Hl & Hq & Hb).
        exists err, m, l. auto.
      * right. exists []. cbn. rewrite app_nil_r.
        do 3 (split; [reflexivity|]). right. split; reflexivity.
    + injection H as <-. right. exists []. cbn. rewrite app_nil_r.
      do 3 (split; [reflexivity|]). left. reflexivity.
Qed.

Lemma accepted_length (err : Z) (m : spi_message) :
  (length (accepted err m) <= 1)%nat.
Proof. unfold accepted. destruct (truthy err); cbn; lia. Qed.

Lemma step_preserves_one_outstanding (e : event) (dev dev' : net_device) :
  one_outstanding dev -> step e dev = Some dev' -> one_outstanding dev'.
Proof.
  intros [Hlen Hidle] H. apply step_outcome in H.
  destruct H as (q0 & Hq0 & [(err & m & l & _ & _ & Hq & Hb) | (l & _ & _ & Hq & Hb)]);
    unfold one_outstanding; rewrite Hq.
  - destruct (is_producer e).
    + destruct Hb as [Hb Hb']. rewrite Hq0, (Hidle Hb), Hb'. cbn.
      split; [apply accepted_length | discriminate].
    + destruct Hq0 as (m0 & Hq0). rewrite Hq0 in Hlen, Hidle. cbn in Hlen.
      destruct q0; [|cbn in Hlen; lia]. cbn.
      split; [apply accepted_length|]. rewrite Hb. intros Hf.
      specialize (Hidle Hf). discriminate.
  - destruct (is_producer e).
    + subst q0. destruct Hb as [Hb | [? _]]; [|discriminate]. rewrite Hb. auto.
    + destruct Hq0 as (m0 & Hq0). rewrite Hq0 in Hlen. cbn in Hlen.
      destruct q0; [|cbn in Hlen; lia]. cbn. split; [lia | reflexivity].
Qed.

Lemma run_preserves_one_outstanding (es : list event) (dev0 dev : net_device) :
  one_outstanding dev0 -> run es dev0 = Some dev -> one_outstanding dev.
Proof.
  revert dev0. induction es as [|e es IH]; cbn [run]; intros dev0 Hinv H.
  - injection H as <-. exact Hinv.
  - destruct (step e dev0) as [d1|] eqn:Hstep; [|discriminate].
    apply (IH d1); [|exact H].
    apply (step_preserves_one_outstanding e dev0); assumption.
Qed.

(** C1.  From an idle device, after any sequence of interrupts,
    submissions and completions, at most one message is with the SPI
    master, and none when [busy] is clear.  Every further step sends at
    most one command; a step that sends one is either a producer that
    takes [busy] from clear to set, or the completion callback of the one
    outstanding command; and a step that clears [busy] sends nothing and
    leaves the queue empty. *)
Theorem one_command_outstanding (dev0 : net_device) (es : list event)
    (dev : net_device) :
  busy (priv dev0) = false -> spi_queue dev0 = [] ->
  run es dev0 = Some dev ->
  one_outstanding dev /\
  forall e dev', step e dev = Some dev' ->
    (exists l, trace dev' = trace dev ++ l) /\
    (length (issued_by dev dev') <= 1)%nat /\
    (issued_by dev dev' <> [] ->
       (is_producer e = true /\ busy (priv dev) = false /\ busy (priv dev') = true) \/
       (is_producer e = false /\ busy (priv dev) = true /\
        exists m, spi_queue dev = [m])) /\
    (busy (priv dev) = true -> busy (priv dev') = false ->
       issued_by dev dev' = [] /\ spi_queue dev' = []).
Proof.
  intros Hb0 Hq0 Hrun.
  assert (one_outstanding dev) as Hinv.
  { apply (run_preserves_one_outstanding es dev0); [|exact Hrun].
    split; [rewrite Hq0; cbn; lia | intros _; exact Hq0]. }
  split; [exact Hinv|]. destruct Hinv as [Hlen Hidle].
  intros e dev' Hstep. apply step_outcome in Hstep.
  destruct Hstep as (q0 & Hq & [(err & m & l & Ht & Hl & Hq' & Hb)
                               | (l & Ht & Hl & Hq' & Hb)]);
    rewrite (issued_by_app dev dev' l Ht), Hl.
  - split; [eauto|]. split; [cbn; lia|]. split.
    + intros _. destruct (is_producer e).
      * left. tauto.
      * right. destruct Hq as (m0 & Hq). rewrite Hq in Hlen, Hidle.
        split; [reflexivity|]. split.
        -- destruct (busy (priv dev)); [reflexivity|].
           specialize (Hidle eq_refl). discriminate.
        -- exists m0. destruct q0; [exact Hq | cbn in Hlen; lia].
    + intros Hbt Hbf. exfalso. destruct (is_producer e).
      * destruct Hb. congruence.
      * congruence.
  - split; [eauto|]. split; [cbn; lia|]. split; [intros Hne; contradiction|].
    intros Hbt Hbf. split; [reflexivity|]. rewrite Hq'.
    destruct (is_producer e).
    + destruct Hb as [Hb | [? _]]; [congruence | discriminate].
    + destruct Hq as (m0 & Hq). rewrite Hq in Hlen. cbn in Hlen.
      destruct q0; [reflexivity | cbn in Hlen; lia].
Qed.

End Sequencer.

(** * The claims on concrete inputs *)

(** C1 on a run: interrupt, submission, completion of the flags read. *)
Lemma one_command_outstanding_witness :
  exists dev, run example_events fresh_dev = Some dev /\ one_outstanding dev.
Proof.
  eexists. split; [vm_compute; reflexivity|].
  refine (proj1 (one_command_outstanding fresh_dev example_events _ _ _ _));
    [reflexivity | reflexivity | vm_compute; reflexivity].
Defined.

(** C2 as stated fails: with [busy] set the submission is not answered with
    [NETDEV_TX_BUSY] and the transmit slot changes. *)
Lemma start_xmit_busy_counterexample :
  busy (priv busy_dev) = true /\
  fst (mcp2515_start_xmit 0 skb_std busy_dev) <> NETDEV_TX_BUSY /\
  skb (priv busy_dev) = None /\
  skb (priv (snd (mcp2515_start_xmit 0 skb_std busy_dev))) = Some skb_std.
Proof. vm_compute. repeat split. discriminate. Qed.

Lemma start_xmit_while_busy_defers_witness :
  busy (priv busy_dev) = true /\ wellformed_skb skb_std = true /\
  mcp2515_start_xmit 0 skb_std busy_dev =
    (NETDEV_TX_OK,
     set_priv (with_transmit true)
       (set_priv (with_skb (Some skb_std)) (call netif_stop_queue busy_dev))).
Proof.
  split; [reflexivity|]. split; [reflexivity|].
  refine (proj1 (start_xmit_while_busy_defers 0 busy_dev skb_std _ _)); reflexivity.
Defined.

(** C3 as stated fails: the standard remote-request frame 0x123 is valid
    and comes back from the codec without its remote-request flag. *)
Lemma codec_roundtrip_counterexample :
  valid_frame (skb_data skb_std_rtr) = true /\
  frame_is_rtr (skb_data skb_std_rtr) = true /\
  frame_is_rtr
    (decode_rxb (fst (mcp2515_set_txbuf 1 (0x40 :: replicate 13 0) skb_std_rtr))
       zeroed_frame) = false.
Proof. vm_compute. repeat split. Qed.

Lemma codec_roundtrip_witness :
  let f := skb_data skb_ext_rtr in
  let f' := decode_rxb (fst (mcp2515_set_txbuf 1 (0x40 :: replicate 13 0) skb_ext_rtr))
              zeroed_frame in
  frame_ident f' = frame_ident f /\
  frame_is_eff f' = frame_is_eff f /\
  can_dlc f' = can_dlc f /\
  take (Z.to_nat (can_dlc f)) (data f') = take (Z.to_nat (can_dlc f)) (data f) /\
  (frame_is_eff f = true \/ frame_is_rtr f = false ->
   frame_is_rtr f' = frame_is_rtr f) /\
  (frame_is_eff f = false -> frame_is_rtr f' = false).
Proof.
  refine (codec_roundtrip (0x40 :: replicate 13 0) skb_ext_rtr _ _);
    [simpl; lia | reflexivity].
Defined.

(** C4 as stated fails: a submission that finds the device idle sends the
    load of the transmit buffer, not the flags read, as first command. *)
Lemma producers_entry_counterexample :
  busy (priv fresh_dev) = false /\
  issued_by fresh_dev (snd (mcp2515_start_xmit 0 skb_std fresh_dev))
    = [cmd_load_txb0 skb_std] /\
  msg_bytes (cmd_load_txb0 skb_std) = [0x40; 0x24; 0x60; 0; 0; 3; 1; 2; 3] /\
  cmd_load_txb0 skb_std <> cmd_read_flags.
Proof. vm_compute. repeat split. discriminate. Qed.

Lemma producers_entry_witness :
  buffers_ok fresh_dev /\ wellformed_skb skb_std = true /\
  sends 0 (cmd_load_txb0 skb_std)
    (set_priv (with_busy true)
       (set_priv (with_skb (Some skb_std)) (call netif_stop_queue fresh_dev)))
    (snd (mcp2515_start_xmit 0 skb_std fresh_dev)).
Proof.
  assert (buffers_ok fresh_dev) as Hb by (unfold buffers_ok; simpl; lia).
  split; [exact Hb|]. split; [reflexivity|].
  refine (proj1 (proj2 (producers_entry 0 fresh_dev skb_std Hb _)) _); reflexivity.
Defined.

(** C5 on a reply with the bit of receive buffer 0 and the transmit-complete
    bit: buffer 0 is read first. *)
Lemma read_flags_complete_priority_witness :
  buffers_ok (flags_read_dev None [0; 0; 5; 0]) /\
  exists dev',
    mcp2515_read_flags_complete 0 (flags_read_dev None [0; 0; 5; 0]) = Some dev' /\
    sends 0 cmd_read_rxb0 (flags_stored (flags_read_dev None [0; 0; 5; 0])) dev'.
Proof.
  assert (buffers_ok (flags_read_dev None [0; 0; 5; 0])) as Hb
    by (unfold buffers_ok; simpl; lia).
  split; [exact Hb|].
  refine (proj1 (read_flags_complete_priority 0 _ skb_std Hb) _). reflexivity.
Defined.

(** C6 as stated fails: the decoding of a flags reply with the
    transmit-complete bit reports nothing; it leaves the counters and the
    slot and only sends the clear-status command. *)
Lemma transmit_completion_counterexample :
  exists dev',
    mcp2515_read_flags_complete 0 (flags_read_dev (Some skb_std) [0; 0; 4; 0])
      = Some dev' /\
    stats dev' = stats (flags_read_dev (Some skb_std) [0; 0; 4; 0]) /\
    skb (priv dev') = Some skb_std /\
    trace dev' = [spi_async (cmd_clear_canintf 4) 0].
Proof. eexists. vm_compute. repeat split. Qed.

Lemma transmit_completion_reported_after_clear_status_witness :
  let dev := status_cleared_dev (Some skb_std) 4 0 in
  let dev' := mcp2515_clear_canintf_complete 0 dev in
  buffers_ok dev /\
  tx_bytes (stats dev') = 3 /\ tx_packets (stats dev') = 1 /\
  skb (priv dev') = None /\
  trace dev' =
    [can_put_echo_skb skb_std; can_get_echo_skb; netif_wake_queue;
     spi_async cmd_read_flags 0].
Proof.
  intros dev dev'.
  assert (buffers_ok dev) as Hb by (unfold buffers_ok; simpl; lia).
  split; [exact Hb|].
  destruct (transmit_completion_reported_after_clear_status 0 dev skb_std Hb
              eq_refl eq_refl) as (_ & Hbytes & Hpackets & Hslot & Htrace & _).
  split; [exact Hbytes|]. split; [exact Hpackets|].
  split; [exact Hslot | exact Htrace].
Defined.

(** C7 as stated fails: the encoding of the standard remote-request frame
    0x123 has the substitute-remote-request bit of the second identifier
    byte clear and the remote-request bit of the length byte set. *)
Lemma remote_request_encoding_counterexample :
  let b := fst (mcp2515_set_txbuf 1 (0x40 :: replicate 13 0) skb_std_rtr) in
  frame_is_eff (skb_data skb_std_rtr) = false /\
  frame_is_rtr (skb_data skb_std_rtr) = true /\
  Z.land (b !!! 2%nat) RXBSIDL_SRR = 0 /\
  Z.land (b !!! 5%nat) RXBDLC_RTR = 0x40.
Proof. vm_compute. repeat split. Qed.

Lemma remote_request_encoding_witness :
  let b := fst (mcp2515_set_txbuf 1 (0x40 :: replicate 13 0) skb_std_rtr) in
  truthy (Z.land (b !!! 5%nat) RXBDLC_RTR) = true /\
  truthy (Z.land (b !!! 2%nat) RXBSIDL_SRR) = false.
Proof.
  intros b.
  destruct (remote_request_encoding (0x40 :: replicate 13 0) (replicate 14 0)
              skb_std_rtr) as (Hlen & Hsrr & _);
    [simpl; lia | reflexivity | reflexivity |].
  split; [exact Hlen | exact (Hsrr eq_refl)].
Defined.

(** C8 with both overflow bits in the snapshot: the counter goes from 0 to
    1. *)
Lemma clear_eflg_complete_counts_once_witness :
  buffers_ok overflow_dev /\
  eflg (priv overflow_dev) = Z.lor EFLG_RX0OVR EFLG_RX1OVR /\
  rx_over_errors (stats (mcp2515_clear_eflg_complete 0 overflow_dev)) = 1.
Proof.
  assert (buffers_ok overflow_dev) as Hb by (unfold buffers_ok; simpl; lia).
  split; [exact Hb|]. split; [reflexivity|].
  exact (proj1 (clear_eflg_complete_counts_once 0 overflow_dev Hb)).
Defined.

(** C9 with a transmission pending: the frame of the slot is loaded next. *)
Lemma rx_allocation_failure_continues_witness :
  buffers_ok pending_dev /\
  transmit (priv pending_dev) = true /\
  exists dev',
    mcp2515_read_rxb1_complete false 0 pending_dev = Some dev' /\
    rx_dropped (stats dev') = 1 /\
    trace dev' = trace pending_dev ++ [spi_async (cmd_load_txb0 skb_std) 0].
Proof.
  assert (buffers_ok pending_dev) as Hb by (unfold buffers_ok; simpl; lia).
  split; [exact Hb|]. split; [reflexivity|].
  destruct (rx_allocation_failure_continues 0 pending_dev skb_std Hb)
    as (_ & dev' & Hrun & Hdrop & _ & _ & Htrace & _).
  { intros _. split; reflexivity. }
  exists dev'. split; [exact Hrun|]. split; [exact Hdrop | exact Htrace].
Defined.

(** C10 on a device with an empty slot. *)
Lemma clear_canintf_complete_empty_slot_witness :
  let dev := status_cleared_dev None 4 0 in
  let dev' := mcp2515_clear_canintf_complete 0 dev in
  buffers_ok dev /\
  stats dev' = stats dev /\ skb (priv dev') = None /\
  trace dev' = [netif_wake_queue; spi_async cmd_read_flags 0].
Proof.
  intros dev dev'.
  assert (buffers_ok dev) as Hb by (unfold buffers_ok; simpl; lia).
  split; [exact Hb|].
  destruct (clear_canintf_complete_empty_slot 0 dev Hb eq_refl eq_refl)
    as (Hstats & Hslot & Htrace & _).
  split; [exact Hstats|]. split; [exact Hslot | exact Htrace].
Defined.

(** * Synchronous paths: configuration, open and stop *)

Section Lifecycle.

Local Arguments truthy : simpl never.
Local Arguments config_buf : simpl never.
Local Arguments mcp2515_config : simpl never.
Local Arguments Z.add : simpl never.
Local Arguments Z.sub : simpl never.

Lemma truthy_cases (x : Z) :
  (truthy x = true /\ x <> 0) \/ (truthy x = false /\ x = 0).
Proof. unfold truthy. destruct (Z.eqb_spec x 0); [right|left]; auto. Qed.

Ltac case_truthy x :=
  let H := fresh "H" in let Hx := fresh "Hx" in
  destruct (truthy_cases x) as [[H Hx] | [H Hx]]; [|subst x; clear H].

(** Runs a synchronous path on a kernel whose answers are known to be zero
    or not. *)
Ltac run_sync :=
  repeat first
    [ progress cbn
    | progress change (truthy 0) with false
    | match goal with
      | H : truthy ?a = _ |- context [truthy ?a] => rewrite H
      end ].

Ltac new_calls_done :=
  unfold new_calls; run_sync;
  rewrite <- ?app_assoc; rewrite ?drop_app_length; run_sync.

(** X1.  [mcp2515_config] writes the six configuration bytes, then
    RXB0CTRL, RXB1CTRL and CANCTRL, in that order, and stops at the first
    write the SPI master refuses: it returns that error, having made no
    later write and without logging.  When all four writes succeed it logs
    the three CNF bytes and returns 0. *)
Theorem config_stops_at_first_error (can : can_priv) (k : kernel) :
  let r := fst (mcp2515_config can k) in
  let k' := snd (mcp2515_config can k) in
  let buf := config_buf can in
  match first_failure 4 (answers k) with
  | None =>
      r = 0 /\
      new_calls k k' =
        map (fun m => spi_write m 0) (config_writes can) ++
        [netdev_info (buf !!! 4%nat) (buf !!! 3%nat) (buf !!! 2%nat)]
  | Some (i, e) =>
      r = e /\ e <> 0 /\
      new_calls k k' =
        map (fun m => spi_write m 0) (take i (config_writes can)) ++
        [spi_write (config_writes can !!! i) e]
  end /\
  calls k' = calls k ++ new_calls k k'.
Proof.
  destruct k as [rs cs].
  unfold mcp2515_config, mcp2515_write, sync_bind, sync_ret, asks, tells.
  destruct rs as [|a1 [|a2 [|a3 [|a4 rs]]]].
  all: try case_truthy a1; try case_truthy a2; try case_truthy a3; try case_truthy a4.
  all: new_calls_done.
  all: repeat split; try assumption; try reflexivity.
Qed.


Lemma irq_held_app (l1 l2 : list lifecycle_call) :
  irq_held (l1 ++ l2) = irq_held l1 + irq_held l2.
Proof.
  induction l1 as [|c l1 IH]; [reflexivity|].
  destruct c; cbn [app irq_held]; rewrite IH; lia.
Qed.

Lemma candev_held_app (l1 l2 : list lifecycle_call) :
  candev_held (l1 ++ l2) = candev_held l1 + candev_held l2.
Proof.
  induction l1 as [|c l1 IH]; [reflexivity|].
  destruct c; cbn [app candev_held]; rewrite IH; lia.
Qed.

(** [mcp2515_config] only writes registers and logs. *)
Lemma config_calls (can : can_priv) (k : kernel) :
  exists l, calls (snd (mcp2515_config can k)) = calls k ++ l /\
            irq_held l = 0 /\ candev_held l = 0 /\
            ~ In (to_stack netif_wake_queue) l.
Proof.
  destruct k as [rs cs].
  unfold mcp2515_config, mcp2515_write, sync_bind, sync_ret, asks, tells.
  destruct rs as [|a1 [|a2 [|a3 [|a4 rs]]]].
  all: try case_truthy a1; try case_truthy a2; try case_truthy a3; try case_truthy a4.
  all: run_sync; rewrite <- ?app_assoc; eexists; (split; [reflexivity|]).
  all: repeat split; try reflexivity.
  all: intros Hin; repeat (destruct Hin as [Hin | Hin]; [discriminate Hin|]);
       exact Hin.
Qed.

Lemma new_calls_app (k k' : kernel) (l : list lifecycle_call) :
  calls k' = calls k ++ l -> new_calls k k' = l.
Proof. intros H. unfold new_calls. rewrite H. apply drop_app_length. Qed.

Lemma last_snoc_call (l : list lifecycle_call) (c : lifecycle_call) :
  last (l ++ [c]) = Some c.
Proof. apply last_snoc. Qed.

(** The calls of [mcp2515_open] by the stage that fails. *)
Lemma open_calls (can : can_priv) (k : kernel) :
  let r := fst (mcp2515_open can k) in
  exists l, calls (snd (mcp2515_open can k)) = calls k ++ l /\
    ((r = 0 /\ irq_held l = 1 /\ candev_held l = 1 /\
      last l = Some (to_stack netif_wake_queue)) \/
     (r <> 0 /\ irq_held l = 0 /\ candev_held l = 0 /\
      ~ In (to_stack netif_wake_queue) l)).
Proof.
  destruct k as [rs cs].
  unfold mcp2515_open, mcp2515_reset, sync_bind, sync_ret, asks, tells.
  destruct rs as [|a1 [|a2 [|a3 rs]]].
  all: try case_truthy a1; try case_truthy a2; try case_truthy a3.
  all: run_sync.
  all: try (rewrite <- ?app_assoc; eexists; split; [reflexivity|]; right;
            run_sync; repeat split; try assumption; try reflexivity;
            intros Hin; repeat (destruct Hin as [Hin | Hin]; [discriminate Hin|]);
            exact Hin).
  all: match goal with
       | |- context [mcp2515_config ?c ?K] =>
           destruct (config_calls c K) as (lc & Hc & Hi & Hd & Hw);
           destruct (mcp2515_config c K) as [r k2]
       end.
  all: cbn [snd calls] in Hc; case_truthy r; run_sync; rewrite ?Hc;
       rewrite <- ?app_assoc; (eexists; split; [reflexivity|]); [right|left].
  all: repeat rewrite ?irq_held_app, ?candev_held_app; cbn [app irq_held candev_held];
       change (truthy 0) with false; cbv iota; rewrite ?irq_held_app, ?candev_held_app, ?Hi, ?Hd;
       cbn [irq_held candev_held]; change (truthy 0) with false; cbv iota.
  all: repeat split; try assumption; try reflexivity; try lia.
  all: try (rewrite !app_comm_cons; apply last_snoc).
  all: try (intros Hin; repeat (destruct Hin as [Hin | Hin]; [discriminate Hin|]);
            apply in_app_or in Hin; destruct Hin as [Hin | Hin]; [exact (Hw Hin)|];
            repeat (destruct Hin as [Hin | Hin]; [discriminate Hin|]); exact Hin).
Qed.

(** X3.  [mcp2515_open] holds the interrupt line and the opened CAN device
    exactly when it returns 0, and then its last call wakes the queue.
    When it fails, at whatever stage, every interrupt line it requested is
    freed and every device it opened is closed again, and the queue is not
    woken. *)
Theorem open_releases_on_failure (can : can_priv) (k : kernel) :
  let r := fst (mcp2515_open can k) in
  let l := new_calls k (snd (mcp2515_open can k)) in
  (r = 0 ->
     irq_held l = 1 /\ candev_held l = 1 /\
     last l = Some (to_stack netif_wake_queue)) /\
  (r <> 0 ->
     irq_held l = 0 /\ candev_held l = 0 /\
     ~ In (to_stack netif_wake_queue) l).
Proof.
  cbv zeta. destruct (open_calls can k) as (l & Hl & H).
  rewrite (new_calls_app _ _ _ Hl).
  destruct H as [(Hr & H) | (Hr & H)]; split; intros Hr'; try exact H; congruence.
Qed.

(** X4.  After a successful [mcp2515_open], [mcp2515_stop] resets the
    chip, closes the CAN device and frees the interrupt line, in that
    order; it returns 0 whatever the reset answers, and nothing is left
    held. *)
Theorem stop_undoes_open (can : can_priv) (k : kernel) :
  fst (mcp2515_open can k) = 0 ->
  let k1 := snd (mcp2515_open can k) in
  let k2 := snd (mcp2515_stop k1) in
  fst (mcp2515_stop k1) = 0 /\
  irq_held (new_calls k k2) = 0 /\ candev_held (new_calls k k2) = 0 /\
  new_calls k1 k2 = [spi_write [0xc0] (hd 0 (answers k1)); close_candev; free_irq].
Proof.
  intros Hr. cbv zeta.
  destruct (open_calls can k) as (l & Hl & [(_ & Hi & Hd & _) | (Hne & _)]);
    [|contradiction].
  set (k1 := snd (mcp2515_open can k)) in *.
  assert (calls (snd (mcp2515_stop k1)) =
          calls k1 ++ [spi_write [0xc0] (hd 0 (answers k1)); close_candev; free_irq])
    as Hs.
  { unfold mcp2515_stop, mcp2515_reset, sync_bind, sync_ret, asks, tells.
    cbn. rewrite <- !app_assoc. reflexivity. }
  split; [reflexivity|].
  rewrite (new_calls_app k1 _ _ Hs).
  assert (new_calls k (snd (mcp2515_stop k1)) =
          l ++ [spi_write [0xc0] (hd 0 (answers k1)); close_candev; free_irq]) as ->.
  { apply new_calls_app. rewrite Hs, Hl, <- app_assoc. reflexivity. }
  rewrite irq_held_app, candev_held_app, Hi, Hd. repeat split.
Qed.

End Lifecycle.

Section ConfigRegisters.

Lemma range_cases (lo : Z) (k : nat) (x : Z) (P : Z -> Prop) :
  List.Forall (fun i => P (lo + i)) (map Z.of_nat (seq 0 k)) ->
  lo <= x < lo + Z.of_nat k -> P x.
Proof.
  intros HP Hx. replace x with (lo + (x - lo)) by lia.
  pattern (x - lo). apply (small_cases k); [exact HP | lia].
Qed.

(** Splits a goal about a field in a known range into its values. *)
Ltac each_value x lo k H :=
  pattern x; apply (range_cases lo k); [|exact H];
  repeat (apply List.Forall_cons || apply List.Forall_nil).

Lemma cnf3_field (p2 : Z) :
  1 <= p2 < 1 + Z.of_nat 8 -> u8 (u32 (p2 - 1)) = p2 - 1.
Proof. intros H. each_value p2 1 8%nat H; vm_compute; reflexivity. Qed.

Lemma cnf2_fields (sam : bool) (p1 pr : Z) :
  1 <= p1 < 1 + Z.of_nat 8 -> 1 <= pr < 1 + Z.of_nat 8 ->
  let cnf2 := u8 (Z.lor (Z.lor (if sam then 0xc0 else 0x80)
                               (u32 (Z.shiftl (u32 (p1 - 1)) 3)))
                        (u32 (pr - 1))) in
  Z.testbit cnf2 7 = true /\ Z.testbit cnf2 6 = sam /\
  Z.land (Z.shiftr cnf2 3) 7 = p1 - 1 /\ Z.land cnf2 7 = pr - 1.
Proof.
  intros H1 Hr. cbv zeta. revert pr Hr.
  each_value p1 1 8%nat H1; intros pr Hr; each_value pr 1 8%nat Hr;
    destruct sam; vm_compute; repeat split.
Qed.

Lemma cnf1_fields (sj br : Z) :
  1 <= sj < 1 + Z.of_nat 4 -> 1 <= br < 1 + Z.of_nat 64 ->
  let cnf1 := u8 (Z.lor (u32 (Z.shiftl (u32 (sj - 1)) 6)) (u32 (br - 1))) in
  Z.shiftr cnf1 6 = sj - 1 /\ Z.land cnf1 0x3f = br - 1.
Proof.
  intros Hs Hb. cbv zeta. revert br Hb.
  each_value sj 1 4%nat Hs; intros br Hb; each_value br 1 64%nat Hb;
    vm_compute; repeat split.
Qed.

Lemma bittiming_fits_inv (bt : can_bittiming) :
  bittiming_fits bt = true ->
  1 <= sjw bt < 1 + Z.of_nat 4 /\ 1 <= brp bt < 1 + Z.of_nat 64 /\
  1 <= prop_seg bt < 1 + Z.of_nat 8 /\ 1 <= phase_seg1 bt < 1 + Z.of_nat 8 /\
  1 <= phase_seg2 bt < 1 + Z.of_nat 8.
Proof.
  unfold bittiming_fits. cbn [mcp2515_bittiming_const sjw_max brp_min brp_max tseg2_max].
  intros H. repeat (apply andb_prop in H; destruct H as [H ?]). lia.
Qed.

(** X2.  For bit-timing fields that fit their register fields, the bytes
    [mcp2515_config] builds hold each field minus one, unchanged: CNF3 the
    second phase segment; CNF2 the first phase segment in bits 3 to 5 and
    the propagation segment in bits 0 to 2, with bit 7 set and bit 6 set
    exactly for triple sampling; CNF1 the jump width in bits 6 and 7 and
    the prescaler in bits 0 to 5; CANINTE is 0xff. *)
Theorem config_registers_roundtrip (can : can_priv) :
  bittiming_fits (bittiming can) = true ->
  let bt := bittiming can in
  let cnf3 := config_buf can !!! 2%nat in
  let cnf2 := config_buf can !!! 3%nat in
  let cnf1 := config_buf can !!! 4%nat in
  cnf3 = phase_seg2 bt - 1 /\
  Z.testbit cnf2 7 = true /\
  Z.testbit cnf2 6 = truthy (Z.land (ctrlmode can) CAN_CTRLMODE_3_SAMPLES) /\
  Z.land (Z.shiftr cnf2 3) 7 = phase_seg1 bt - 1 /\
  Z.land cnf2 7 = prop_seg bt - 1 /\
  Z.shiftr cnf1 6 = sjw bt - 1 /\
  Z.land cnf1 0x3f = brp bt - 1 /\
  config_buf can !!! 5%nat = 0xff.
Proof.
  intros Hfit. apply bittiming_fits_inv in Hfit.
  destruct Hfit as (Hsj & Hbr & Hpr & Hp1 & Hp2). cbv zeta.
  pose proof (cnf3_field _ Hp2) as H3.
  pose proof (cnf2_fields (truthy (Z.land (ctrlmode can) CAN_CTRLMODE_3_SAMPLES))
                _ _ Hp1 Hpr) as (H27 & H26 & H2p & H2r).
  pose proof (cnf1_fields _ _ Hsj Hbr) as (H1s & H1b).
  repeat split; assumption.
Qed.
End ConfigRegisters.

(** * Whole runs of the sequencer *)

Section Runs.

Local Arguments Z.land : simpl never.
Local Arguments Z.lor : simpl never.
Local Arguments Z.lnot : simpl never.
Local Arguments Z.shiftl : simpl never.
Local Arguments Z.shiftr : simpl never.
Local Arguments Z.add : simpl never.
Local Arguments u8 : simpl never.
Local Arguments u32 : simpl never.
Local Arguments ulong : simpl never.
Local Arguments truthy : simpl never.

Lemma stalled_step (e : event) (dev dev' : net_device) :
  busy (priv dev) = true -> spi_queue dev = [] -> step e dev = Some dev' ->
  is_producer e = true /\ busy (priv dev') = true /\ spi_queue dev' = [] /\
  exists l, trace dev' = trace dev ++ l /\ spi_calls l = [].
Proof.
  intros Hb Hq H. apply step_outcome in H.
  destruct H as (q0 & Hq0 & [(err & m & l & _ & _ & _ & Hone) | (l & Ht & Hl & Hq' & Hnone)]).
  - exfalso. destruct (is_producer e).
    + destruct Hone. congruence.
    + destruct Hq0 as (m0 & Hq0). congruence.
  - destruct (is_producer e).
    + subst q0. split; [reflexivity|].
      destruct Hnone as [Hsame | [? _]]; [|discriminate].
      rewrite Hsame, Hq'. eauto.
    + destruct Hq0 as (m0 & Hq0). congruence.
Qed.

(** X8.  A device left with [busy] set and nothing with the SPI master, as
    after a refused [spi_async], stays so: whatever interrupts and
    submissions follow, no handler issues a command again and [busy] is
    never cleared; and no completion can occur, as the SPI master holds no
    message. *)
Theorem stalled_chain_never_resumes (dev : net_device) (es : list event)
    (dev' : net_device) :
  busy (priv dev) = true -> spi_queue dev = [] ->
  run es dev = Some dev' ->
  busy (priv dev') = true /\ spi_queue dev' = [] /\
  issued_by dev dev' = [] /\ forallb is_producer es = true.
Proof.
  intros Hb Hq Hrun.
  enough (busy (priv dev') = true /\ spi_queue dev' = [] /\
          forallb is_producer es = true /\
          exists l, trace dev' = trace dev ++ l /\ spi_calls l = [])
    as (H1 & H2 & H3 & l & Ht & Hl).
  { rewrite (issued_by_app _ _ _ Ht). auto. }
  revert dev Hb Hq Hrun. induction es as [|e es IH]; cbn [run forallb]; intros dev Hb Hq Hrun.
  - injection Hrun as <-. repeat split; try assumption.
    exists []. rewrite app_nil_r. auto.
  - destruct (step e dev) as [d1|] eqn:Hstep; [|discriminate].
    destruct (stalled_step e dev d1 Hb Hq Hstep) as (Hp & Hb1 & Hq1 & l1 & Ht1 & Hl1).
    destruct (IH d1 Hb1 Hq1 Hrun) as (H1 & H2 & H3 & l & Ht & Hl).
    rewrite Hp, H3. repeat split; try assumption.
    exists (l1 ++ l). rewrite Ht, Ht1, <- app_assoc, spi_calls_app, Hl1, Hl. auto.
Qed.

Lemma producer_keeps_flags_when_idle (e : event) (dev dev' : net_device) :
  is_producer e = true -> step e dev = Some dev' -> busy (priv dev') = false ->
  busy (priv dev) = false /\
  interrupt (priv dev') = interrupt (priv dev) /\
  transmit (priv dev') = transmit (priv dev).
Proof.
  destruct e as [err | s err | reply ok err]; cbn [is_producer step];
    intros Hprod H Hb'; [| |discriminate Hprod]; injection H as <-.
  - unfold mcp2515_interrupt in *. destruct (busy (priv dev)) eqn:Hb;
      cbn [snd] in *; [cbn in Hb'; congruence|].
    exfalso. destruct (read_flags_sends err (set_priv (with_busy true) dev))
      as (_ & _ & _ & _ & Hp).
    destruct Hp as (_ & _ & _ & Hbb & _). rewrite Hbb in Hb'. discriminate Hb'.
  - unfold mcp2515_start_xmit, can_dropped_invalid_skb in *.
    destruct (_ || _); cbn [snd] in *.
    + cbn in *. auto.
    + exfalso. revert Hb'.
      change (busy (priv (set_priv (with_skb (Some s)) (call netif_stop_queue dev))))
        with (busy (priv dev)).
      destruct (busy (priv dev)) eqn:Hb; cbn [snd]; [cbn; intros; congruence|].
      intros Hb'. destruct (load_txb0_sends err s
                  (set_priv (with_busy true)
                     (set_priv (with_skb (Some s)) (call netif_stop_queue dev))))
        as (_ & _ & _ & _ & Hp).
      destruct Hp as (_ & _ & _ & Hbb & _). rewrite Hbb in Hb'. discriminate Hb'.
Qed.

Lemma step_keeps_no_pending (e : event) (dev dev' : net_device) :
  one_outstanding dev -> no_pending_when_idle dev ->
  step e dev = Some dev' -> no_pending_when_idle dev'.
Proof.
  intros [Hlen Hidle] Hnp H Hb'.
  destruct (is_producer e) eqn:Hp.
  - destruct (producer_keeps_flags_when_idle e dev dev' Hp H Hb') as (Hb & -> & ->).
    apply Hnp, Hb.
  - destruct e as [err | s err | reply ok err]; try discriminate. cbn [step] in H.
    unfold spi_complete in H. destruct (spi_queue dev) as [|m0 q] eqn:Hq; [discriminate|].
    assert (busy (priv dev) = true) as Hb.
    { destruct (busy (priv dev)); [reflexivity|]. specialize (Hidle eq_refl). discriminate. }
    cbn [priv message_complete with_rx_buf] in H.
    destruct (message_complete (priv dev)) as [cb|].
    + apply callback_outcome in H.
      destruct H as [H | (_ & -> & _ & Ht & Hi)].
      * exfalso. apply chain_step_facts in H. destruct H as (_ & _ & _ & _ & _ & Hbb).
        cbn in Hbb. congruence.
      * cbn in Ht, Hi. cbn. auto.
    + injection H as <-. cbn in Hb'. congruence.
Qed.

(** X9.  From an idle device with no flag pending, after any sequence of
    interrupts, submissions and completions: whenever [busy] is clear, no
    interrupt and no transmission is left pending and nothing is with the
    SPI master. *)
Theorem idle_leaves_nothing_pending (dev0 : net_device) (es : list event)
    (dev : net_device) :
  busy (priv dev0) = false -> spi_queue dev0 = [] ->
  interrupt (priv dev0) = false -> transmit (priv dev0) = false ->
  run es dev0 = Some dev ->
  busy (priv dev) = false ->
  interrupt (priv dev) = false /\ transmit (priv dev) = false /\ spi_queue dev = [].
Proof.
  intros Hb0 Hq0 Hi0 Ht0 Hrun.
  assert (one_outstanding dev0) as Hone
    by (split; [rewrite Hq0; cbn; lia | intros _; exact Hq0]).
  assert (no_pending_when_idle dev0) as Hnp by (intros _; auto).
  clear Hb0 Hq0 Hi0 Ht0.
  revert dev0 Hone Hnp Hrun. induction es as [|e es IH]; cbn [run]; intros dev0 Hone Hnp Hrun.
  - injection Hrun as <-. intros Hb. destruct (Hnp Hb). destruct Hone as [_ Hq]. auto.
  - destruct (step e dev0) as [d1|] eqn:Hstep; [|discriminate].
    apply (IH d1); [| |exact Hrun].
    + apply (step_preserves_one_outstanding e dev0); assumption.
    + apply (step_keeps_no_pending e dev0); assumption.
Qed.

End Runs.

(** * Chains of handler invocations *)

Section Chains.

Local Arguments Z.land : simpl never.
Local Arguments Z.lor : simpl never.
Local Arguments Z.lnot : simpl never.
Local Arguments Z.shiftl : simpl never.
Local Arguments Z.shiftr : simpl never.
Local Arguments Z.add : simpl never.
Local Arguments u8 : simpl never.
Local Arguments u32 : simpl never.
Local Arguments ulong : simpl never.
Local Arguments truthy : simpl never.

Lemma priv_spi_async (err : Z) (dev : net_device) :
  priv (mcp2515_spi_async err dev) = priv dev.
Proof. unfold mcp2515_spi_async. destruct (truthy err); reflexivity. Qed.

Lemma step_complete (reply : list Z) (ok : bool) (err : Z) (dev : net_device)
    (m : spi_message) (q : list spi_message) (cb : completion) :
  spi_queue dev = m :: q -> message_complete (priv dev) = Some cb ->
  step (ev_spi_complete reply ok err) dev = run_complete cb ok err (rx_filled reply dev).
Proof.
  intros Hq Hc. cbn [step]. unfold spi_complete, rx_filled. rewrite Hq.
  cbn [priv message_complete with_rx_buf tl]. rewrite Hc. reflexivity.
Qed.

(** The state a builder leaves is the next link of the chain. *)
Lemma stage_intro (dev0 base dev : net_device) (m : spi_message) (n : Z)
    (l : list kcall) (st : net_device_stats) (slot : option sk_buff) (ci ef : Z) :
  sends 0 m base dev -> transfer_len (priv dev) = n ->
  spi_queue base = [] -> trace base = trace dev0 ++ l -> stats base = st ->
  skb (priv base) = slot -> canintf (priv base) = ci -> eflg (priv base) = ef ->
  busy (priv base) = true ->
  interrupt (priv base) = interrupt (priv dev0) ->
  transmit (priv base) = transmit (priv dev0) ->
  buffers_ok base -> (14 <= length (transfer_rx_buf (priv base)))%nat ->
  at_stage dev0 dev m n (l ++ [spi_async m 0]) st slot ci ef.
Proof.
  intros (Hm & Ht & Hq & Hs & Hc & He & Hk & Hb & Hi & Htr & Hrx & Htx)
    Hn Hq0 Ht0 Hs0 Hk0 Hc0 He0 Hb0 Hi0 Htr0 Hbuf Hrxl.
  unfold at_stage, buffers_ok in *.
  rewrite Hq, Hq0, Ht, Ht0, Hs, Hk, Hc, He, Hb, Hi, Htr, Hrx, Htx, <- Hm.
  cbn [err_report accepted app]. change (truthy 0) with false. cbv iota.
  rewrite <- app_assoc. repeat split; assumption.
Qed.

(** What the completion callback finds, from the link before. *)
Lemma stage_base (dev0 dev : net_device) (m : spi_message) (n : Z)
    (l : list kcall) (st : net_device_stats) (slot : option sk_buff) (ci ef : Z)
    (reply : list Z) :
  at_stage dev0 dev m n l st slot ci ef ->
  let base := rx_filled reply dev in
  spi_queue base = [] /\ trace base = trace dev0 ++ l /\ stats base = st /\
  skb (priv base) = slot /\ canintf (priv base) = ci /\ eflg (priv base) = ef /\
  busy (priv base) = true /\
  interrupt (priv base) = interrupt (priv dev0) /\
  transmit (priv base) = transmit (priv dev0) /\
  buffers_ok base /\ (14 <= length (transfer_rx_buf (priv base)))%nat /\
  transfer_rx_buf (priv base) =
    list_inserts 0 (u8 <$> take (Z.to_nat n) reply) (transfer_rx_buf (priv dev)).
Proof.
  intros (Hq & Hc & Hn & Ht & Hs & Hk & Hci & He & Hb & Hi & Htr & Hbuf & Hrx).
  unfold rx_filled, buffers_ok in *. cbn. rewrite Hq, Hn, length_inserts.
  repeat split; assumption.
Qed.

Lemma stage_step (dev0 dev : net_device) (m : spi_message) (n : Z)
    (l : list kcall) (st : net_device_stats) (slot : option sk_buff) (ci ef : Z)
    (reply : list Z) (ok : bool) (cb : completion) :
  at_stage dev0 dev m n l st slot ci ef -> msg_complete m = Some cb ->
  step (ev_spi_complete reply ok 0) dev = run_complete cb ok 0 (rx_filled reply dev).
Proof.
  intros (Hq & Hc & _) Hm. apply (step_complete _ _ _ _ m []); congruence.
Qed.

Ltac use_base H reply :=
  let B := fresh "B" in
  pose proof (stage_base _ _ _ _ _ _ _ _ _ reply H) as B; cbv zeta in B;
  destruct B as (Bq & Bt & Bs & Bk & Bc & Be & Bb & Bi & Btr & Bbuf & Brx & Bcontent).

(** After the load of the transmit buffer comes the request to send. *)
Lemma stage_load_complete (dev0 dev : net_device) (m : spi_message) (n : Z)
    (l : list kcall) (st : net_device_stats) (slot : option sk_buff) (ci ef : Z)
    (reply : list Z) (ok : bool) :
  at_stage dev0 dev m n l st slot ci ef ->
  msg_complete m = Some load_txb0_complete ->
  exists dev',
    step (ev_spi_complete reply ok 0) dev = Some dev' /\
    at_stage dev0 dev' cmd_rts_txb0 1 (l ++ [spi_async cmd_rts_txb0 0]) st slot ci ef.
Proof.
  intros H Hm. rewrite (stage_step _ _ _ _ _ _ _ _ _ reply ok _ H Hm).
  use_base H reply. eexists. split; [reflexivity|].
  cbn [run_complete]. unfold mcp2515_load_txb0_complete.
  eapply stage_intro; try eassumption.
  - eapply sends_as; [apply rts_txb0_sends | apply rts_txb0_message, Bbuf].
  - unfold mcp2515_rts_txb0. rewrite priv_spi_async. reflexivity.
Qed.

(** After the request to send comes the flags read. *)
Lemma stage_rts_complete (dev0 dev : net_device) (m : spi_message) (n : Z)
    (l : list kcall) (st : net_device_stats) (slot : option sk_buff) (ci ef : Z)
    (reply : list Z) (ok : bool) :
  at_stage dev0 dev m n l st slot ci ef ->
  msg_complete m = Some rts_txb0_complete ->
  exists dev',
    step (ev_spi_complete reply ok 0) dev = Some dev' /\
    at_stage dev0 dev' cmd_read_flags 4 (l ++ [spi_async cmd_read_flags 0]) st slot ci ef.
Proof.
  intros H Hm. rewrite (stage_step _ _ _ _ _ _ _ _ _ reply ok _ H Hm).
  use_base H reply. eexists. split; [reflexivity|].
  cbn [run_complete]. unfold mcp2515_rts_txb0_complete.
  eapply stage_intro; try eassumption.
  - eapply sends_as; [apply read_flags_sends | apply read_flags_message, Bbuf].
  - unfold mcp2515_read_flags. rewrite priv_spi_async. reflexivity.
Qed.

Lemma flags_reply_stored (rx : list Z) (a b c e : Z) :
  (14 <= length rx)%nat ->
  let rx' := list_inserts 0 (u8 <$> take (Z.to_nat 4) [a; b; c; e]) rx in
  rx' !!! 2%nat = u8 c /\ rx' !!! 3%nat = u8 e.
Proof.
  intros H. do 4 (destruct rx as [|? rx]; [cbn in H; lia|]).
  split; reflexivity.
Qed.


Ltac base_facts :=
  cbn [priv stats trace spi_queue set_priv set_stats call flags_stored
       canintf eflg skb busy interrupt transmit transfer_rx_buf transfer_tx_buf
       with_canintf with_eflg with_skb with_busy with_interrupt with_transmit];
  try assumption.

Lemma u8_byte (x : Z) : is_byte x = true -> u8 x = x.
Proof. intros H. symmetry. apply byte_u8, H. Qed.

(** An interrupt on the idle device starts a chain with the flags read. *)
Lemma stage_interrupt (dev0 : net_device) :
  busy (priv dev0) = false -> spi_queue dev0 = [] -> buffers_ok dev0 ->
  (14 <= length (transfer_rx_buf (priv dev0)))%nat ->
  exists dev,
    step (ev_interrupt 0) dev0 = Some dev /\
    at_stage dev0 dev cmd_read_flags 4 [spi_async cmd_read_flags 0]
      (stats dev0) (skb (priv dev0)) (canintf (priv dev0)) (eflg (priv dev0)).
Proof.
  intros Hb Hq Hbuf Hrx. eexists. split; [reflexivity|].
  unfold mcp2515_interrupt. rewrite Hb. cbn [snd].
  eapply (stage_intro dev0 _ _ _ _ []).
  - eapply sends_as; [apply read_flags_sends | apply read_flags_message, Hbuf].
  - unfold mcp2515_read_flags. rewrite priv_spi_async. reflexivity.
  - exact Hq.
  - cbn. symmetry. apply app_nil_r.
  - reflexivity.
  - reflexivity.
  - reflexivity.
  - reflexivity.
  - reflexivity.
  - reflexivity.
  - reflexivity.
  - exact Hbuf.
  - exact Hrx.
Qed.

(** A submission on the idle device starts a chain with the load. *)
Lemma stage_start_xmit (dev0 : net_device) (s : sk_buff) :
  busy (priv dev0) = false -> spi_queue dev0 = [] -> buffers_ok dev0 ->
  (14 <= length (transfer_rx_buf (priv dev0)))%nat ->
  wellformed_skb s = true ->
  exists dev,
    step (ev_start_xmit s 0) dev0 = Some dev /\
    at_stage dev0 dev (cmd_load_txb0 s) (6 + can_dlc (skb_data s))
      [netif_stop_queue; spi_async (cmd_load_txb0 s) 0]
      (stats dev0) (Some s) (canintf (priv dev0)) (eflg (priv dev0)).
Proof.
  intros Hb Hq Hbuf Hrx Hw. eexists. split; [reflexivity|].
  unfold mcp2515_start_xmit. rewrite (wellformed_not_dropped dev0 s Hw).
  cbn [priv call set_priv busy with_skb]. rewrite Hb. cbn [snd].
  eapply (stage_intro dev0 _ _ _ _ [netif_stop_queue]).
  - eapply sends_as; [apply load_txb0_sends | apply load_txb0_message; [exact Hbuf | exact Hw]].
  - unfold mcp2515_load_txb0, mcp2515_set_txbuf. rewrite priv_spi_async.
    cbn [priv set_priv transfer_len with_transfer_len with_message_complete]. lia.
  - exact Hq.
  - reflexivity.
  - reflexivity.
  - reflexivity.
  - reflexivity.
  - reflexivity.
  - reflexivity.
  - reflexivity.
  - reflexivity.
  - exact Hbuf.
  - exact Hrx.
Qed.

Ltac open_flags H a b c e Hc He :=
  rewrite (stage_step _ _ _ _ _ _ _ _ _ [a; b; c; e] _ _ H eq_refl);
  use_base H [a; b; c; e];
  let Hrx := fresh "Hrx" in
  let L2 := fresh "L" in
  let L3 := fresh "L" in
  pose proof H as (_ & _ & _ & _ & _ & _ & _ & _ & _ & _ & _ & _ & Hrx);
  destruct (flags_reply_stored _ a b c e Hrx) as [L2 L3];
  cbv zeta in L2, L3;
  match goal with
  | Bc : transfer_rx_buf _ = list_inserts _ _ _ |- _ => rewrite <- Bc in L2, L3
  end;
  rewrite (u8_byte c Hc) in L2; rewrite (u8_byte e He) in L3;
  cbn [run_complete]; unfold mcp2515_read_flags_complete; cbv zeta;
  rewrite ?L2, ?L3, ?(u8_byte c Hc), ?(u8_byte e He).

(** The flags read comes back with the bit of receive buffer 0. *)
Lemma stage_flags_rx0 (dev0 dev : net_device) (l : list kcall)
    (st : net_device_stats) (slot : option sk_buff) (ci ef a b c e : Z) (ok : bool) :
  at_stage dev0 dev cmd_read_flags 4 l st slot ci ef ->
  is_byte c = true -> is_byte e = true ->
  truthy (Z.land c CANINTF_RX0IF) = true ->
  exists dev',
    step (ev_spi_complete [a; b; c; e] ok 0) dev = Some dev' /\
    at_stage dev0 dev' cmd_read_rxb0 14 (l ++ [spi_async cmd_read_rxb0 0]) st slot c e.
Proof.
  intros H Hc He H0. open_flags H a b c e Hc He. rewrite H0.
  eexists. split; [reflexivity|].
  eapply stage_intro.
  - eapply sends_as; [apply read_rxb_sends | apply read_rxb0_message; exact Bbuf].
  - unfold mcp2515_read_rxb0, mcp2515_read_rxb. rewrite priv_spi_async. reflexivity.
  - base_facts.
  - base_facts.
  - base_facts.
  - base_facts.
  - base_facts. reflexivity.
  - base_facts. reflexivity.
  - base_facts.
  - base_facts.
  - base_facts.
  - exact Bbuf.
  - base_facts.
Qed.

(** The flags read comes back with status bits but no receive bit. *)
Lemma stage_flags_clear (dev0 dev : net_device) (l : list kcall)
    (st : net_device_stats) (slot : option sk_buff) (ci ef a b c e : Z) (ok : bool) :
  at_stage dev0 dev cmd_read_flags 4 l st slot ci ef ->
  is_byte c = true -> is_byte e = true ->
  truthy (Z.land c CANINTF_RX0IF) = false ->
  truthy (Z.land c CANINTF_RX1IF) = false ->
  truthy c = true ->
  exists dev',
    step (ev_spi_complete [a; b; c; e] ok 0) dev = Some dev' /\
    at_stage dev0 dev' (cmd_clear_canintf (Z.land c 0xfc)) 4
      (l ++ [spi_async (cmd_clear_canintf (Z.land c 0xfc)) 0]) st slot c e.
Proof.
  intros H Hc He H0 H1 Hnz. open_flags H a b c e Hc He. rewrite H0, H1, Hnz.
  eexists. split; [reflexivity|].
  eapply stage_intro.
  - eapply sends_as; [apply clear_canintf_sends|].
    rewrite clear_canintf_message by exact Bbuf.
    cbn [priv set_priv canintf with_eflg with_canintf].
    rewrite <- (u8_byte c Hc) at 1. rewrite clear_status_mask, (u8_byte c Hc).
    reflexivity.
  - unfold mcp2515_clear_canintf. rewrite priv_spi_async. reflexivity.
  - base_facts.
  - base_facts.
  - base_facts.
  - base_facts.
  - base_facts. reflexivity.
  - base_facts. reflexivity.
  - base_facts.
  - base_facts.
  - base_facts.
  - exact Bbuf.
  - base_facts.
Qed.

(** The flags read comes back empty and no producer has left a flag. *)
Lemma stage_flags_idle (dev0 dev : net_device) (l : list kcall)
    (st : net_device_stats) (slot : option sk_buff) (ci ef a b e : Z) (ok : bool) :
  at_stage dev0 dev cmd_read_flags 4 l st slot ci ef ->
  is_byte e = true ->
  transmit (priv dev0) = false -> interrupt (priv dev0) = false ->
  exists dev',
    step (ev_spi_complete [a; b; 0; e] ok 0) dev = Some dev' /\
    busy (priv dev') = false /\ spi_queue dev' = [] /\
    trace dev' = trace dev0 ++ l /\ stats dev' = st /\ skb (priv dev') = slot /\
    canintf (priv dev') = 0 /\ eflg (priv dev') = e.
Proof.
  intros H He Ht Hi.
  assert (is_byte 0 = true) as Hc by reflexivity.
  open_flags H a b 0 e Hc He.
  change (truthy (Z.land 0 CANINTF_RX0IF)) with false.
  change (truthy (Z.land 0 CANINTF_RX1IF)) with false.
  change (truthy 0) with false. cbv iota.
  cbn [priv set_priv transmit interrupt with_eflg with_canintf].
  rewrite Btr, Ht, Bi, Hi.
  eexists. split; [reflexivity|]. cbn.
  repeat split; assumption.
Qed.

Lemma dlc_bound (x : Z) : 0 <= u8 (get_can_dlc (Z.land x 0xf)) <= 8.
Proof.
  unfold u8, get_can_dlc. change 15 with (Z.ones 4). change 255 with (Z.ones 8).
  rewrite !Z.land_ones by lia.
  change (2 ^ 4) with 16. change (2 ^ 8) with 256.
  pose proof (Z.mod_pos_bound x 16 ltac:(lia)) as Hx.
  rewrite Z.mod_small; lia.
Qed.

Lemma take_prefix8 (n : nat) (a b c d e f g h : Z) (rest : list Z) :
  (n <= 8)%nat ->
  take n (a :: b :: c :: d :: e :: f :: g :: h :: rest) = take n [a; b; c; d; e; f; g; h].
Proof. intros H. do 9 (destruct n as [|n]; [reflexivity|]). lia. Qed.

(** The decoder looks at the 14 bytes of the reply only. *)
Lemma decode_reply (reply rx : list Z) (frame : can_frame) :
  length reply = 14%nat -> (14 <= length rx)%nat ->
  decode_rxb (list_inserts 0 (u8 <$> take (Z.to_nat 14) reply) rx) frame =
  decode_rxb (u8 <$> reply) frame.
Proof.
  intros Hr Hrx.
  do 14 (destruct reply as [|? reply]; [discriminate|]).
  destruct reply; [|discriminate].
  do 14 (destruct rx as [|? rx]; [cbn in Hrx; lia|]).
  change (Z.to_nat 14) with 14%nat. unfold decode_rxb, memcpy. cbn -[Z.to_nat].
  rewrite take_prefix8; [reflexivity|].
  pose proof (dlc_bound (u8 z4)). lia.
Qed.

(** Receive buffer 0 was read: the frame goes to the stack, then the
    flags are read again. *)
Lemma stage_rxb0_complete (dev0 dev : net_device) (l : list kcall)
    (st : net_device_stats) (slot : option sk_buff) (ci ef : Z) (reply : list Z) :
  at_stage dev0 dev cmd_read_rxb0 14 l st slot ci ef ->
  length reply = 14%nat ->
  truthy (Z.land ci CANINTF_RX1IF) = false ->
  transmit (priv dev0) = false ->
  let frame := decode_rxb (u8 <$> reply) zeroed_frame in
  exists dev',
    step (ev_spi_complete reply true 0) dev = Some dev' /\
    at_stage dev0 dev' cmd_read_flags 4
      (l ++ [netif_rx (mk_sk_buff sizeof_can_frame frame); spi_async cmd_read_flags 0])
      (add_rx_bytes (can_dlc frame) (inc_rx_packets st)) slot ci ef.
Proof.
  intros H Hr H1 Ht frame.
  rewrite (stage_step _ _ _ _ _ _ _ _ _ reply true _ H eq_refl).
  use_base H reply.
  pose proof H as (_ & _ & _ & _ & _ & _ & _ & _ & _ & _ & _ & _ & Hrx).
  cbn [run_complete].
  unfold mcp2515_read_rxb0_complete, mcp2515_read_rxb_complete, alloc_can_skb.
  cbv zeta. cbn [skb_data skb_len].
  cbn [priv call set_stats canintf]. rewrite Bc, H1.
  unfold mcp2515_transmit_or_read_flags.
  cbn [priv call set_stats transmit]. rewrite Btr, Ht.
  eexists. split; [reflexivity|].
  rewrite Bcontent, decode_reply by assumption. fold zeroed_frame. fold frame.
  replace (l ++ [netif_rx (mk_sk_buff sizeof_can_frame frame); spi_async cmd_read_flags 0])
    with ((l ++ [netif_rx (mk_sk_buff sizeof_can_frame frame)]) ++ [spi_async cmd_read_flags 0])
    by (rewrite <- app_assoc; reflexivity).
  eapply stage_intro.
  - eapply sends_as; [apply read_flags_sends | apply read_flags_message; exact Bbuf].
  - unfold mcp2515_read_flags. rewrite priv_spi_async. reflexivity.
  - base_facts.
  - base_facts. rewrite Bt, <- app_assoc. reflexivity.
  - base_facts. rewrite Bs. reflexivity.
  - base_facts.
  - base_facts.
  - base_facts.
  - base_facts.
  - base_facts.
  - base_facts.
  - exact Bbuf.
  - base_facts.
Qed.

(** The clear-status command completed with the transmit-complete bit in
    the snapshot and the frame in the slot. *)
Lemma stage_clear_complete (dev0 dev : net_device) (m : spi_message) (n : Z)
    (l : list kcall) (st : net_device_stats) (s : sk_buff) (ci ef : Z)
    (reply : list Z) (ok : bool) :
  at_stage dev0 dev m n l st (Some s) ci ef ->
  msg_complete m = Some clear_canintf_complete ->
  truthy (Z.land ci CANINTF_TX0IF) = true ->
  let next := if truthy ef then cmd_clear_eflg (u8 ef) else cmd_read_flags in
  exists dev',
    step (ev_spi_complete reply ok 0) dev = Some dev' /\
    at_stage dev0 dev' next 4
      (l ++ [can_put_echo_skb s; can_get_echo_skb; netif_wake_queue; spi_async next 0])
      (inc_tx_packets (add_tx_bytes (can_dlc (skb_data s)) st)) None ci ef.
Proof.
  intros H Hm Htx next.
  rewrite (stage_step _ _ _ _ _ _ _ _ _ reply ok _ H Hm).
  use_base H reply.
  cbn [run_complete]. unfold mcp2515_clear_canintf_complete.
  rewrite Bc, Htx, Bk. cbv zeta.
  cbn [priv call set_stats set_priv eflg with_skb]. rewrite Be.
  eexists. split; [reflexivity|].
  replace (l ++ [can_put_echo_skb s; can_get_echo_skb; netif_wake_queue; spi_async next 0])
    with ((l ++ [can_put_echo_skb s; can_get_echo_skb; netif_wake_queue]) ++ [spi_async next 0])
    by (rewrite <- app_assoc; reflexivity).
  assert (forall d, buffers_ok d -> eflg (priv d) = ef ->
            sends 0 next d (if truthy ef then mcp2515_clear_eflg 0 d else mcp2515_read_flags 0 d) /\
            transfer_len (priv (if truthy ef then mcp2515_clear_eflg 0 d
                                else mcp2515_read_flags 0 d)) = 4) as Hnext.
  { intros d Hd Hef. subst next. destruct (truthy ef).
    - split.
      + eapply sends_as; [apply clear_eflg_sends|].
        rewrite clear_eflg_message by exact Hd. rewrite Hef. reflexivity.
      + unfold mcp2515_clear_eflg. rewrite priv_spi_async. reflexivity.
    - split.
      + eapply sends_as; [apply read_flags_sends | apply read_flags_message; exact Hd].
      + unfold mcp2515_read_flags. rewrite priv_spi_async. reflexivity. }
  match goal with
  | |- at_stage _ (if _ then mcp2515_clear_eflg 0 ?d else _) _ _ _ _ _ _ _ =>
      destruct (Hnext d) as [Hsend Hlen]; [exact Bbuf | base_facts |]
  end.
  eapply stage_intro.
  - exact Hsend.
  - exact Hlen.
  - base_facts.
  - base_facts. rewrite Bt, <- !app_assoc. reflexivity.
  - base_facts. rewrite Bs. reflexivity.
  - base_facts. reflexivity.
  - base_facts.
  - base_facts.
  - base_facts.
  - base_facts.
  - base_facts.
  - exact Bbuf.
  - base_facts.
Qed.

Lemma truthy_of_bit (c k : Z) : truthy (Z.land c k) = true -> truthy c = true.
Proof.
  unfold truthy. destruct (Z.eqb_spec c 0) as [->|]; [|reflexivity].
  rewrite Z.land_0_l. discriminate.
Qed.

(** X10.  A frame submitted to the idle device is loaded, requested to
    send, and, when the next flags read shows the transmit-complete bit and
    no receive bit, reported upward once after the status was cleared:
    five handler invocations, five commands, the counters of one frame, an
    empty slot and the upper queue woken. *)
Theorem transmit_chain_reports_once (dev0 : net_device) (s : sk_buff)
    (r1 r2 r4 : list Z) (ok1 ok2 ok3 ok4 : bool) (a b c e : Z) :
  busy (priv dev0) = false -> spi_queue dev0 = [] -> buffers_ok dev0 ->
  (14 <= length (transfer_rx_buf (priv dev0)))%nat ->
  wellformed_skb s = true ->
  is_byte c = true -> is_byte e = true ->
  truthy (Z.land c CANINTF_RX0IF) = false ->
  truthy (Z.land c CANINTF_RX1IF) = false ->
  truthy (Z.land c CANINTF_TX0IF) = true ->
  let clear := cmd_clear_canintf (Z.land c 0xfc) in
  let next := if truthy e then cmd_clear_eflg (u8 e) else cmd_read_flags in
  exists dev,
    run [ev_start_xmit s 0; ev_spi_complete r1 ok1 0; ev_spi_complete r2 ok2 0;
         ev_spi_complete [a; b; c; e] ok3 0; ev_spi_complete r4 ok4 0] dev0 = Some dev /\
    trace dev =
      trace dev0 ++
      [netif_stop_queue; spi_async (cmd_load_txb0 s) 0; spi_async cmd_rts_txb0 0;
       spi_async cmd_read_flags 0; spi_async clear 0;
       can_put_echo_skb s; can_get_echo_skb; netif_wake_queue; spi_async next 0] /\
    stats dev = inc_tx_packets (add_tx_bytes (can_dlc (skb_data s)) (stats dev0)) /\
    skb (priv dev) = None /\ spi_queue dev = [next] /\ busy (priv dev) = true.
Proof.
  intros Hb Hq Hbuf Hrx Hw Hc He H0 H1 Htx clear next.
  destruct (stage_start_xmit dev0 s Hb Hq Hbuf Hrx Hw) as (d1 & E1 & S1).
  destruct (stage_load_complete _ _ _ _ _ _ _ _ _ r1 ok1 S1 eq_refl) as (d2 & E2 & S2).
  destruct (stage_rts_complete _ _ _ _ _ _ _ _ _ r2 ok2 S2 eq_refl) as (d3 & E3 & S3).
  destruct (stage_flags_clear _ _ _ _ _ _ _ a b c e ok3 S3 Hc He H0 H1
              (truthy_of_bit _ _ Htx)) as (d4 & E4 & S4).
  destruct (stage_clear_complete _ _ _ _ _ _ _ _ _ r4 ok4 S4 eq_refl Htx)
    as (d5 & E5 & S5).
  exists d5. split.
  { cbn [run]. rewrite E1, E2, E3, E4, E5. reflexivity. }
  destruct S5 as (Q & _ & _ & T & St & K & _ & _ & B & _).
  split; [exact T|]. split; [exact St|]. split; [exact K|].
  split; [exact Q | exact B].
Qed.

(** X11.  An interrupt on the idle device whose flags read shows a frame
    in receive buffer 0 only: the buffer is read, the decoded frame is
    handed to the stack once and counted, and the flags are read again. *)
Theorem receive_chain_delivers_once (dev0 : net_device) (a b c e : Z)
    (reply : list Z) (ok : bool) :
  busy (priv dev0) = false -> spi_queue dev0 = [] -> buffers_ok dev0 ->
  (14 <= length (transfer_rx_buf (priv dev0)))%nat ->
  transmit (priv dev0) = false ->
  is_byte c = true -> is_byte e = true ->
  truthy (Z.land c CANINTF_RX0IF) = true ->
  truthy (Z.land c CANINTF_RX1IF) = false ->
  length reply = 14%nat ->
  let frame := decode_rxb (u8 <$> reply) zeroed_frame in
  exists dev,
    run [ev_interrupt 0; ev_spi_complete [a; b; c; e] ok 0;
         ev_spi_complete reply true 0] dev0 = Some dev /\
    trace dev =
      trace dev0 ++
      [spi_async cmd_read_flags 0; spi_async cmd_read_rxb0 0;
       netif_rx (mk_sk_buff sizeof_can_frame frame); spi_async cmd_read_flags 0] /\
    stats dev = add_rx_bytes (can_dlc frame) (inc_rx_packets (stats dev0)) /\
    skb (priv dev) = skb (priv dev0) /\
    spi_queue dev = [cmd_read_flags] /\ busy (priv dev) = true.
Proof.
  intros Hb Hq Hbuf Hrx Ht Hc He H0 H1 Hr frame.
  destruct (stage_interrupt dev0 Hb Hq Hbuf Hrx) as (d1 & E1 & S1).
  destruct (stage_flags_rx0 _ _ _ _ _ _ _ a b c e ok S1 Hc He H0) as (d2 & E2 & S2).
  destruct (stage_rxb0_complete _ _ _ _ _ _ _ reply S2 Hr H1 Ht) as (d3 & E3 & S3).
  exists d3. split.
  { cbn [run]. rewrite E1, E2, E3. reflexivity. }
  destruct S3 as (Q & _ & _ & T & St & K & _ & _ & B & _).
  split; [exact T|]. split; [exact St|]. split; [exact K|].
  split; [exact Q | exact B].
Qed.

(** X14.  An interrupt on the idle device whose flags read shows no status
    bit, with no producer arriving meanwhile: one command, then the device
    is idle again with its counters and slot untouched. *)
Theorem spurious_interrupt_returns_to_idle (dev0 : net_device) (a b e : Z) (ok : bool) :
  busy (priv dev0) = false -> spi_queue dev0 = [] -> buffers_ok dev0 ->
  (14 <= length (transfer_rx_buf (priv dev0)))%nat ->
  transmit (priv dev0) = false -> interrupt (priv dev0) = false ->
  is_byte e = true ->
  exists dev,
    run [ev_interrupt 0; ev_spi_complete [a; b; 0; e] ok 0] dev0 = Some dev /\
    busy (priv dev) = false /\ spi_queue dev = [] /\
    trace dev = trace dev0 ++ [spi_async cmd_read_flags 0] /\
    stats dev = stats dev0 /\ skb (priv dev) = skb (priv dev0) /\
    canintf (priv dev) = 0 /\ eflg (priv dev) = e.
Proof.
  intros Hb Hq Hbuf Hrx Ht Hi He.
  destruct (stage_interrupt dev0 Hb Hq Hbuf Hrx) as (d1 & E1 & S1).
  destruct (stage_flags_idle _ _ _ _ _ _ _ a b e ok S1 He Ht Hi) as (d2 & E2 & S2).
  exists d2. split.
  { cbn [run]. rewrite E1, E2. reflexivity. }
  exact S2.
Qed.

(** Receive buffer 0 was read and the snapshot has the bit of buffer 1:
    the frame goes to the stack, then buffer 1 is read. *)
Lemma stage_rxb0_then_rxb1 (dev0 dev : net_device) (l : list kcall)
    (st : net_device_stats) (slot : option sk_buff) (ci ef : Z) (reply : list Z) :
  at_stage dev0 dev cmd_read_rxb0 14 l st slot ci ef ->
  length reply = 14%nat ->
  truthy (Z.land ci CANINTF_RX1IF) = true ->
  let frame := decode_rxb (u8 <$> reply) zeroed_frame in
  exists dev',
    step (ev_spi_complete reply true 0) dev = Some dev' /\
    at_stage dev0 dev' cmd_read_rxb1 14
      (l ++ [netif_rx (mk_sk_buff sizeof_can_frame frame); spi_async cmd_read_rxb1 0])
      (add_rx_bytes (can_dlc frame) (inc_rx_packets st)) slot ci ef.
Proof.
  intros H Hr H1 frame.
  rewrite (stage_step _ _ _ _ _ _ _ _ _ reply true _ H eq_refl).
  use_base H reply.
  pose proof H as (_ & _ & _ & _ & _ & _ & _ & _ & _ & _ & _ & _ & Hrx).
  cbn [run_complete].
  unfold mcp2515_read_rxb0_complete, mcp2515_read_rxb_complete, alloc_can_skb.
  cbv zeta. cbn [skb_data skb_len].
  cbn [priv call set_stats canintf]. rewrite Bc, H1.
  eexists. split; [reflexivity|].
  rewrite Bcontent, decode_reply by assumption. fold zeroed_frame. fold frame.
  replace (l ++ [netif_rx (mk_sk_buff sizeof_can_frame frame); spi_async cmd_read_rxb1 0])
    with ((l ++ [netif_rx (mk_sk_buff sizeof_can_frame frame)]) ++ [spi_async cmd_read_rxb1 0])
    by (rewrite <- app_assoc; reflexivity).
  eapply stage_intro.
  - eapply sends_as; [apply read_rxb_sends | apply read_rxb1_message; exact Bbuf].
  - unfold mcp2515_read_rxb1, mcp2515_read_rxb. rewrite priv_spi_async. reflexivity.
  - base_facts.
  - base_facts. rewrite Bt, <- app_assoc. reflexivity.
  - base_facts. rewrite Bs. reflexivity.
  - base_facts.
  - base_facts.
  - base_facts.
  - base_facts.
  - base_facts.
  - base_facts.
  - exact Bbuf.
  - base_facts.
Qed.

(** Receive buffer 1 was read: the frame goes to the stack, then the
    flags are read again. *)
Lemma stage_rxb1_complete (dev0 dev : net_device) (l : list kcall)
    (st : net_device_stats) (slot : option sk_buff) (ci ef : Z) (reply : list Z) :
  at_stage dev0 dev cmd_read_rxb1 14 l st slot ci ef ->
  length reply = 14%nat ->
  transmit (priv dev0) = false ->
  let frame := decode_rxb (u8 <$> reply) zeroed_frame in
  exists dev',
    step (ev_spi_complete reply true 0) dev = Some dev' /\
    at_stage dev0 dev' cmd_read_flags 4
      (l ++ [netif_rx (mk_sk_buff sizeof_can_frame frame); spi_async cmd_read_flags 0])
      (add_rx_bytes (can_dlc frame) (inc_rx_packets st)) slot ci ef.
Proof.
  intros H Hr Ht frame.
  rewrite (stage_step _ _ _ _ _ _ _ _ _ reply true _ H eq_refl).
  use_base H reply.
  pose proof H as (_ & _ & _ & _ & _ & _ & _ & _ & _ & _ & _ & _ & Hrx).
  cbn [run_complete].
  unfold mcp2515_read_rxb1_complete, mcp2515_read_rxb_complete, alloc_can_skb.
  cbv zeta. cbn [skb_data skb_len].
  unfold mcp2515_transmit_or_read_flags.
  cbn [priv call set_stats transmit]. rewrite Btr, Ht.
  eexists. split; [reflexivity|].
  rewrite Bcontent, decode_reply by assumption. fold zeroed_frame. fold frame.
  replace (l ++ [netif_rx (mk_sk_buff sizeof_can_frame frame); spi_async cmd_read_flags 0])
    with ((l ++ [netif_rx (mk_sk_buff sizeof_can_frame frame)]) ++ [spi_async cmd_read_flags 0])
    by (rewrite <- app_assoc; reflexivity).
  eapply stage_intro.
  - eapply sends_as; [apply read_flags_sends | apply read_flags_message; exact Bbuf].
  - unfold mcp2515_read_flags. rewrite priv_spi_async. reflexivity.
  - base_facts.
  - base_facts. rewrite Bt, <- app_assoc. reflexivity.
  - base_facts. rewrite Bs. reflexivity.
  - base_facts.
  - base_facts.
  - base_facts.
  - base_facts.
  - base_facts.
  - base_facts.
  - exact Bbuf.
  - base_facts.
Qed.

(** X12.  When the flags read shows both receive buffers full, buffer 0 is
    read and delivered first, then buffer 1, then the flags are read
    again: two frames go to the stack, in that order, and both are
    counted. *)
Theorem both_receive_buffers_in_order (dev0 : net_device) (a b c e : Z)
    (reply0 reply1 : list Z) (ok : bool) :
  busy (priv dev0) = false -> spi_queue dev0 = [] -> buffers_ok dev0 ->
  (14 <= length (transfer_rx_buf (priv dev0)))%nat ->
  transmit (priv dev0) = false ->
  is_byte c = true -> is_byte e = true ->
  truthy (Z.land c CANINTF_RX0IF) = true ->
  truthy (Z.land c CANINTF_RX1IF) = true ->
  length reply0 = 14%nat -> length reply1 = 14%nat ->
  let frame0 := decode_rxb (u8 <$> reply0) zeroed_frame in
  let frame1 := decode_rxb (u8 <$> reply1) zeroed_frame in
  exists dev,
    run [ev_interrupt 0; ev_spi_complete [a; b; c; e] ok 0;
         ev_spi_complete reply0 true 0; ev_spi_complete reply1 true 0] dev0 = Some dev /\
    trace dev =
      trace dev0 ++
      [spi_async cmd_read_flags 0; spi_async cmd_read_rxb0 0;
       netif_rx (mk_sk_buff sizeof_can_frame frame0); spi_async cmd_read_rxb1 0;
       netif_rx (mk_sk_buff sizeof_can_frame frame1); spi_async cmd_read_flags 0] /\
    stats dev =
      add_rx_bytes (can_dlc frame1) (inc_rx_packets
        (add_rx_bytes (can_dlc frame0) (inc_rx_packets (stats dev0)))) /\
    spi_queue dev = [cmd_read_flags] /\ busy (priv dev) = true.
Proof.
  intros Hb Hq Hbuf Hrx Ht Hc He H0 H1 Hr0 Hr1 frame0 frame1.
  destruct (stage_interrupt dev0 Hb Hq Hbuf Hrx) as (d1 & E1 & S1).
  destruct (stage_flags_rx0 _ _ _ _ _ _ _ a b c e ok S1 Hc He H0) as (d2 & E2 & S2).
  destruct (stage_rxb0_then_rxb1 _ _ _ _ _ _ _ reply0 S2 Hr0 H1) as (d3 & E3 & S3).
  destruct (stage_rxb1_complete _ _ _ _ _ _ _ reply1 S3 Hr1 Ht) as (d4 & E4 & S4).
  exists d4. split.
  { cbn [run]. rewrite E1, E2, E3, E4. reflexivity. }
  destruct S4 as (Q & _ & _ & T & St & _ & _ & _ & B & _).
  split; [rewrite T; reflexivity|]. split; [exact St|].
  split; [exact Q | exact B].
Qed.

(** A submission during a chain: the frame is kept in the slot and the
    transmission is pending. *)
Lemma stage_submit_busy (dev0 dev : net_device) (m : spi_message) (n : Z)
    (l : list kcall) (st : net_device_stats) (slot : option sk_buff) (ci ef : Z)
    (s : sk_buff) (err : Z) :
  at_stage dev0 dev m n l st slot ci ef ->
  wellformed_skb s = true ->
  exists dev',
    step (ev_start_xmit s err) dev = Some dev' /\
    at_stage (set_priv (with_transmit true) dev0) dev' m n
      (l ++ [netif_stop_queue]) st (Some s) ci ef.
Proof.
  intros (Hq & Hc & Hn & Ht & Hs & Hk & Hci & He & Hb & Hi & Htr & Hbuf & Hrx) Hw.
  eexists. split; [reflexivity|].
  unfold mcp2515_start_xmit. rewrite (wellformed_not_dropped dev s Hw).
  cbn [priv call set_priv busy with_skb]. rewrite Hb. cbn [snd].
  unfold at_stage, buffers_ok in *. cbn. rewrite Ht, <- app_assoc.
  repeat split; assumption.
Qed.

(** An interrupt during a chain is left pending. *)
Lemma stage_interrupt_busy (dev0 dev : net_device) (m : spi_message) (n : Z)
    (l : list kcall) (st : net_device_stats) (slot : option sk_buff) (ci ef : Z)
    (err : Z) :
  at_stage dev0 dev m n l st slot ci ef ->
  exists dev',
    step (ev_interrupt err) dev = Some dev' /\
    at_stage (set_priv (with_interrupt true) dev0) dev' m n l st slot ci ef.
Proof.
  intros (Hq & Hc & Hn & Ht & Hs & Hk & Hci & He & Hb & Hi & Htr & Hbuf & Hrx).
  eexists. split; [reflexivity|].
  unfold mcp2515_interrupt. rewrite Hb. cbn [snd].
  unfold at_stage, buffers_ok in *. cbn.
  repeat split; assumption.
Qed.

(** The flags read comes back empty and a transmission is pending: the
    frame of the slot is loaded. *)
Lemma stage_flags_load (dev0 dev : net_device) (l : list kcall)
    (st : net_device_stats) (s : sk_buff) (ci ef a b e : Z) (ok : bool) :
  at_stage dev0 dev cmd_read_flags 4 l st (Some s) ci ef ->
  is_byte e = true -> wellformed_skb s = true ->
  transmit (priv dev0) = true ->
  exists dev',
    step (ev_spi_complete [a; b; 0; e] ok 0) dev = Some dev' /\
    at_stage (set_priv (with_transmit false) dev0) dev' (cmd_load_txb0 s)
      (6 + can_dlc (skb_data s)) (l ++ [spi_async (cmd_load_txb0 s) 0])
      st (Some s) 0 e.
Proof.
  intros H He Hw Ht.
  assert (is_byte 0 = true) as Hc by reflexivity.
  open_flags H a b 0 e Hc He.
  change (truthy (Z.land 0 CANINTF_RX0IF)) with false.
  change (truthy (Z.land 0 CANINTF_RX1IF)) with false.
  change (truthy 0) with false. cbv iota.
  cbn [priv set_priv transmit with_eflg with_canintf].
  rewrite Btr, Ht. unfold load_priv_skb.
  cbn [priv set_priv skb with_transmit with_eflg with_canintf]. rewrite Bk.
  eexists. split; [reflexivity|].
  eapply stage_intro.
  - eapply sends_as; [apply load_txb0_sends | apply load_txb0_message; [exact Bbuf | exact Hw]].
  - unfold mcp2515_load_txb0, mcp2515_set_txbuf. rewrite priv_spi_async.
    cbn [priv set_priv transfer_len with_transfer_len with_message_complete]. lia.
  - base_facts.
  - base_facts.
  - base_facts.
  - base_facts.
  - base_facts. reflexivity.
  - base_facts. reflexivity.
  - base_facts.
  - base_facts.
  - base_facts. reflexivity.
  - exact Bbuf.
  - base_facts.
Qed.

(** X13.  A submission and an interrupt that arrive while the flags read
    of an earlier interrupt is outstanding issue no command themselves,
    and neither is lost: when the read comes back with no status bit, the
    submitted frame is loaded first and the interrupt stays pending. *)
Theorem deferred_producers_are_kept (dev0 : net_device) (s : sk_buff)
    (err1 err2 a b e : Z) (ok : bool) :
  busy (priv dev0) = false -> spi_queue dev0 = [] -> buffers_ok dev0 ->
  (14 <= length (transfer_rx_buf (priv dev0)))%nat ->
  wellformed_skb s = true -> is_byte e = true ->
  exists dev,
    run [ev_interrupt 0; ev_start_xmit s err1; ev_interrupt err2;
         ev_spi_complete [a; b; 0; e] ok 0] dev0 = Some dev /\
    trace dev =
      trace dev0 ++
      [spi_async cmd_read_flags 0; netif_stop_queue; spi_async (cmd_load_txb0 s) 0] /\
    spi_queue dev = [cmd_load_txb0 s] /\ skb (priv dev) = Some s /\
    busy (priv dev) = true /\
    transmit (priv dev) = false /\ interrupt (priv dev) = true /\
    stats dev = stats dev0.
Proof.
  intros Hb Hq Hbuf Hrx Hw He.
  destruct (stage_interrupt dev0 Hb Hq Hbuf Hrx) as (d1 & E1 & S1).
  destruct (stage_submit_busy _ _ _ _ _ _ _ _ _ s err1 S1 Hw) as (d2 & E2 & S2).
  destruct (stage_interrupt_busy _ _ _ _ _ _ _ _ _ err2 S2) as (d3 & E3 & S3).
  destruct (stage_flags_load _ _ _ _ _ _ _ a b e ok S3 He Hw eq_refl) as (d4 & E4 & S4).
  exists d4. split.
  { cbn [run]. rewrite E1, E2, E3, E4. reflexivity. }
  destruct S4 as (Q & _ & _ & T & St & K & _ & _ & B & I & Tr & _).
  split; [rewrite T; reflexivity|].
  split; [exact Q|]. split; [exact K|]. split; [exact B|].
  split; [exact Tr|]. split; [exact I | exact St].
Qed.

End Chains.

(** * The decoder and the encoder on arbitrary bytes *)

Section Decoder.

Local Arguments Z.land : simpl never.
Local Arguments Z.lor : simpl never.
Local Arguments Z.shiftl : simpl never.
Local Arguments Z.shiftr : simpl never.
Local Arguments u8 : simpl never.
Local Arguments u32 : simpl never.

Lemma u32_range (x : Z) : 0 <= u32 x < 2 ^ 32.
Proof.
  unfold u32. change 4294967295 with (Z.ones 32). rewrite Z.land_ones by lia.
  apply Z.mod_pos_bound. lia.
Qed.

Lemma forallb_insert (l : list Z) (i : nat) (x : Z) :
  forallb is_byte l = true -> is_byte x = true ->
  forallb is_byte (<[i := x]> l) = true.
Proof.
  revert i. induction l as [|y l IH]; intros i Hl Hx; [reflexivity|].
  cbn in Hl. apply andb_prop in Hl. destruct Hl as [Hy Hl].
  destruct i as [|i]; cbn.
  - rewrite Hx. exact Hl.
  - rewrite Hy. apply IH; assumption.
Qed.

Lemma forallb_inserts (src dst : list Z) (i : nat) :
  forallb is_byte src = true -> forallb is_byte dst = true ->
  forallb is_byte (list_inserts i src dst) = true.
Proof.
  revert i. induction src as [|x src IH]; intros i Hs Hd; [exact Hd|].
  cbn in Hs. apply andb_prop in Hs. destruct Hs as [Hx Hs].
  cbn. apply forallb_insert; [apply IH; assumption | exact Hx].
Qed.

Lemma forallb_drop (l : list Z) (n : nat) :
  forallb is_byte l = true -> forallb is_byte (drop n l) = true.
Proof.
  revert n. induction l as [|x l IH]; intros n H; [destruct n; reflexivity|].
  destruct n as [|n]; [exact H|].
  cbn in H. apply andb_prop in H. destruct H as [_ H]. apply IH, H.
Qed.

Lemma forallb_take (l : list Z) (n : nat) :
  forallb is_byte l = true -> forallb is_byte (take n l) = true.
Proof.
  revert n. induction l as [|x l IH]; intros n H; [destruct n; reflexivity|].
  destruct n as [|n]; [reflexivity|].
  cbn in H. apply andb_prop in H. destruct H as [Hx H].
  cbn. rewrite Hx. apply IH, H.
Qed.

Lemma falsy_zero (x : Z) : truthy x = false -> x = 0.
Proof. unfold truthy. destruct (Z.eqb_spec x 0); [auto | discriminate]. Qed.

(** The identifier the decoder builds: 32 bits, bit 29 clear; bit 31 set
    for an extended frame, and for a standard frame bits 11 to 28 clear. *)
Lemma decoded_id (x1 x2 x3 x4 : Z) (ide rtr : bool) :
  let ext := u32 (Z.lor (Z.lor (Z.lor (Z.lor (Z.lor
               (Z.shiftl (u8 x1) 21)
               (Z.shiftl (Z.land (u8 x2) 0xe0) 13))
               (Z.shiftl (Z.land (u8 x2) 3) 16))
               (Z.shiftl (u8 x3) 8))
               (u8 x4))
               CAN_EFF_FLAG) in
  let std := u32 (Z.lor (Z.shiftl (u8 x1) 3) (Z.shiftr (u8 x2) 5)) in
  let id0 := if ide then ext else std in
  let id := if rtr then u32 (Z.lor id0 CAN_RTR_FLAG) else id0 in
  Z.testbit id 29 = false /\ Z.testbit id 31 = ide /\
  (ide = false -> Z.land id CAN_EFF_MASK <= CAN_SFF_MASK).
Proof.
  cbv zeta. unfold CAN_EFF_FLAG, CAN_RTR_FLAG, CAN_EFF_MASK, CAN_SFF_MASK.
  split; [destruct ide, rtr; bitblast|].
  split; [destruct ide, rtr; bitblast|].
  intros ->.
  set (id := if rtr then _ else _).
  assert (Z.land id (Z.ones (Z.of_nat 29)) =
          Z.land (Z.land id (Z.ones 11)) (Z.ones (Z.of_nat 29))) as E.
  { apply land_ones_eq. subst id. each_bit_below 29%nat; destruct rtr; bitblast. }
  change 536870911 with (Z.ones (Z.of_nat 29)). rewrite E.
  change (Z.of_nat 29) with 29. rewrite !Z.land_ones by lia.
  pose proof (Z.mod_pos_bound id (2 ^ 11) ltac:(lia)) as H1.
  pose proof (Z.mod_pos_bound (id mod 2 ^ 11) (2 ^ 29) ltac:(lia)) as H2.
  rewrite Z.mod_small by lia. lia.
Qed.

(** X6.  Whatever bytes the chip hands over, the frame the decoder builds
    from them is a valid CAN frame: a 32-bit identifier that fits 11 bits
    unless the extended flag is set, no error flag, a length code of at
    most 8 and eight payload bytes.  The frame is extended exactly when
    the IDE bit of the second identifier byte is set. *)
Theorem decode_rxb_valid (buf : list Z) :
  forallb is_byte buf = true ->
  let f := decode_rxb buf zeroed_frame in
  valid_frame f = true /\
  Z.land (can_id f) CAN_ERR_FLAG = 0 /\
  frame_is_eff f = truthy (Z.land (buf !!! 2%nat) RXBSIDL_IDE).
Proof.
  intros Hb f.
  pose proof (byte_u8 _ (lookup_total_byte buf 1 Hb)) as H1.
  pose proof (byte_u8 _ (lookup_total_byte buf 2 Hb)) as H2.
  pose proof (byte_u8 _ (lookup_total_byte buf 3 Hb)) as H3.
  pose proof (byte_u8 _ (lookup_total_byte buf 4 Hb)) as H4.
  pose proof (dlc_bound (buf !!! 5%nat)) as Hd.
  assert (forallb is_byte (data f) = true /\ length (data f) = 8%nat) as [Hdat Hlen].
  { subst f. unfold decode_rxb, zeroed_frame, memcpy. cbn [data]. split.
    - apply forallb_inserts; [apply forallb_take, forallb_drop, Hb | reflexivity].
    - rewrite length_inserts. reflexivity. }
  assert (can_dlc f = u8 (get_can_dlc (Z.land (buf !!! 5%nat) 0xf))) as Hdlc
    by reflexivity.
  assert (exists (ide rtr : bool) (x1 x2 x3 x4 : Z),
            truthy (Z.land (buf !!! 2%nat) RXBSIDL_IDE) = ide /\
            can_id f =
              (let ext := u32 (Z.lor (Z.lor (Z.lor (Z.lor (Z.lor
                 (Z.shiftl (u8 x1) 21)
                 (Z.shiftl (Z.land (u8 x2) 0xe0) 13))
                 (Z.shiftl (Z.land (u8 x2) 3) 16))
                 (Z.shiftl (u8 x3) 8))
                 (u8 x4))
                 CAN_EFF_FLAG) in
               let std := u32 (Z.lor (Z.shiftl (u8 x1) 3) (Z.shiftr (u8 x2) 5)) in
               let id0 := if ide then ext else std in
               if rtr then u32 (Z.lor id0 CAN_RTR_FLAG) else id0))
    as (ide & rtr & x1 & x2 & x3 & x4 & Hide & Hid).
  { subst f. unfold decode_rxb. cbn [can_id].
    destruct (truthy (Z.land (buf !!! 2%nat) RXBSIDL_IDE)) eqn:E.
    - exists true, (truthy (Z.land (buf !!! 5%nat) RXBDLC_RTR)).
      exists (buf !!! 1%nat), (buf !!! 2%nat), (buf !!! 3%nat), (buf !!! 4%nat).
      split; [reflexivity|].
      cbv zeta. rewrite <- H1, <- H2, <- H3, <- H4. reflexivity.
    - exists false, (truthy (Z.land (buf !!! 2%nat) RXBSIDL_SRR)).
      exists (buf !!! 1%nat), (buf !!! 2%nat), (buf !!! 3%nat), (buf !!! 4%nat).
      split; [reflexivity|].
      cbv zeta. rewrite <- H1, <- H2. reflexivity. }
  destruct (decoded_id x1 x2 x3 x4 ide rtr) as (B29 & B31 & Hstd).
  cbv zeta in Hid, B29, B31, Hstd. rewrite <- Hid in B29, B31, Hstd.
  assert (0 <= can_id f < 2 ^ 32) as Hrange.
  { rewrite Hid. destruct rtr, ide; apply u32_range. }
  assert (frame_is_eff f = ide) as Heff.
  { unfold frame_is_eff. rewrite truthy_EFF_FLAG. exact B31. }
  split; [|split].
  - unfold valid_frame. rewrite Hdat, Hlen, Hdlc, Heff.
    assert ((ide || (Z.land (can_id f) CAN_EFF_MASK <=? CAN_SFF_MASK)) = true) as ->.
    { destruct ide; [reflexivity|]. cbn. apply Z.leb_le, Hstd. reflexivity. }
    repeat (apply andb_true_intro; split); try reflexivity; lia.
  - apply falsy_zero. rewrite (testbit_flag _ 29) by lia. exact B29.
  - rewrite Heff, Hide. reflexivity.
Qed.

End Decoder.

Section Encoder.

(** X5.  [mcp2515_set_txbuf] writes the five header bytes and [can_dlc]
    payload bytes after [base] and nothing else: every other byte of the
    buffer is as it was, the buffer keeps its length, and the length
    returned is the number of bytes written. *)
Theorem set_txbuf_footprint (base : nat) (buf : list Z) (s : sk_buff) (i : nat) :
  (i < base \/ base + 5 + Z.to_nat (can_dlc (skb_data s)) <= i)%nat ->
  fst (mcp2515_set_txbuf base buf s) !! i = buf !! i /\
  length (fst (mcp2515_set_txbuf base buf s)) = length buf /\
  snd (mcp2515_set_txbuf base buf s) = 5 + can_dlc (skb_data s).
Proof.
  intros Hi.
  split; [|split; [apply length_set_txbuf | reflexivity]].
  unfold mcp2515_set_txbuf, memcpy, store. cbn [fst].
  assert (forall src (l : list Z),
            (length src <= Z.to_nat (can_dlc (skb_data s)))%nat ->
            list_inserts (base + 5) src l !! i = l !! i) as Hins.
  { intros src l Hsrc. destruct Hi as [Hi | Hi].
    - apply list_lookup_inserts_lt. lia.
    - apply list_lookup_inserts_ge. lia. }
  assert (forall k v (l : list Z), (k < 5)%nat -> <[(base + k)%nat := v]> l !! i = l !! i)
    as Hst.
  { intros k v l Hk. apply list_lookup_insert_ne. lia. }
  rewrite Hins by (rewrite length_take; lia).
  destruct (truthy (Z.land (can_id (skb_data s)) CAN_RTR_FLAG)),
           (truthy (Z.land (can_id (skb_data s)) CAN_EFF_FLAG));
    rewrite !Hst by lia; reflexivity.
Qed.

End Encoder.

(** * The length of the transfers *)

Section Bounds.

Local Arguments Z.land : simpl never.
Local Arguments Z.lor : simpl never.
Local Arguments Z.lnot : simpl never.
Local Arguments Z.shiftl : simpl never.
Local Arguments Z.shiftr : simpl never.
Local Arguments Z.add : simpl never.
Local Arguments u8 : simpl never.
Local Arguments u32 : simpl never.
Local Arguments ulong : simpl never.
Local Arguments truthy : simpl never.

Lemma transfer_fits_inv (dev : net_device) :
  transfer_fits dev = true <->
  transfer_len (priv dev) <= 14 /\
  forall s, skb (priv dev) = Some s -> can_dlc (skb_data s) <= 8.
Proof.
  unfold transfer_fits. rewrite andb_true_iff, Z.leb_le.
  destruct (skb (priv dev)) as [s0|].
  - rewrite Z.leb_le. split.
    + intros [H1 H2]. split; [exact H1|]. intros s [= <-]. exact H2.
    + intros [H1 H2]. split; [exact H1 | apply H2; reflexivity].
  - split.
    + intros [H1 _]. split; [exact H1 | discriminate].
    + intros [H1 _]. split; [exact H1 | reflexivity].
Qed.

Lemma message_fits (dev : net_device) :
  transfer_len (priv dev) <= 14 -> (length (msg_bytes (message dev)) <= 14)%nat.
Proof. intros H. unfold message. cbn [msg_bytes]. rewrite length_take. lia. Qed.

Ltac projections :=
  cbn [priv stats trace spi_queue set_priv set_stats call tx_store
       canintf eflg skb busy interrupt transmit transfer_len message_complete
       transfer_rx_buf transfer_tx_buf
       with_canintf with_eflg with_skb with_busy with_interrupt with_transmit
       with_message_complete with_transfer_len with_rx_buf with_tx_buf fst snd].

Ltac projections_in H :=
  cbn [priv stats trace spi_queue set_priv set_stats call tx_store
       canintf eflg skb busy interrupt transmit transfer_len message_complete
       transfer_rx_buf transfer_tx_buf
       with_canintf with_eflg with_skb with_busy with_interrupt with_transmit
       with_message_complete with_transfer_len with_rx_buf with_tx_buf fst snd] in H.

Ltac open_builder :=
  unfold mcp2515_read_flags, mcp2515_read_rxb0, mcp2515_read_rxb1, mcp2515_read_rxb,
    mcp2515_clear_canintf, mcp2515_clear_eflg, mcp2515_rts_txb0, mcp2515_load_txb0,
    mcp2515_set_txbuf;
  cbv beta iota zeta; rewrite ?priv_spi_async; projections.

(** A builder leaves a transfer that fits when the frame it is given, and
    the frame in the slot, have a length code of at most 8. *)
Ltac builder_fits Hs :=
  apply transfer_fits_inv; open_builder;
  split; [try lia | intros ? ?; first [discriminate | eapply Hs; eassumption | idtac]].

Lemma callback_fits (cb : completion) (ok : bool) (err : Z) (dev dev' : net_device) :
  transfer_fits dev = true -> run_complete cb ok err dev = Some dev' ->
  transfer_fits dev' = true.
Proof.
  intros Hfit H. apply transfer_fits_inv in Hfit. destruct Hfit as [Hlen Hs].
  destruct cb; cbn [run_complete] in H.
  - unfold mcp2515_read_flags_complete, load_priv_skb in H. cbv zeta in H.
    projections_in H.
    destruct (truthy (Z.land _ CANINTF_RX0IF)); [injection H as <-; builder_fits Hs|].
    destruct (truthy (Z.land _ CANINTF_RX1IF)); [injection H as <-; builder_fits Hs|].
    destruct (truthy _); [injection H as <-; builder_fits Hs|].
    destruct (transmit (priv dev)).
    + destruct (skb (priv dev)) as [s0|] eqn:Hk; [|discriminate].
      injection H as <-. pose proof (Hs s0 eq_refl). builder_fits Hs.
      rewrite Hk in *. congruence.
    + destruct (interrupt (priv dev)); injection H as <-; [builder_fits Hs|].
      apply transfer_fits_inv. projections. auto.
  - unfold mcp2515_read_rxb0_complete, mcp2515_transmit_or_read_flags, load_priv_skb in H.
    destruct (read_rxb_complete_quiet ok dev) as (_ & Hp & _). cbv zeta in Hp.
    cbv zeta in H. projections_in H. rewrite !Hp in H.
    destruct (truthy _); [injection H as <-; builder_fits Hs; rewrite ?Hp in *; eauto|].
    destruct (transmit (priv dev)).
    + destruct (skb (priv dev)) as [s0|] eqn:Hk; [|discriminate].
      injection H as <-. pose proof (Hs s0 eq_refl). builder_fits Hs.
      rewrite ?Hp, ?Hk in *. congruence.
    + injection H as <-. builder_fits Hs. rewrite ?Hp in *. eauto.
  - unfold mcp2515_read_rxb1_complete, mcp2515_transmit_or_read_flags, load_priv_skb in H.
    destruct (read_rxb_complete_quiet ok dev) as (_ & Hp & _). cbv zeta in Hp.
    cbv zeta in H. projections_in H. rewrite !Hp in H.
    destruct (transmit (priv dev)).
    + destruct (skb (priv dev)) as [s0|] eqn:Hk; [|discriminate].
      injection H as <-. pose proof (Hs s0 eq_refl). builder_fits Hs.
      rewrite ?Hp, ?Hk in *. congruence.
    + injection H as <-. builder_fits Hs. rewrite ?Hp in *. eauto.
  - injection H as <-. unfold mcp2515_clear_canintf_complete. cbv zeta.
    destruct (truthy (Z.land _ CANINTF_TX0IF)); [destruct (skb (priv dev)) eqn:Hk|];
      projections; destruct (truthy (eflg (priv dev))); builder_fits Hs.
  - injection H as <-. unfold mcp2515_clear_eflg_complete. cbv zeta.
    destruct (truthy _); builder_fits Hs.
  - injection H as <-. unfold mcp2515_load_txb0_complete. builder_fits Hs.
  - injection H as <-. unfold mcp2515_rts_txb0_complete. builder_fits Hs.
Qed.


Lemma step_fits (e : event) (dev dev' : net_device) :
  transfer_fits dev = true -> step e dev = Some dev' -> transfer_fits dev' = true.
Proof.
  intros Hfit H. destruct e as [err | s err | reply ok err]; cbn [step] in H.
  - apply transfer_fits_inv in Hfit. destruct Hfit as [Hlen Hs].
    injection H as <-. unfold mcp2515_interrupt.
    destruct (busy (priv dev)); cbn [snd]; [|builder_fits Hs].
    apply transfer_fits_inv. projections. auto.
  - apply transfer_fits_inv in Hfit. destruct Hfit as [Hlen Hs].
    injection H as <-. unfold mcp2515_start_xmit, can_dropped_invalid_skb.
    destruct (_ || _) eqn:Hd; cbn [snd].
    + apply transfer_fits_inv. projections. auto.
    + apply orb_false_elim in Hd. destruct Hd as [_ Hd]. apply Z.ltb_ge in Hd.
      projections. destruct (busy (priv dev)); cbn [snd].
      * apply transfer_fits_inv. projections. split; [exact Hlen|].
        intros ? [= <-]. exact Hd.
      * builder_fits Hs. congruence.
  - unfold spi_complete in H. destruct (spi_queue dev) as [|m0 q]; [discriminate|].
    cbn [priv message_complete with_rx_buf] in H.
    destruct (message_complete (priv dev)) as [cb|].
    + eapply callback_fits; [|exact H]; exact Hfit.
    + injection H as <-. exact Hfit.
Qed.

(** What a step adds to the calls: no command, or the one command the
    message structure holds afterwards. *)
Lemma step_issues (e : event) (dev dev' : net_device) :
  step e dev = Some dev' ->
  exists l, trace dev' = trace dev ++ l /\
            (spi_calls l = [] \/ spi_calls l = [message dev']).
Proof.
  destruct e as [err | s err | reply ok err]; cbn [step]; intros H.
  - injection H as <-. unfold mcp2515_interrupt.
    destruct (busy (priv dev)); cbn [snd].
    + exists []. rewrite app_nil_r. auto.
    + destruct (read_flags_sends err (set_priv (with_busy true) dev))
        as (_ & Ht & _).
      eexists. split; [exact Ht|]. right. apply spi_calls_sent.
  - injection H as <-. unfold mcp2515_start_xmit, can_dropped_invalid_skb.
    destruct (_ || _); cbn [snd].
    + exists []. rewrite app_nil_r. auto.
    + change (busy (priv (set_priv (with_skb (Some s)) (call netif_stop_queue dev))))
        with (busy (priv dev)).
      destruct (busy (priv dev)); cbn [snd].
      * exists [netif_stop_queue]. auto.
      * destruct (load_txb0_sends err s
                 (set_priv (with_busy true)
                    (set_priv (with_skb (Some s)) (call netif_stop_queue dev))))
          as (_ & Ht & _).
        eexists (netif_stop_queue :: _).
        split; [rewrite Ht; cbn; rewrite <- app_assoc; reflexivity|].
        right. cbn. apply spi_calls_sent.
  - unfold spi_complete in H. destruct (spi_queue dev) as [|m0 q]; [discriminate|].
    cbn [priv message_complete with_rx_buf] in H.
    destruct (message_complete (priv dev)) as [cb|].
    + apply callback_outcome in H. destruct H as [H | (_ & -> & _)].
      * destruct H as (m & d1 & (Hm & Ht & _) & _ & _ & l & Hl & Hsl).
        exists (l ++ spi_async m err :: err_report err).
        split; [rewrite Ht, Hl, <- app_assoc; reflexivity|].
        right. rewrite spi_calls_app, Hsl, spi_calls_sent, Hm. reflexivity.
      * exists []. rewrite app_nil_r. auto.
    + injection H as <-. exists []. rewrite app_nil_r. auto.
Qed.

(** X7.  No handler ever asks the SPI master for a transfer longer than
    the 14 bytes of the driver's transmit and receive areas: from a device
    whose transfer length is at most 14 and whose slot, if filled, holds a
    frame with a length code of at most 8, this stays so after any
    sequence of interrupts, submissions and completions, and every command
    issued on the way is at most 14 bytes long. *)
Theorem commands_fit_the_buffers (dev0 : net_device) (es : list event)
    (dev : net_device) :
  transfer_fits dev0 = true -> run es dev0 = Some dev ->
  transfer_fits dev = true /\
  List.Forall (fun m => (length (msg_bytes m) <= 14)%nat) (issued_by dev0 dev).
Proof.
  intros Hfit Hrun.
  enough (transfer_fits dev = true /\
          exists l, trace dev = trace dev0 ++ l /\
                    List.Forall (fun m => (length (msg_bytes m) <= 14)%nat) (spi_calls l))
    as (H1 & l & Ht & Hl).
  { rewrite (issued_by_app _ _ _ Ht). auto. }
  revert dev0 Hfit Hrun. induction es as [|e es IH]; cbn [run]; intros dev0 Hfit Hrun.
  - injection Hrun as <-. split; [exact Hfit|].
    exists []. rewrite app_nil_r. split; [reflexivity | constructor].
  - destruct (step e dev0) as [d1|] eqn:Hstep; [|discriminate].
    pose proof (step_fits e dev0 d1 Hfit Hstep) as Hfit1.
    destruct (step_issues e dev0 d1 Hstep) as (l1 & Ht1 & Hl1).
    destruct (IH d1 Hfit1 Hrun) as (H1 & l & Ht & Hl).
    split; [exact H1|]. exists (l1 ++ l).
    split; [rewrite Ht, Ht1, <- app_assoc; reflexivity|].
    rewrite spi_calls_app. apply List.Forall_app. split; [|exact Hl].
    destruct Hl1 as [-> | ->]; [constructor|].
    constructor; [|constructor]. apply message_fits.
    apply transfer_fits_inv in Hfit1. tauto.
Qed.

End Bounds.

(** * The further properties on concrete inputs *)

(** X2 on a bit timing of 16 quanta: the bytes are 0x05, 0xf1 and 0x03. *)
Lemma config_registers_roundtrip_witness :
  bittiming_fits (bittiming example_can) = true /\
  config_buf example_can = [2; 0x28; 5; 0xf1; 3; 0xff] /\
  Z.land (Z.shiftr (config_buf example_can !!! 3%nat) 3) 7 = 6 /\
  Z.land (config_buf example_can !!! 3%nat) 7 = 1 /\
  Z.land (config_buf example_can !!! 4%nat) 0x3f = 3.
Proof.
  split; [reflexivity|]. split; [reflexivity|].
  destruct (config_registers_roundtrip example_can eq_refl)
    as (_ & _ & _ & H1 & Hp & _ & Hb & _).
  split; [exact H1|]. split; [exact Hp | exact Hb].
Defined.

(** X3 when the write of RXB0CTRL is refused: the error is handed on and
    nothing stays held. *)
Lemma open_releases_on_failure_witness :
  let k' := snd (mcp2515_open example_can failing_kernel) in
  fst (mcp2515_open example_can failing_kernel) = -19 /\
  irq_held (new_calls failing_kernel k') = 0 /\
  candev_held (new_calls failing_kernel k') = 0.
Proof.
  intros k'. split; [reflexivity|].
  assert (fst (mcp2515_open example_can failing_kernel) <> 0) as Hr
    by (vm_compute; discriminate).
  destruct (proj2 (open_releases_on_failure example_can failing_kernel) Hr)
    as (Hi & Hd & _).
  split; [exact Hi | exact Hd].
Defined.

(** X4 on a kernel that grants everything. *)
Lemma stop_undoes_open_witness :
  let k1 := snd (mcp2515_open example_can willing_kernel) in
  let k2 := snd (mcp2515_stop k1) in
  fst (mcp2515_open example_can willing_kernel) = 0 /\
  fst (mcp2515_stop k1) = 0 /\
  irq_held (new_calls willing_kernel k2) = 0 /\
  candev_held (new_calls willing_kernel k2) = 0 /\
  new_calls k1 k2 = [spi_write [0xc0] 0; close_candev; free_irq].
Proof.
  intros k1 k2. split; [reflexivity|].
  exact (stop_undoes_open example_can willing_kernel eq_refl).
Defined.

(** X5 on the transmit area: the byte behind the three payload bytes of
    frame 0x123 is untouched. *)
Lemma set_txbuf_footprint_witness :
  let buf := 0x40 :: replicate 13 0xee in
  (1 + 5 + Z.to_nat (can_dlc (skb_data skb_std)) <= 9)%nat /\
  fst (mcp2515_set_txbuf 1 buf skb_std) !! 9%nat = Some 0xee /\
  snd (mcp2515_set_txbuf 1 buf skb_std) = 8.
Proof.
  intros buf.
  assert (1 + 5 + Z.to_nat (can_dlc (skb_data skb_std)) <= 9)%nat as Hi
    by (vm_compute; lia).
  split; [exact Hi|].
  destruct (set_txbuf_footprint 1 buf skb_std 9 (or_intror Hi)) as (Hb & _ & Hn).
  split; [exact Hb | exact Hn].
Defined.

(** X6 on the reply for the extended frame 0x1ABCDEF1. *)
Lemma decode_rxb_valid_witness :
  forallb is_byte rxb_reply_ext = true /\
  valid_frame (decode_rxb rxb_reply_ext zeroed_frame) = true /\
  can_id (decode_rxb rxb_reply_ext zeroed_frame) = 0x9ABCDEF1 /\
  frame_is_eff (decode_rxb rxb_reply_ext zeroed_frame) = true.
Proof.
  split; [reflexivity|].
  destruct (decode_rxb_valid rxb_reply_ext eq_refl) as (Hv & _ & He).
  split; [exact Hv|]. split; [reflexivity | exact He].
Defined.

(** X7 on the run of the example events. *)
Lemma commands_fit_the_buffers_witness :
  transfer_fits fresh_dev = true /\
  exists dev,
    run example_events fresh_dev = Some dev /\
    transfer_fits dev = true /\
    List.Forall (fun m => (length (msg_bytes m) <= 14)%nat) (issued_by fresh_dev dev).
Proof.
  split; [reflexivity|].
  eexists. split; [vm_compute; reflexivity|].
  refine (commands_fit_the_buffers fresh_dev example_events _ _ _);
    [reflexivity | vm_compute; reflexivity].
Defined.

(** X8 after a refused flags read: an interrupt and a submission later,
    nothing has been sent. *)
Lemma stalled_chain_never_resumes_witness :
  busy (priv stalled_dev) = true /\ spi_queue stalled_dev = [] /\
  exists dev',
    run [ev_interrupt 0; ev_start_xmit skb_std 0] stalled_dev = Some dev' /\
    busy (priv dev') = true /\ spi_queue dev' = [] /\
    issued_by stalled_dev dev' = [].
Proof.
  split; [reflexivity|]. split; [reflexivity|].
  eexists. split; [vm_compute; reflexivity|].
  destruct (stalled_chain_never_resumes stalled_dev
              [ev_interrupt 0; ev_start_xmit skb_std 0] _ eq_refl eq_refl
              ltac:(vm_compute; reflexivity)) as (Hb & Hq & Hi & _).
  split; [exact Hb|]. split; [exact Hq | exact Hi].
Defined.

(** X9 on the idle device: after an interrupt and an empty flags read the
    device is idle with nothing pending. *)
Lemma idle_leaves_nothing_pending_witness :
  exists dev,
    run [ev_interrupt 0; ev_spi_complete [0; 0; 0; 0] true 0] fresh_dev = Some dev /\
    busy (priv dev) = false /\
    interrupt (priv dev) = false /\ transmit (priv dev) = false /\
    spi_queue dev = [].
Proof.
  eexists. split; [vm_compute; reflexivity|]. split; [reflexivity|].
  refine (idle_leaves_nothing_pending fresh_dev
            [ev_interrupt 0; ev_spi_complete [0; 0; 0; 0] true 0] _ _ _ _ _ _ _);
    [reflexivity | reflexivity | reflexivity | reflexivity
    | vm_compute; reflexivity | reflexivity].
Defined.

(** X10 for frame 0x123 on the fresh device: one packet of three bytes. *)
Lemma transmit_chain_reports_once_witness :
  exists dev,
    run [ev_start_xmit skb_std 0; ev_spi_complete [] true 0;
         ev_spi_complete [] true 0; ev_spi_complete [0; 0; 4; 0] true 0;
         ev_spi_complete [] true 0] fresh_dev = Some dev /\
    tx_packets (stats dev) = 1 /\ tx_bytes (stats dev) = 3 /\
    skb (priv dev) = None /\ spi_queue dev = [cmd_read_flags].
Proof.
  destruct (transmit_chain_reports_once fresh_dev skb_std [] [] []
              true true true true 0 0 4 0)
    as (dev & Hrun & _ & Hs & Hk & Hq & _);
    [reflexivity | reflexivity | unfold buffers_ok; simpl; lia | simpl; lia
    | reflexivity | reflexivity | reflexivity | reflexivity | reflexivity
    | reflexivity |].
  exists dev. split; [exact Hrun|]. rewrite Hs.
  split; [reflexivity|]. split; [reflexivity|]. split; [exact Hk | exact Hq].
Defined.

(** X11 for the reply that holds frame 0x123: one packet of three bytes
    goes to the stack. *)
Lemma receive_chain_delivers_once_witness :
  exists dev,
    run [ev_interrupt 0; ev_spi_complete [0; 0; 1; 0] true 0;
         ev_spi_complete rxb_reply_std true 0] fresh_dev = Some dev /\
    trace dev =
      [spi_async cmd_read_flags 0; spi_async cmd_read_rxb0 0;
       netif_rx (mk_sk_buff 16 (mk_can_frame 0x123 3 [1; 2; 3; 0; 0; 0; 0; 0]));
       spi_async cmd_read_flags 0] /\
    rx_packets (stats dev) = 1 /\ rx_bytes (stats dev) = 3.
Proof.
  destruct (receive_chain_delivers_once fresh_dev 0 0 1 0 rxb_reply_std true)
    as (dev & Hrun & Ht & Hs & _);
    [reflexivity | reflexivity | unfold buffers_ok; simpl; lia | simpl; lia
    | reflexivity | reflexivity | reflexivity | reflexivity | reflexivity
    | reflexivity |].
  exists dev. split; [exact Hrun|]. rewrite Ht, Hs.
  split; [reflexivity|]. split; reflexivity.
Defined.

(** X12 with frame 0x123 in buffer 0 and frame 0x1ABCDEF1 in buffer 1. *)
Lemma both_receive_buffers_in_order_witness :
  exists dev,
    run [ev_interrupt 0; ev_spi_complete [0; 0; 3; 0] true 0;
         ev_spi_complete rxb_reply_std true 0;
         ev_spi_complete rxb_reply_ext true 0] fresh_dev = Some dev /\
    stack_calls (trace dev) =
      [netif_rx (mk_sk_buff 16 (mk_can_frame 0x123 3 [1; 2; 3; 0; 0; 0; 0; 0]));
       netif_rx (mk_sk_buff 16 (mk_can_frame 0x9ABCDEF1 1 [0xaa; 0; 0; 0; 0; 0; 0; 0]))] /\
    rx_packets (stats dev) = 2 /\ rx_bytes (stats dev) = 4.
Proof.
  destruct (both_receive_buffers_in_order fresh_dev 0 0 3 0
              rxb_reply_std rxb_reply_ext true)
    as (dev & Hrun & Ht & Hs & _);
    [reflexivity | reflexivity | unfold buffers_ok; simpl; lia | simpl; lia
    | reflexivity | reflexivity | reflexivity | reflexivity | reflexivity
    | reflexivity | reflexivity |].
  exists dev. split; [exact Hrun|]. rewrite Ht, Hs.
  split; [reflexivity|]. split; reflexivity.
Defined.

(** X13 for frame 0x123 on the fresh device. *)
Lemma deferred_producers_are_kept_witness :
  exists dev,
    run [ev_interrupt 0; ev_start_xmit skb_std 0; ev_interrupt 0;
         ev_spi_complete [0; 0; 0; 0] true 0] fresh_dev = Some dev /\
    spi_queue dev = [cmd_load_txb0 skb_std] /\
    transmit (priv dev) = false /\ interrupt (priv dev) = true.
Proof.
  destruct (deferred_producers_are_kept fresh_dev skb_std 0 0 0 0 0 true)
    as (dev & Hrun & _ & Hq & _ & _ & Ht & Hi & _);
    [reflexivity | reflexivity | unfold buffers_ok; simpl; lia | simpl; lia
    | reflexivity | reflexivity |].
  exists dev. split; [exact Hrun|]. split; [exact Hq|]. split; [exact Ht | exact Hi].
Defined.

(** X14 on the fresh device. *)
Lemma spurious_interrupt_returns_to_idle_witness :
  exists dev,
    run [ev_interrupt 0; ev_spi_complete [0; 0; 0; 0] true 0] fresh_dev = Some dev /\
    busy (priv dev) = false /\ spi_queue dev = [] /\
    trace dev = [spi_async cmd_read_flags 0].
Proof.
  destruct (spurious_interrupt_returns_to_idle fresh_dev 0 0 0 true)
    as (dev & Hrun & Hb & Hq & Ht & _);
    [reflexivity | reflexivity | unfold buffers_ok; simpl; lia | simpl; lia
    | reflexivity | reflexivity | reflexivity |].
  exists dev. split; [exact Hrun|]. split; [exact Hb|]. split; [exact Hq | exact Ht].
Defined.
